(** * The shopping-assistant agent loop, its tool executor and the
      ecommerce client: a shallow embedding and its verified properties.

    Sources embedded: [src/agent.ts] (class [EcommerceAgent]),
    [src/ecommerce.ts] (class [EcommerceClient]) and [src/index.ts] (the
    command-line program).

    Conventions of the embedding.
    - A JavaScript [number] is a binary64 float ([PrimFloat.float]); every
      arithmetic operation of the source is the corresponding IEEE operation.
    - A JavaScript string is a Rocq [string], read as UTF-8 text.  The
      embedding is exact on ASCII text; [toLowerCase] leaves bytes outside
      ASCII unchanged.
    - Values of static type [any] (tool arguments, response bodies) are
      dynamic values of type [JS.Value].
    - [await]ed calls are sequential calls: a computation is a function from
      the current state to a completion (normal or thrown) and the next state;
      a thrown exception keeps the state reached so far.
    - The language model, the HTTP backend and the clock are oracles of a
      [World]: the n-th call of each kind is answered by the oracle from the
      call number and the request.
    - [console.*] output and [span.setAttribute] are write-only and are not
      recorded; span boundaries, [span.setStatus] and
      [Sentry.captureException] are recorded in a telemetry log.  The
      functions of the command-line program return what they print. *)

From Stdlib Require Import ZArith NArith List String Ascii Bool Lia.
From Stdlib Require Import PrimFloat FloatOps SpecFloat DecimalString QArith Qabs.
Import ListNotations.

Set Warnings "-register-all,-inexact-float".

Close Scope Q_scope.

Local Open Scope string_scope.
Local Open Scope list_scope.

(* ===================================================================== *)
(** * JavaScript values and the built-ins the program uses *)
(* ===================================================================== *)

Module JS.

(** An [Error] object: its [name] (the constructor: Error, TypeError,
    SyntaxError) and its [message]. *)
Record Error := mkError { error_name : string; message : string }.

Definition TypeError (msg : string) : Error := mkError "TypeError" msg.
Definition SyntaxError (msg : string) : Error := mkError "SyntaxError" msg.
Definition new_Error (msg : string) : Error := mkError "Error" msg.

(** Dynamic values.  An object is the list of its own properties in
    creation order, without repeated keys (integer-like keys, which
    JavaScript enumerates first, keep their creation order here; the order
    only shows in serialized text). *)
Inductive Value : Type :=
| Undefined
| Null
| Bool (b : bool)
| Number (x : float)
| Str (s : string)
| Array (elems : list Value)
| Object (props : list (string * Value)).

(** [typeof v === 'string'] *)
Definition typeof_string (v : Value) : bool :=
  match v with Str _ => true | _ => false end.

Definition is_nan (x : float) : bool := negb (PrimFloat.eqb x x).
Definition is_zero (x : float) : bool := PrimFloat.eqb x zero.

(** ToBoolean *)
Definition truthy (v : Value) : bool :=
  match v with
  | Undefined | Null => false
  | Bool b => b
  | Number x => negb (is_zero x || is_nan x)
  | Str s => negb (String.eqb s "")
  | Array _ | Object _ => true
  end.

Fixpoint lookup (k : string) (props : list (string * Value)) : option Value :=
  match props with
  | [] => None
  | (k', v) :: rest => if String.eqb k k' then Some v else lookup k rest
  end.

(** [o[k] = v] on a property list: an existing key keeps its place. *)
Fixpoint set_prop (k : string) (v : Value) (props : list (string * Value))
  : list (string * Value) :=
  match props with
  | [] => [(k, v)]
  | (k', v') :: rest =>
      if String.eqb k k' then (k, v) :: rest else (k', v') :: set_prop k v rest
  end.

Definition cannot_read (what k : string) : Error :=
  TypeError ("Cannot read properties of " ++ what ++ " (reading '" ++ k ++ "')").

(** [v.k] for a property name [k] that no prototype defines (all the names
    the program reads are of this kind): a TypeError on [undefined] and
    [null], the own property of an object, [undefined] otherwise. *)
Definition get (v : Value) (k : string) : Error + Value :=
  match v with
  | Undefined => inl (cannot_read "undefined" k)
  | Null => inl (cannot_read "null" k)
  | Object props =>
      inr (match lookup k props with Some x => x | None => Undefined end)
  | _ => inr Undefined
  end.

(** [a === b] for two values that share no object: primitives compare by
    value (IEEE equality on numbers), objects and arrays are never equal. *)
Definition strict_equals (a b : Value) : bool :=
  match a, b with
  | Undefined, Undefined => true
  | Null, Null => true
  | Bool x, Bool y => Bool.eqb x y
  | Number x, Number y => PrimFloat.eqb x y
  | Str x, Str y => String.eqb x y
  | _, _ => false
  end.

(** ** Strings *)

Definition lower_ascii (c : ascii) : ascii :=
  let n := nat_of_ascii c in
  if (65 <=? n)%nat && (n <=? 90)%nat then ascii_of_nat (n + 32) else c.

(** [String.prototype.toLowerCase] (on ASCII letters). *)
Fixpoint toLowerCase (s : string) : string :=
  match s with
  | EmptyString => EmptyString
  | String c t => String (lower_ascii c) (toLowerCase t)
  end.

(** [hay.includes(needle)] *)
Fixpoint includes (hay needle : string) : bool :=
  String.prefix needle hay
  || match hay with
     | EmptyString => false
     | String _ t => includes t needle
     end.

(** Decimal rendering of a non-negative integer, as in a template literal. *)
Definition string_of_N (n : N) : string :=
  NilEmpty.string_of_uint (N.to_uint n).

Definition string_of_nat (n : nat) : string := string_of_N (N.of_nat n).

(** ** Numbers from decimal notation *)

(** The binary64 value nearest to [(-1)^neg * m * 10^e10] (ties to even). *)
Definition float_of_decimal (neg : bool) (m : N) (e10 : Z) : float :=
  match m with
  | N0 => if neg then neg_zero else zero
  | Npos p =>
      if (400 <? e10)%Z then (if neg then neg_infinity else infinity)
      else if (e10 + Z.of_nat (String.length (string_of_N m)) <? -400)%Z
      then (if neg then neg_zero else zero)
      else if (0 <=? e10)%Z
      then SF2Prim (binary_round prec emax neg (p * Z.to_pos (10 ^ e10)) 0)
      else SF2Prim (SFdiv prec emax
                      (S754_finite neg p 0)
                      (S754_finite false (Z.to_pos (10 ^ (- e10))) 0))
  end.

Definition float_of_N (n : N) : float := float_of_decimal false n 0.
Definition float_of_nat (n : nat) : float := float_of_N (N.of_nat n).

Definition is_digit (c : ascii) : bool :=
  let n := nat_of_ascii c in (48 <=? n)%nat && (n <=? 57)%nat.

Definition digit_value (c : ascii) : N := N.of_nat (nat_of_ascii c - 48).

(** The longest prefix of decimal digits, and what follows it. *)
Fixpoint span_digits (cs : list ascii) : list ascii * list ascii :=
  match cs with
  | c :: t =>
      if is_digit c then let (ds, rest) := span_digits t in (c :: ds, rest)
      else ([], cs)
  | [] => ([], [])
  end.

Definition digits_value (ds : list ascii) : N :=
  fold_left (fun acc c => (acc * 10 + digit_value c)%N) ds 0%N.

(** [e] or [E], an optional sign and at least one digit: the exponent and
    the rest; no exponent part at all gives exponent 0. *)
Definition exponent_part (cs : list ascii) : option (Z * list ascii) :=
  match cs with
  | c :: t =>
      if Ascii.eqb c "e" || Ascii.eqb c "E" then
        let '(neg, t') :=
          match t with
          | s :: t' =>
              if Ascii.eqb s "-" then (true, t')
              else if Ascii.eqb s "+" then (false, t') else (false, t)
          | [] => (false, t)
          end in
        match span_digits t' with
        | ([], _) => None
        | (ds, rest) =>
            let e := Z.of_N (digits_value ds) in
            Some (if neg then (- e)%Z else e, rest)
        end
      else Some (0%Z, cs)
  | [] => Some (0%Z, [])
  end.

(** An unsigned decimal literal with integer digits [ids] and fraction
    digits [fds], scaled by [10^e]. *)
Definition decimal_literal (neg : bool) (ids fds : list ascii) (e : Z) : float :=
  float_of_decimal neg (digits_value (ids ++ fds)) (e - Z.of_nat (List.length fds)).

(** ** JSON.parse *)

(** The quotation mark. *)
Definition quote : ascii := ascii_of_nat 34.

Definition is_json_ws (c : ascii) : bool :=
  Ascii.eqb c " " || Ascii.eqb c "009" || Ascii.eqb c "010" || Ascii.eqb c "013".

Fixpoint skip_ws (cs : list ascii) : list ascii :=
  match cs with
  | c :: t => if is_json_ws c then skip_ws t else cs
  | [] => []
  end.

(** JSON number: an optional minus sign; an integer part, either 0 or
    digits not starting with 0; an optional fraction, a dot and at least one
    digit; an optional exponent. *)
Definition parse_number (cs : list ascii) : option (float * list ascii) :=
  let '(neg, cs1) :=
    match cs with
    | c :: t => if Ascii.eqb c "-" then (true, t) else (false, cs)
    | [] => (false, cs)
    end in
  let '(ids, cs2) := span_digits cs1 in
  let int_ok :=
    match ids with
    | [] => false
    | [_] => true
    | d :: _ => negb (Ascii.eqb d "0")
    end in
  if negb int_ok then None else
  let frac :=
    match cs2 with
    | c :: t =>
        if Ascii.eqb c "." then
          match span_digits t with
          | ([], _) => None
          | (fds, rest) => Some (fds, rest)
          end
        else Some ([], cs2)
    | [] => Some ([], cs2)
    end in
  match frac with
  | None => None
  | Some (fds, cs3) =>
      match exponent_part cs3 with
      | None => None
      | Some (e, cs4) => Some (decimal_literal neg ids fds e, cs4)
      end
  end.

Definition hex_value (c : ascii) : option N :=
  let n := nat_of_ascii c in
  if (48 <=? n)%nat && (n <=? 57)%nat then Some (N.of_nat (n - 48))
  else if (65 <=? n)%nat && (n <=? 70)%nat then Some (N.of_nat (n - 55))
  else if (97 <=? n)%nat && (n <=? 102)%nat then Some (N.of_nat (n - 87))
  else None.

Definition hex4 (a b c d : ascii) : option N :=
  match hex_value a, hex_value b, hex_value c, hex_value d with
  | Some x, Some y, Some z, Some w => Some (((x * 16 + y) * 16 + z) * 16 + w)%N
  | _, _, _, _ => None
  end.

Definition byte (n : N) : ascii := ascii_of_N n.

(** UTF-8 encoding of a code point (a lone surrogate is encoded like any
    other three-byte code point). *)
Definition utf8 (cp : N) : list ascii :=
  if (cp <? 128)%N then [byte cp]
  else if (cp <? 2048)%N then [byte (192 + cp / 64); byte (128 + cp mod 64)]
  else if (cp <? 65536)%N then
    [byte (224 + cp / 4096); byte (128 + (cp / 64) mod 64); byte (128 + cp mod 64)]
  else
    [byte (240 + cp / 262144); byte (128 + (cp / 4096) mod 64);
     byte (128 + (cp / 64) mod 64); byte (128 + cp mod 64)].

Definition is_high_surrogate (u : N) : bool := (55296 <=? u)%N && (u <=? 56319)%N.
Definition is_low_surrogate (u : N) : bool := (56320 <=? u)%N && (u <=? 57343)%N.

(** The characters of a string literal after its opening quote, up to the
    closing quote: the decoded bytes and what follows the closing quote. *)
Fixpoint parse_string_body (cs : list ascii) : option (list ascii * list ascii) :=
  let cons_to (bs : list ascii) (r : option (list ascii * list ascii)) :=
    match r with
    | Some (s, rest) => Some (bs ++ s, rest)
    | None => None
    end in
  match cs with
  | [] => None
  | c :: t =>
      if Ascii.eqb c quote then Some ([], t)
      else if Ascii.eqb c "\" then
        match t with
        | e :: t1 =>
            if Ascii.eqb e quote then cons_to [e] (parse_string_body t1)
            else if Ascii.eqb e "\" then cons_to [e] (parse_string_body t1)
            else if Ascii.eqb e "/" then cons_to [e] (parse_string_body t1)
            else if Ascii.eqb e "b" then cons_to ["008"%char] (parse_string_body t1)
            else if Ascii.eqb e "f" then cons_to ["012"%char] (parse_string_body t1)
            else if Ascii.eqb e "n" then cons_to ["010"%char] (parse_string_body t1)
            else if Ascii.eqb e "r" then cons_to ["013"%char] (parse_string_body t1)
            else if Ascii.eqb e "t" then cons_to ["009"%char] (parse_string_body t1)
            else if Ascii.eqb e "u" then
              match t1 with
              | h1 :: h2 :: h3 :: h4 :: t2 =>
                  match hex4 h1 h2 h3 h4 with
                  | None => None
                  | Some u =>
                      let single := cons_to (utf8 u) (parse_string_body t2) in
                      if is_high_surrogate u then
                        match t2 with
                        | b :: v :: l1 :: l2 :: l3 :: l4 :: t3 =>
                            if Ascii.eqb b "\" && Ascii.eqb v "u" then
                              match hex4 l1 l2 l3 l4 with
                              | Some lo =>
                                  if is_low_surrogate lo then
                                    cons_to
                                      (utf8 (65536 + (u - 55296) * 1024 + (lo - 56320)))
                                      (parse_string_body t3)
                                  else single
                              | None => single
                              end
                            else single
                        | _ => single
                        end
                      else single
                  end
              | _ => None
              end
            else None
        | [] => None
        end
      else if (nat_of_ascii c <? 32)%nat then None
      else cons_to [c] (parse_string_body t)
  end.

Definition starts_with (p : string) (cs : list ascii) : option (list ascii) :=
  let pl := list_ascii_of_string p in
  if list_eq_dec Ascii.ascii_dec (firstn (List.length pl) cs) pl
  then Some (skipn (List.length pl) cs) else None.

(** One JSON value (after optional white space) and the rest of the input.
    [parse_elements] and [parse_members] read what follows the opening
    bracket of an array or an object. *)
Fixpoint parse_value (fuel : nat) (cs : list ascii) {struct fuel}
  : option (Value * list ascii) :=
  match fuel with
  | O => None
  | S fuel' =>
      let parse_elements :=
        fix elements (n : nat) (acc : list Value) (cs : list ascii) {struct n}
          : option (Value * list ascii) :=
          match n with
          | O => None
          | S n' =>
              match parse_value fuel' cs with
              | None => None
              | Some (v, rest) =>
                  match skip_ws rest with
                  | c :: t =>
                      if Ascii.eqb c "," then elements n' (acc ++ [v]) t
                      else if Ascii.eqb c "]" then Some (Array (acc ++ [v]), t)
                      else None
                  | [] => None
                  end
              end
          end in
      let parse_members :=
        fix members (n : nat) (acc : list (string * Value)) (cs : list ascii)
          {struct n} : option (Value * list ascii) :=
          match n with
          | O => None
          | S n' =>
              match skip_ws cs with
              | q :: t =>
                  if Ascii.eqb q quote then
                    match parse_string_body t with
                    | None => None
                    | Some (k, rest) =>
                        match skip_ws rest with
                        | c :: t1 =>
                            if Ascii.eqb c ":" then
                              match parse_value fuel' t1 with
                              | None => None
                              | Some (v, rest1) =>
                                  let acc' :=
                                    set_prop (string_of_list_ascii k) v acc in
                                  match skip_ws rest1 with
                                  | d :: t2 =>
                                      if Ascii.eqb d "," then members n' acc' t2
                                      else if Ascii.eqb d "}" then Some (Object acc', t2)
                                      else None
                                  | [] => None
                                  end
                              end
                            else None
                        | [] => None
                        end
                    end
                  else None
              | [] => None
              end
          end in
      match skip_ws cs with
      | [] => None
      | c :: t =>
          if Ascii.eqb c "[" then
            match skip_ws t with
            | d :: t' =>
                if Ascii.eqb d "]" then Some (Array [], t')
                else parse_elements (List.length t) [] t
            | [] => None
            end
          else if Ascii.eqb c "{" then
            match skip_ws t with
            | d :: t' =>
                if Ascii.eqb d "}" then Some (Object [], t')
                else parse_members (List.length t) [] t
            | [] => None
            end
          else if Ascii.eqb c quote then
            match parse_string_body t with
            | Some (s, rest) => Some (Str (string_of_list_ascii s), rest)
            | None => None
            end
          else if Ascii.eqb c "t" then
            match starts_with "rue" t with
            | Some rest => Some (Bool true, rest) | None => None end
          else if Ascii.eqb c "f" then
            match starts_with "alse" t with
            | Some rest => Some (Bool false, rest) | None => None end
          else if Ascii.eqb c "n" then
            match starts_with "ull" t with
            | Some rest => Some (Null, rest) | None => None end
          else
            match parse_number (c :: t) with
            | Some (x, rest) => Some (Number x, rest)
            | None => None
            end
      end
  end.

(** [JSON.parse(text)]: the value, or the SyntaxError it throws.  The fuel
    bounds the nesting depth, which cannot exceed the length of the text.
    The wording of the error message differs between engines; here it names
    the text. *)
Definition JSON_parse (text : string) : Error + Value :=
  let cs := list_ascii_of_string text in
  match parse_value (S (List.length cs)) cs with
  | Some (v, rest) =>
      match skip_ws rest with
      | [] => inr v
      | _ :: _ => inl (SyntaxError ("Unexpected non-whitespace character after JSON: " ++ text))
      end
  | None => inl (SyntaxError ("Unexpected token in JSON: " ++ text))
  end.

(** ** ToNumber and multiplication *)

(** White space that StringToNumber trims (the ASCII white space and line
    terminators). *)

Definition is_str_ws (c : ascii) : bool :=
  let n := nat_of_ascii c in
  ((9 <=? n)%nat && (n <=? 13)%nat) || (n =? 32)%nat.

Fixpoint skip_str_ws (cs : list ascii) : list ascii :=
  match cs with
  | c :: t => if is_str_ws c then skip_str_ws t else cs
  | [] => []
  end.

Definition trim (cs : list ascii) : list ascii :=
  rev (skip_str_ws (rev (skip_str_ws cs))).

Definition ascii_list_eqb (a b : list ascii) : bool :=
  if list_eq_dec Ascii.ascii_dec a b then true else false.

(** StrUnsignedDecimalLiteral: [Infinity], or digits with an optional
    fraction and exponent, at least one digit before the exponent. *)
Definition str_unsigned_decimal (neg : bool) (cs : list ascii) : option float :=
  if ascii_list_eqb cs (list_ascii_of_string "Infinity")
  then Some (if neg then neg_infinity else infinity)
  else
    let '(ids, r1) := span_digits cs in
    let '(fds, r2) :=
      match r1 with
      | c :: t => if Ascii.eqb c "." then span_digits t else ([], r1)
      | [] => ([], r1)
      end in
    match ids, fds with
    | [], [] => None
    | _, _ =>
        match exponent_part r2 with
        | Some (e, []) => Some (decimal_literal neg ids fds e)
        | _ => None
        end
    end.

Definition str_decimal (cs : list ascii) : option float :=
  match cs with
  | c :: t =>
      if Ascii.eqb c "-" then str_unsigned_decimal true t
      else if Ascii.eqb c "+" then str_unsigned_decimal false t
      else str_unsigned_decimal false cs
  | [] => None
  end.

Definition digit_in_base (base : N) (c : ascii) : option N :=
  match hex_value c with
  | Some d => if (d <? base)%N then Some d else None
  | None => None
  end.

Fixpoint digits_in_base (base : N) (acc : N) (cs : list ascii) : option N :=
  match cs with
  | [] => Some acc
  | c :: t =>
      match digit_in_base base c with
      | Some d => digits_in_base base (acc * base + d)%N t
      | None => None
      end
  end.

(** NonDecimalIntegerLiteral: [0x], [0o] or [0b] and at least one digit. *)
Definition str_non_decimal (cs : list ascii) : option float :=
  match cs with
  | z :: p :: d :: t =>
      if Ascii.eqb z "0" then
        let base :=
          if Ascii.eqb p "x" || Ascii.eqb p "X" then Some 16%N
          else if Ascii.eqb p "o" || Ascii.eqb p "O" then Some 8%N
          else if Ascii.eqb p "b" || Ascii.eqb p "B" then Some 2%N
          else None in
        match base with
        | Some b =>
            match digits_in_base b 0%N (d :: t) with
            | Some n => Some (float_of_N n)
            | None => None
            end
        | None => None
        end
      else None
  | _ => None
  end.

(** StringToNumber: white space is trimmed, the empty string is [+0], a
    string that is not a numeric literal is [NaN]. *)
Definition StringToNumber (s : string) : float :=
  match trim (list_ascii_of_string s) with
  | [] => zero
  | cs =>
      match str_non_decimal cs with
      | Some x => x
      | None =>
          match str_decimal cs with
          | Some x => x
          | None => nan
          end
      end
  end.

Definition has_own (k : string) (props : list (string * Value)) : bool :=
  match lookup k props with Some _ => true | None => false end.

(** Whether converting [v] to a string throws: a parsed object whose own
    [toString] property shadows the inherited method has no callable
    conversion left. *)
Fixpoint toString_throws (v : Value) : bool :=
  match v with
  | Object props => has_own "toString" props
  | Array elems =>
      (fix any (l : list Value) : bool :=
         match l with
         | [] => false
         | e :: t => toString_throws e || any t
         end) elems
  | _ => false
  end.

(** The number an array or object converts to when the conversion does not
    throw: the conversion goes through the string [elems.join(",")]; a
    number printed and read back is itself, except that [-0] prints as
    ["0"]. *)
Fixpoint number_of_object (v : Value) : float :=
  match v with
  | Array [] => zero
  | Array [e] =>
      match e with
      | Undefined | Null => zero
      | Bool _ => nan
      | Number x => if is_zero x then zero else x
      | Str s => StringToNumber s
      | Array _ => number_of_object e
      | Object _ => nan
      end
  | _ => nan
  end.

Definition cannot_convert : Error :=
  TypeError "Cannot convert object to primitive value".

(** ToNumber *)
Definition ToNumber (v : Value) : Error + float :=
  match v with
  | Undefined => inr nan
  | Null => inr zero
  | Bool b => inr (if b then one else zero)
  | Number x => inr x
  | Str s => inr (StringToNumber s)
  | Array _ | Object _ =>
      if toString_throws v then inl cannot_convert else inr (number_of_object v)
  end.

(** [a * b] *)
Definition multiply (a b : Value) : Error + float :=
  match ToNumber a with
  | inl e => inl e
  | inr x =>
      match ToNumber b with
      | inl e => inl e
      | inr y => inr (PrimFloat.mul x y)
      end
  end.

(** ** Iteration, array methods, spread *)

Definition is_continuation_byte (c : ascii) : bool :=
  let n := nat_of_ascii c in (128 <=? n)%nat && (n <? 192)%nat.

(** The code points of a string, each as a string. *)
Definition code_points (s : string) : list string :=
  let step (c : ascii) (st : list ascii * list string) :=
    let '(pending, acc) := st in
    if is_continuation_byte c then (c :: pending, acc)
    else ([], string_of_list_ascii (c :: pending) :: acc) in
  snd (fold_right step ([], []) (list_ascii_of_string s)).

Definition not_iterable (expr : string) : Error :=
  TypeError (expr ++ " is not iterable").

Definition not_a_function (expr : string) : Error :=
  TypeError (expr ++ " is not a function").

(** The elements [for (const x of v)] visits; [expr] is the source text of
    the iterated expression, for the error message. *)
Definition iterate (expr : string) (v : Value) : Error + list Value :=
  match v with
  | Array elems => inr elems
  | Str s => inr (map Str (code_points s))
  | _ => inl (not_iterable expr)
  end.

(** The receiver of an array method call [expr.meth(...)]. *)
Definition array_receiver (expr meth : string) (v : Value) : Error + list Value :=
  match v with
  | Array elems => inr elems
  | Undefined => inl (cannot_read "undefined" meth)
  | Null => inl (cannot_read "null" meth)
  | _ => inl (not_a_function (expr ++ "." ++ meth))
  end.

(** [elems.find(pred)]: the first element accepted, or [undefined]. *)
Fixpoint find (pred : Value -> Error + bool) (elems : list Value) : Error + Value :=
  match elems with
  | [] => inr Undefined
  | p :: rest =>
      match pred p with
      | inl e => inl e
      | inr true => inr p
      | inr false => find pred rest
      end
  end.

(** [elems.filter(pred)] *)
Fixpoint filter (pred : Value -> Error + bool) (elems : list Value)
  : Error + list Value :=
  match elems with
  | [] => inr []
  | p :: rest =>
      match pred p with
      | inl e => inl e
      | inr b =>
          match filter pred rest with
          | inl e => inl e
          | inr kept => inr (if b then p :: kept else kept)
          end
      end
  end.

(** [s.toLowerCase()] on a dynamic receiver written [expr] in the source. *)
Definition call_toLowerCase (expr : string) (v : Value) : Error + string :=
  match v with
  | Str s => inr (toLowerCase s)
  | Undefined => inl (cannot_read "undefined" "toLowerCase")
  | Null => inl (cannot_read "null" "toLowerCase")
  | _ => inl (not_a_function (expr ++ ".toLowerCase"))
  end.

Fixpoint indexed (i : nat) (elems : list Value) : list (string * Value) :=
  match elems with
  | [] => []
  | e :: t => (string_of_nat i, e) :: indexed (S i) t
  end.

(** The own enumerable properties a spread [...v] copies. *)
Definition own_properties (v : Value) : list (string * Value) :=
  match v with
  | Object props => props
  | Array elems => indexed 0 elems
  | Str s => indexed 0 (map (fun c => Str (String c EmptyString)) (list_ascii_of_string s))
  | _ => []
  end.

(** [{...a, ...b}] for an object [a] with the properties [props] *)
Definition spread (props : list (string * Value)) (b : Value) : Value :=
  Object (fold_left (fun acc kv => set_prop (fst kv) (snd kv) acc)
                    (own_properties b) props).

End JS.

(* ===================================================================== *)
(** * Data model ([src/agent.ts], [src/ecommerce.ts]) *)
(* ===================================================================== *)

(** Text that the program builds: a string, or the serialization
    [JSON.stringify(v)] of a value, kept in structured form. *)
Inductive Text : Type :=
| Lit (s : string)
| JSON_stringify (v : JS.Value).

(** [interface ToolCall]; the [arguments] arrive either as a string or as
    an object, depending on the model backend. *)
Record ToolFunction := { name : string; arguments : JS.Value }.
Record ToolCall := { id : string; function : ToolFunction }.

Inductive Role := system | user | assistant | tool.

(** [interface Message] *)
Record Message := {
  role : Role;
  content : Text;
  tool_calls : option (list ToolCall)
}.

(** The reply of the model backend to one chat request. *)
Record ResponseMessage := {
  response_content : option string;
  response_tool_calls : option (list ToolCall)
}.

Record ChatResponse := {
  message : option ResponseMessage;
  prompt_eval_count : option float;
  eval_count : option float
}.

(** One entry of the tool registry [ecommerceTools]. *)
Record Tool := {
  tool_name : string;
  tool_description : string;
  tool_parameters : JS.Value
}.

Record ChatRequest := {
  request_model : string;
  request_messages : list Message;
  request_tools : list Tool
}.

(** What [fetch] resolves to: [ok], [status] and the outcome of [json()]. *)
Record Response := {
  ok : bool;
  status : N;
  json : JS.Error + JS.Value
}.

Inductive RequestInit :=
| GET
| POST (body : Text).

(** The collaborators outside the program.  Each oracle answers the call
    number n of its kind (counted from 0) from the request; [inl e] is a
    rejected promise. *)
Record World := {
  ollama_chat : nat -> ChatRequest -> JS.Error + ChatResponse;
  fetch : nat -> string -> RequestInit -> JS.Error + Response;
  Date_now : nat -> N
}.

(** What the telemetry sink receives. *)
Inductive Event :=
| SpanStart (op span_name : string)
| SpanEnd (op : string)
| SetStatus (code : nat) (status_message : string)
| CaptureException (e : JS.Error) (component : string).

(** [class EcommerceClient] *)
Record EcommerceClient := { baseUrl : string; seParam : string }.

(** [class EcommerceAgent]: its fields. *)
Record EcommerceAgent := {
  ollama : string;
  model : string;
  ecommerceClient : EcommerceClient;
  conversationHistory : list Message;
  enableCostTracking : bool;
  totalConversationCost : float
}.

(** The state a computation runs in: the agent object, the requests sent
    so far to the model backend and to the HTTP backend, in order, the
    number of clock reads, and the telemetry received so far. *)
Record State := {
  this : EcommerceAgent;
  chats : list ChatRequest;
  fetches : list (string * RequestInit);
  clock_reads : nat;
  telemetry : list Event
}.

(* ===================================================================== *)
(** * Computations: state and exceptions *)
(* ===================================================================== *)

Inductive Completion (A : Type) : Type :=
| Normal (a : A)
| Throw (e : JS.Error).

Arguments Normal {A} a.
Arguments Throw {A} e.

Definition M (A : Type) : Type := State -> Completion A * State.

Definition ret {A} (a : A) : M A := fun s => (Normal a, s).

Definition throw {A} (e : JS.Error) : M A := fun s => (Throw e, s).

Definition bind {A B} (m : M A) (k : A -> M B) : M B :=
  fun s =>
    match m s with
    | (Normal a, s') => k a s'
    | (Throw e, s') => (Throw e, s')
    end.

(** [try { body } catch (error) { handler }] *)
Definition try_catch {A} (body : M A) (handler : JS.Error -> M A) : M A :=
  fun s =>
    match body s with
    | (Normal a, s') => (Normal a, s')
    | (Throw e, s') => handler e s'
    end.

(** A pure computation that may throw. *)
Definition lift {A} (r : JS.Error + A) : M A :=
  match r with
  | inl e => throw e
  | inr a => ret a
  end.

Declare Scope js_scope.
Delimit Scope js_scope with js.
Notation "x <- m ;; k" := (bind m (fun x => k))
  (at level 61, m at next level, right associativity) : js_scope.
Notation "m ;; k" := (bind m (fun _ => k))
  (at level 61, right associativity) : js_scope.

(** The same sequencing for pure computations that may throw. *)
Definition bind_sum {A B} (r : JS.Error + A) (k : A -> JS.Error + B) : JS.Error + B :=
  match r with
  | inl e => inl e
  | inr a => k a
  end.

Declare Scope sum_scope.
Delimit Scope sum_scope with sum.
Notation "x <- m ;; k" := (bind_sum m (fun x => k))
  (at level 61, m at next level, right associativity) : sum_scope.

Definition modify (f : State -> State) : M unit := fun s => (Normal tt, f s).

Definition emit (e : Event) : M unit :=
  modify (fun s =>
    {| this := this s; chats := chats s; fetches := fetches s;
       clock_reads := clock_reads s; telemetry := telemetry s ++ [e] |}).

Definition set_this (a : EcommerceAgent) (s : State) : State :=
  {| this := a; chats := chats s; fetches := fetches s;
     clock_reads := clock_reads s; telemetry := telemetry s |}.

Definition get_this : M EcommerceAgent := fun s => (Normal (this s), s).

(** [Sentry.startSpan({op, name}, callback)]: the span brackets the
    callback, whether it returns or throws. *)
Definition startSpan {A} (op span_name : string) (callback : M A) : M A :=
  fun s =>
    let '(r, s1) := bind (emit (SpanStart op span_name)) (fun _ => callback) s in
    (r, snd (emit (SpanEnd op) s1)).

Section Oracles.

Variable W : World.

(** [await fetch(url, init)] *)
Definition do_fetch (url : string) (init : RequestInit) : M Response :=
  fun s =>
    let s' := {| this := this s; chats := chats s;
                 fetches := fetches s ++ [(url, init)];
                 clock_reads := clock_reads s; telemetry := telemetry s |} in
    match fetch W (List.length (fetches s)) url init with
    | inl e => (Throw e, s')
    | inr r => (Normal r, s')
    end.

(** [Date.now()] *)
Definition now : M N :=
  fun s =>
    (Normal (Date_now W (clock_reads s)),
     {| this := this s; chats := chats s; fetches := fetches s;
        clock_reads := S (clock_reads s); telemetry := telemetry s |}).

(** [await this.ollama.chat(request)] *)
Definition do_chat (request : ChatRequest) : M ChatResponse :=
  fun s =>
    let s' := {| this := this s; chats := chats s ++ [request];
                 fetches := fetches s;
                 clock_reads := clock_reads s; telemetry := telemetry s |} in
    match ollama_chat W (List.length (chats s)) request with
    | inl e => (Throw e, s')
    | inr r => (Normal r, s')
    end.

End Oracles.

(* ===================================================================== *)
(** * The ecommerce client ([src/ecommerce.ts]) *)
(* ===================================================================== *)

Module Ecommerce.

Local Open Scope js_scope.

(** [interface Product] *)
Record Product := {
  id : float;
  name : string;
  price : float;
  description : option string;
  category : option string
}.

(** [interface CartItem] (without the optional [product]) *)
Record CartItem := { productId : float; quantity : float }.

Definition optional (k : string) (o : option string) : list (string * JS.Value) :=
  match o with
  | Some s => [(k, JS.Str s)]
  | None => []
  end.

(** A product as the object it is at run time. *)
Definition product_value (p : Product) : JS.Value :=
  JS.Object ([("id", JS.Number (id p)); ("name", JS.Str (name p));
              ("price", JS.Number (price p))]
             ++ optional "description" (description p)
             ++ optional "category" (category p)).

Definition cartItem_value (i : CartItem) : JS.Value :=
  JS.Object [("productId", JS.Number (productId i));
             ("quantity", JS.Number (quantity i))].

Definition catalog_value (ps : list Product) : JS.Value :=
  JS.Array (map product_value ps).

Definition cart_value (items : list CartItem) : JS.Value :=
  JS.Array (map cartItem_value items).

(** The mock data [getProducts] returns if the API fails. *)
Definition mockProducts : list Product :=
  [ {| id := 1; name := "Blue Shirt"; price := 29.99;
       description := None; category := Some "clothing" |};
    {| id := 2; name := "Red Pants"; price := 49.99;
       description := None; category := Some "clothing" |};
    {| id := 3; name := "Black Shoes"; price := 79.99;
       description := None; category := Some "footwear" |};
    {| id := 4; name := "White Hat"; price := 19.99;
       description := None; category := Some "accessories" |};
    {| id := 5; name := "Green Jacket"; price := 99.99;
       description := None; category := Some "clothing" |} ]%float.

Section Client.

Variable W : World.
Variable client : EcommerceClient.

(** [async getProducts()] *)
Definition getProducts : M JS.Value :=
  try_catch
    (response <- do_fetch W (baseUrl client ++ "/api/products?se=" ++ seParam client) GET ;;
     if negb (ok response)
     then throw (JS.new_Error ("HTTP error! status: " ++ JS.string_of_N (status response)))
     else
       data <- lift (json response) ;;
       ret data)
    (fun error =>
       (* Return mock data if API fails *)
       ret (catalog_value mockProducts)).

(** The filter predicate of [searchProducts]:
    [p.name.toLowerCase().includes(lowerQuery) ||
     (p.category && p.category.toLowerCase().includes(lowerQuery))],
    as the truth value [filter] takes of it. *)
Definition matches (lowerQuery : string) (p : JS.Value) : JS.Error + bool :=
  (p_name <- JS.get p "name" ;;
   lower_name <- JS.call_toLowerCase "p.name" p_name ;;
   if JS.includes lower_name lowerQuery then inr true
   else
     p_category <- JS.get p "category" ;;
     if JS.truthy p_category then
       lower_category <- JS.call_toLowerCase "p.category" p_category ;;
       inr (JS.includes lower_category lowerQuery)
     else inr false)%sum.

(** [async searchProducts(query)] *)
Definition searchProducts (query : JS.Value) : M JS.Value :=
  allProducts <- getProducts ;;
  lowerQuery <- lift (JS.call_toLowerCase "query" query) ;;
  elems <- lift (JS.array_receiver "allProducts" "filter" allProducts) ;;
  kept <- lift (JS.filter (matches lowerQuery) elems) ;;
  ret (JS.Array kept).

(** [p => p.id === wanted], where evaluating [wanted] may throw. *)
Definition has_id (wanted : JS.Error + JS.Value) (p : JS.Value) : JS.Error + bool :=
  (p_id <- JS.get p "id" ;;
   w <- wanted ;;
   inr (JS.strict_equals p_id w))%sum.

(** [async getProductById(productId)] *)
Definition getProductById (productId : JS.Value) : M JS.Value :=
  products <- getProducts ;;
  elems <- lift (JS.array_receiver "products" "find" products) ;;
  found <- lift (JS.find (has_id (inr productId)) elems) ;;
  ret (if JS.truthy found then found else JS.Null).

(** One turn of the loop [for (const item of items)] of [createOrder]. *)
Definition add_item (products : JS.Value) (total : float) (item : JS.Value)
  : JS.Error + float :=
  (elems <- JS.array_receiver "products" "find" products ;;
   product <- JS.find (has_id (JS.get item "productId")) elems ;;
   if JS.truthy product then
     product_price <- JS.get product "price" ;;
     item_quantity <- JS.get item "quantity" ;;
     x <- JS.multiply product_price item_quantity ;;
     inr (PrimFloat.add total x)
   else inr total)%sum.

Fixpoint add_items (products : JS.Value) (total : float) (items : list JS.Value)
  : JS.Error + float :=
  match items with
  | [] => inr total
  | item :: rest =>
      (total' <- add_item products total item ;;
       add_items products total' rest)%sum
  end.

(** [let total = 0; for (const item of items) { ... }] *)
Definition order_total (products items : JS.Value) : JS.Error + float :=
  (elems <- JS.iterate "items" items ;;
   add_items products zero elems)%sum.

(** The object literal [{ id: `ORDER-${Date.now()}`, items, total,
    customerEmail, status: 'pending' }] *)
Definition order_props (t : N) (items : JS.Value) (total : float)
  (customerEmail : JS.Value) : list (string * JS.Value) :=
  [("id", JS.Str ("ORDER-" ++ JS.string_of_N t)); ("items", items);
   ("total", JS.Number total); ("customerEmail", customerEmail);
   ("status", JS.Str "pending")].

(** [async createOrder(items, customerEmail)] *)
Definition createOrder (items customerEmail : JS.Value) : M JS.Value :=
  try_catch
    (products <- getProducts ;;
     total <- lift (order_total products items) ;;
     t <- now W ;;
     let order := order_props t items total customerEmail in
     (* Try to send order to API *)
     response <- do_fetch W (baseUrl client ++ "/api/orders?se=" ++ seParam client)
                   (POST (JSON_stringify (JS.Object order))) ;;
     if ok response then
       data <- lift (json response) ;;
       ret (JS.spread order data)
     else
       (* Return order even if API fails *)
       ret (JS.Object order))
    (fun error =>
       (* Return order anyway for demo purposes *)
       products <- getProducts ;;
       total <- lift (order_total products items) ;;
       t <- now W ;;
       ret (JS.Object (order_props t items total customerEmail))).

End Client.

Definition property (k type description : string) : string * JS.Value :=
  (k, JS.Object [("type", JS.Str type); ("description", JS.Str description)]).

Definition parameters (properties : list (string * JS.Value)) (required : list string)
  : JS.Value :=
  JS.Object [("type", JS.Str "object"); ("properties", JS.Object properties);
             ("required", JS.Array (map JS.Str required))].

(** [export const ecommerceTools]: the tool definitions for the agent. *)
Definition ecommerceTools : list Tool :=
  [ {| tool_name := "get_products";
       tool_description := "Get a list of all available products in the store";
       tool_parameters := parameters [] [] |};
    {| tool_name := "search_products";
       tool_description := "Search for products by name or category";
       tool_parameters :=
         parameters
           [property "query" "string" "The search query (product name or category)"]
           ["query"] |};
    {| tool_name := "get_product_details";
       tool_description := "Get detailed information about a specific product by its ID";
       tool_parameters :=
         parameters [property "productId" "number" "The ID of the product"]
                    ["productId"] |};
    {| tool_name := "place_order";
       tool_description :=
         "Place an order with the specified items. Each item should have a productId and quantity.";
       tool_parameters :=
         parameters
           [("items",
             JS.Object
               [("type", JS.Str "array");
                ("description", JS.Str "Array of items to order");
                ("items",
                 JS.Object
                   [("type", JS.Str "object");
                    ("properties",
                     JS.Object
                       [property "productId" "number" "The ID of the product";
                        property "quantity" "number" "The quantity to order"]);
                    ("required", JS.Array [JS.Str "productId"; JS.Str "quantity"])])]);
            property "customerEmail" "string" "Customer email address (optional)"]
           ["items"] |} ].

End Ecommerce.

(* ===================================================================== *)
(** * The agent ([src/agent.ts]) *)
(* ===================================================================== *)

Module Agent.

Local Open Scope js_scope.

(** [interface AgentConfig] *)
Record AgentConfig := {
  config_model : string;
  config_ollamaHost : option string;
  config_ecommerceClient : EcommerceClient;
  config_enableCostTracking : option bool
}.

Definition systemPrompt : string :=
"You are a helpful ecommerce shopping assistant. You can help users:
- Browse and search for products
- Get product details
- Place orders

Available tools:
- get_products: Get all available products
- search_products: Search for products by name or category
- get_product_details: Get details about a specific product by ID
- place_order: Place an order with items (requires productId and quantity for each item)

Always be helpful, accurate, and confirm order details before placing them.".

(** The message the constructor initializes the conversation with. *)
Definition systemMessage : Message :=
  {| role := system; content := Lit systemPrompt; tool_calls := None |}.

(** [constructor(config)] *)
Definition new_EcommerceAgent (config : AgentConfig) : EcommerceAgent :=
  {| ollama :=
       match config_ollamaHost config with
       | Some host => if String.eqb host "" then "http://localhost:11434" else host
       | None => "http://localhost:11434"
       end;
     model := config_model config;
     ecommerceClient := config_ecommerceClient config;
     conversationHistory := [systemMessage];
     enableCostTracking :=
       match config_enableCostTracking config with
       | Some b => b
       | None => false
       end;
     totalConversationCost := 0 |}.

(** The state of a fresh process around a newly constructed agent. *)
Definition initial (config : AgentConfig) : State :=
  {| this := new_EcommerceAgent config; chats := []; fetches := [];
     clock_reads := 0; telemetry := [] |}.

(** [private calculateCost(inputTokens, outputTokens)] *)
Definition calculateCost (agent : EcommerceAgent) (inputTokens outputTokens : float)
  : float :=
  if negb (enableCostTracking agent) then 0%float
  else
    let COST_PER_MILLION_INPUT := 0.15%float in
    let COST_PER_MILLION_OUTPUT := 0.60%float in
    let inputCost := ((inputTokens / 1000000) * COST_PER_MILLION_INPUT)%float in
    let outputCost := ((outputTokens / 1000000) * COST_PER_MILLION_OUTPUT)%float in
    (inputCost + outputCost)%float.

(** [this.conversationHistory.push(m)] *)
Definition push (m : Message) : M unit :=
  modify (fun s =>
    set_this
      {| ollama := ollama (this s); model := model (this s);
         ecommerceClient := ecommerceClient (this s);
         conversationHistory := conversationHistory (this s) ++ [m];
         enableCostTracking := enableCostTracking (this s);
         totalConversationCost := totalConversationCost (this s) |} s).

(** [this.totalConversationCost += turnCost] *)
Definition add_cost (turnCost : float) : M unit :=
  modify (fun s =>
    set_this
      {| ollama := ollama (this s); model := model (this s);
         ecommerceClient := ecommerceClient (this s);
         conversationHistory := conversationHistory (this s);
         enableCostTracking := enableCostTracking (this s);
         totalConversationCost := (totalConversationCost (this s) + turnCost)%float |} s).

(** [reset()] *)
Definition reset (agent : EcommerceAgent) : EcommerceAgent :=
  {| ollama := ollama agent; model := model agent;
     ecommerceClient := ecommerceClient agent;
     (* Keep system prompt: [[this.conversationHistory[0]]]; the history
        always has a first element (lemma [reachable_seeded]) *)
     conversationHistory := firstn 1 (conversationHistory agent);
     enableCostTracking := enableCostTracking agent;
     (* Reset cost tracking *)
     totalConversationCost := 0 |}.

(** [getTotalCost()] *)
Definition getTotalCost (agent : EcommerceAgent) : float :=
  totalConversationCost agent.

(** [getHistory()] *)
Definition getHistory (agent : EcommerceAgent) : list Message :=
  conversationHistory agent.

(** [for (const x of xs) { body }] over a list. *)
Fixpoint for_of {A} (xs : list A) (body : A -> M unit) : M unit :=
  match xs with
  | [] => ret tt
  | x :: rest => body x ;; for_of rest body
  end.

Section Methods.

Variable W : World.

(** The [place_order] case reads [args.items], which might be a string or
    an array depending on the model; a string that does not parse becomes
    the empty array. *)
Definition order_items (items : JS.Value) : JS.Value :=
  match items with
  | JS.Str text =>
      match JS.JSON_parse text with
      | inr parsed => parsed
      | inl e => JS.Array []
      end
  | _ => items
  end.

(** The [switch (toolName)] of [executeTool]. *)
Definition run_tool (client : EcommerceClient) (toolName : string) (args : JS.Value)
  : M JS.Value :=
  if String.eqb toolName "get_products" then
    Ecommerce.getProducts W client
  else if String.eqb toolName "search_products" then
    query <- lift (JS.get args "query") ;;
    Ecommerce.searchProducts W client query
  else if String.eqb toolName "get_product_details" then
    productId <- lift (JS.get args "productId") ;;
    Ecommerce.getProductById W client productId
  else if String.eqb toolName "place_order" then
    items <- lift (JS.get args "items") ;;
    let items := order_items items in
    customerEmail <- lift (JS.get args "customerEmail") ;;
    Ecommerce.createOrder W client items customerEmail
  else
    throw (JS.new_Error ("Unknown tool: " ++ toolName)).

(** [private async executeTool(toolName, args)] *)
Definition executeTool (toolName : string) (args : JS.Value) : M JS.Value :=
  startSpan "gen_ai.execute_tool" ("execute_tool " ++ toolName)
    (try_catch
       (agent <- get_this ;;
        result <- run_tool (ecommerceClient agent) toolName args ;;
        ret result)
       (fun error =>
          (* Mark span as failed *)
          emit (SetStatus 2 "tool_execution_failed") ;;
          (* Capture detailed error in Sentry with full context *)
          emit (CaptureException error "tool_execution") ;;
          throw error)).

(** [private async makeRequest(messages)] *)
Definition makeRequest (messages : list Message) : M ChatResponse :=
  agent <- get_this ;;
  startSpan "gen_ai.request" ("request " ++ model agent)
    (try_catch
       (response <- do_chat W {| request_model := model agent;
                                 request_messages := messages;
                                 request_tools := Ecommerce.ecommerceTools |} ;;
        ret response)
       (fun error =>
          emit (CaptureException error "ollama_request") ;;
          throw error)).

(** The local variables of [chat]. *)
Record Locals := {
  totalInputTokens : float;
  totalOutputTokens : float;
  finalResponse : string;
  iteration : nat
}.

Definition maxIterations : nat := 10.

(** How one turn of the [while] loop ends: [continue] or [break]. *)
Inductive Step :=
| Continue (l : Locals)
| Break (l : Locals).

(** [if (count) total += count] *)
Definition track (total : float) (count : option float) : float :=
  match count with
  | Some c => if JS.truthy (JS.Number c) then (total + c)%float else total
  | None => total
  end.

(** [response.message?.content || ''] *)
Definition content_or_empty (response : ChatResponse) : string :=
  match message response with
  | Some m =>
      match response_content m with
      | Some text => text
      | None => ""
      end
  | None => ""
  end.

(** [response.message?.tool_calls && response.message.tool_calls.length > 0]:
    the tool calls when the test passes. *)
Definition requested_tool_calls (response : ChatResponse) : option (list ToolCall) :=
  match message response with
  | Some m =>
      match response_tool_calls m with
      | Some (toolCall :: rest) => Some (toolCall :: rest)
      | _ => None
      end
  | None => None
  end.

(** The message reporting a failed tool to the model:
    [{ error: errorMessage, tool: toolName, status: 'failed' }]. *)
Definition failure_message (error : JS.Error) (toolName : string) : Message :=
  {| role := tool;
     content :=
       JSON_stringify
         (JS.Object [("error", JS.Str (JS.message error));
                     ("tool", JS.Str toolName);
                     ("status", JS.Str "failed")]);
     tool_calls := None |}.

Definition result_message (toolResult : JS.Value) : Message :=
  {| role := tool; content := JSON_stringify toolResult; tool_calls := None |}.

(** [JSON.stringify(toolResult).substring(0, 200)], evaluated for the
    console: [JSON.stringify(undefined)] is [undefined], which has no
    [substring]. *)
Definition preview (toolResult : JS.Value) : M unit :=
  match toolResult with
  | JS.Undefined => throw (JS.cannot_read "undefined" "substring")
  | _ => ret tt
  end.

(** [typeof toolCall.function.arguments === 'string'
      ? JSON.parse(toolCall.function.arguments)
      : toolCall.function.arguments] *)
Definition decode_arguments (toolCall : ToolCall) : JS.Error + JS.Value :=
  match arguments (function toolCall) with
  | JS.Str text => JS.JSON_parse text
  | structured => inr structured
  end.

(** The body of [for (const toolCall of response.message.tool_calls)]. *)
Definition dispatch (toolCall : ToolCall) : M unit :=
  let toolName := name (function toolCall) in
  toolArgs <- lift (decode_arguments toolCall) ;;
  try_catch
    (toolResult <- executeTool toolName toolArgs ;;
     preview toolResult ;;
     (* Add tool result to history *)
     push (result_message toolResult))
    (fun error =>
       (* Return error info to the model so it can handle gracefully *)
       push (failure_message error toolName)).

(** The body of [while (iteration < maxIterations)]. *)
Definition turn (l : Locals) : M Step :=
  let iteration' := S (iteration l) in
  (* Make request to LLM *)
  agent <- get_this ;;
  response <- makeRequest (conversationHistory agent) ;;
  (* Track tokens *)
  let totalInputTokens' := track (totalInputTokens l) (prompt_eval_count response) in
  let totalOutputTokens' := track (totalOutputTokens l) (eval_count response) in
  (* Check if there are tool calls *)
  match requested_tool_calls response with
  | Some toolCalls =>
      (* Add assistant message with tool calls to history *)
      push {| role := assistant;
              content := Lit (content_or_empty response);
              tool_calls := Some toolCalls |} ;;
      (* Execute each tool call *)
      for_of toolCalls dispatch ;;
      (* Continue loop to get final response *)
      ret (Continue {| totalInputTokens := totalInputTokens';
                       totalOutputTokens := totalOutputTokens';
                       finalResponse := finalResponse l;
                       iteration := iteration' |})
  | None =>
      (* No more tool calls, we have the final response *)
      let finalResponse' := content_or_empty response in
      push {| role := assistant; content := Lit finalResponse'; tool_calls := None |} ;;
      ret (Break {| totalInputTokens := totalInputTokens';
                    totalOutputTokens := totalOutputTokens';
                    finalResponse := finalResponse';
                    iteration := iteration' |})
  end.

(** [while (iteration < maxIterations) { ... }]; the fuel bounds the
    number of turns and [maxIterations - iteration] turns always suffice
    (lemma [agent_loop_fuel]). *)
Fixpoint agent_loop (fuel : nat) (l : Locals) : M Locals :=
  if (iteration l <? maxIterations)%nat then
    match fuel with
    | O => ret l
    | S fuel' =>
        step <- turn l ;;
        match step with
        | Continue l' => agent_loop fuel' l'
        | Break l' => ret l'
        end
    end
  else ret l.

(** The error the [catch] block of [chat] ends with.  [iteration] is
    declared by [let] inside the [try] block (line 290), so it is not in
    scope in the [catch] block, whose call of [Sentry.captureException]
    reads it to build the context [{ ..., iteration_count: iteration }]
    (line 413): evaluating that argument throws a ReferenceError, before
    the exception is captured, logged or re-thrown.  (The program is run
    without type checking, which would have refused the name.) *)
Definition iteration_is_not_defined : JS.Error :=
  JS.mkError "ReferenceError" "iteration is not defined".

(** [async chat(userMessage)] *)
Definition chat (userMessage : string) : M string :=
  startSpan "gen_ai.invoke_agent" "invoke_agent Ecommerce Agent"
    (try_catch
       ((* Add user message to history *)
        push {| role := user; content := Lit userMessage; tool_calls := None |} ;;
        l <- agent_loop maxIterations
               {| totalInputTokens := 0; totalOutputTokens := 0;
                  finalResponse := ""; iteration := 0 |} ;;
        (* Calculate total tokens and cost for this conversation turn *)
        let totalTokens := (totalInputTokens l + totalOutputTokens l)%float in
        agent <- get_this ;;
        (* Track cost for this conversation turn *)
        (if enableCostTracking agent && (0 <? totalTokens)%float then
           let turnCost := calculateCost agent (totalInputTokens l) (totalOutputTokens l) in
           add_cost turnCost
         else ret tt) ;;
        ret (finalResponse l))
       (fun error => throw iteration_is_not_defined)).

End Methods.

End Agent.

(* ===================================================================== *)
(** * src/index.ts: the command-line program *)
(* ===================================================================== *)

Module Cli.

Local Open Scope js_scope.

(** [process.env]: a variable holds a string or is not set. *)
Definition Env := string -> option string.

(** [process.env.X || fallback]: an unset or empty variable gives the
    fallback. *)
Definition or_default (value : option string) (fallback : string) : string :=
  match value with
  | Some v => if String.eqb v "" then fallback else v
  | None => fallback
  end.

Definition OLLAMA_MODEL (env : Env) : string :=
  or_default (env "OLLAMA_MODEL") "llama3.2".

Definition OLLAMA_HOST (env : Env) : string :=
  or_default (env "OLLAMA_HOST") "http://localhost:11434".

Definition ECOMMERCE_BASE_URL (env : Env) : string :=
  or_default (env "ECOMMERCE_BASE_URL")
    "https://application-monitoring-react-dot-sales-engineering-sf.appspot.com".

Definition ECOMMERCE_SE_PARAM (env : Env) : string :=
  or_default (env "ECOMMERCE_SE_PARAM") "prithvi".

(** [process.env.ENABLE_COST_TRACKING === 'true'] *)
Definition ENABLE_COST_TRACKING (env : Env) : bool :=
  match env "ENABLE_COST_TRACKING" with
  | Some v => String.eqb v "true"
  | None => false
  end.

(** [new EcommerceClient(ECOMMERCE_BASE_URL, ECOMMERCE_SE_PARAM)] *)
Definition ecommerceClient (env : Env) : EcommerceClient :=
  {| baseUrl := ECOMMERCE_BASE_URL env; seParam := ECOMMERCE_SE_PARAM env |}.

(** The configuration [new EcommerceAgent({...})] is called with, and the
    state the program starts in. *)
Definition config (env : Env) : Agent.AgentConfig :=
  {| Agent.config_model := OLLAMA_MODEL env;
     Agent.config_ollamaHost := Some (OLLAMA_HOST env);
     Agent.config_ecommerceClient := ecommerceClient env;
     Agent.config_enableCostTracking := Some (ENABLE_COST_TRACKING env) |}.

Definition agent (env : Env) : State := Agent.initial (config env).

(** What the program prints, one constructor for each [console.log] or
    [console.error] whose text depends on the run; the fixed banners are
    left out.  The functions below return what they print. *)
Inductive Output :=
| Asked (query : string)                (* [You: ${query}] of the demo *)
| Thinking                              (* [Agent is thinking...] *)
| AgentSays (response : string)         (* [Agent: ${response}] *)
| ErrorShown (error : JS.Error)         (* [console.error('Error:', error)] *)
| Waited (ms : nat)                     (* the pause between two demo queries *)
| HistoryShown (messages : list Message)
| ResetDone
| Goodbye
| DemoCompleted
| FatalError (error : JS.Error).        (* [console.error('Fatal error:', error)] *)

(** How a run of the program ends: [process.exit(code)], or the input
    stream ends while the prompt waits. *)
Inductive Ending :=
| Exited (code : nat)
| InputClosed.

(** White space and line terminators, among the ASCII characters. *)
Definition is_space (c : ascii) : bool :=
  let n := nat_of_ascii c in
  ((9 <=? n)%nat && (n <=? 13)%nat) || (n =? 32)%nat.

Fixpoint trimStart (s : string) : string :=
  match s with
  | String c rest => if is_space c then trimStart rest else s
  | EmptyString => EmptyString
  end.

Fixpoint trimEnd (s : string) : string :=
  match s with
  | EmptyString => EmptyString
  | String c rest =>
      match trimEnd rest with
      | EmptyString => if is_space c then EmptyString else String c EmptyString
      | kept => String c kept
      end
  end.

(** [String.prototype.trim] (on ASCII text) *)
Definition trim (s : string) : string := trimEnd (trimStart s).

Section Program.

Variable W : World.

(** The body of the [try]/[catch] around [agent.chat]: the answer is
    printed, or the error is. *)
Definition ask (message : string) (after : list Output) : M (list Output) :=
  try_catch
    (response <- Agent.chat W message ;;
     ret (AgentSays response :: after))
    (fun error => ret [ErrorShown error]).

(** What the callback of [rl.question] does with one line of input: what
    it prints, and whether the prompt is shown again ([None]) or the
    process exits. *)
Definition on_input (input : string) : M (list Output * option Ending) :=
  let message := trim input in
  if String.eqb message "" then
    ret ([], None)
  else if String.eqb (JS.toLowerCase message) "exit" then
    ret ([Goodbye], Some (Exited 0))
  else if String.eqb (JS.toLowerCase message) "reset" then
    modify (fun s => set_this (Agent.reset (this s)) s) ;;
    ret ([ResetDone], None)
  else if String.eqb (JS.toLowerCase message) "history" then
    agent <- get_this ;;
    ret ([HistoryShown (Agent.getHistory agent)], None)
  else
    printed <- ask message [] ;;
    ret (Thinking :: printed, None).

(** [interactiveMode()]: the prompt is shown again after each line until
    [exit]; [inputs] are the lines entered at the successive prompts. *)
Fixpoint interactiveMode (inputs : list string) : M (list Output * Ending) :=
  match inputs with
  | [] => ret ([], InputClosed)
  | input :: rest =>
      r <- on_input input ;;
      match snd r with
      | Some ending => ret (fst r, ending)
      | None =>
          r' <- interactiveMode rest ;;
          ret (fst r ++ fst r', snd r')
      end
  end.

Definition demoQueries : list string :=
  ["Hi! Can you show me what products are available?";
   "I'm interested in clothing items. Can you search for those?";
   "I'd like to buy a Blue Shirt and Red Pants. Can you place an order for 1 of each?"].

(** [for (const query of queries) { ... }] of [demoMode] *)
Fixpoint demo_loop (queries : list string) : M (list Output) :=
  match queries with
  | [] => ret []
  | query :: rest =>
      printed <- ask query [Waited 2000] ;;
      more <- demo_loop rest ;;
      ret (Asked query :: printed ++ more)
  end.

(** [demoMode()] *)
Definition demoMode : M (list Output) :=
  printed <- demo_loop demoQueries ;;
  ret (printed ++ [DemoCompleted]).

(** [main()], with [mode] the first command-line argument. *)
Definition main (mode : option string) (inputs : list string)
  : M (list Output * Ending) :=
  (* [mode === 'demo'] *)
  if match mode with Some m => String.eqb m "demo" | None => false end then
    printed <- demoMode ;;
    ret (printed, Exited 0)
  else interactiveMode inputs.

(** [main().catch((error) => { ...; process.exit(1) })] *)
Definition program (mode : option string) (inputs : list string)
  : M (list Output * Ending) :=
  try_catch (main mode inputs)
    (fun error => ret ([FatalError error], Exited 1)).

End Program.

End Cli.

(* ===================================================================== *)
(** * Concrete worlds, used to run the program on examples *)
(* ===================================================================== *)

Module Scenario.

Definition client : EcommerceClient :=
  {| baseUrl := "http://localhost:3000"; seParam := "demo" |}.

Definition config : Agent.AgentConfig :=
  {| Agent.config_model := "llama3.2";
     Agent.config_ollamaHost := None;
     Agent.config_ecommerceClient := client;
     Agent.config_enableCostTracking := Some true |}.

(** A reply that is plain text. *)
Definition says (text : string) (input output : float) : ChatResponse :=
  {| message := Some {| response_content := Some text; response_tool_calls := None |};
     prompt_eval_count := Some input;
     eval_count := Some output |}.

(** A reply that requests tool calls and carries no text. *)
Definition requests (calls : list ToolCall) (input output : float) : ChatResponse :=
  {| message := Some {| response_content := Some ""; response_tool_calls := Some calls |};
     prompt_eval_count := Some input;
     eval_count := Some output |}.

Definition call (tool_name : string) (args : JS.Value) : ToolCall :=
  {| id := "call_0"; function := {| name := tool_name; arguments := args |} |}.

(** The HTTP backend is unreachable. *)
Definition unreachable (n : nat) (url : string) (init : RequestInit)
  : JS.Error + Response :=
  inl (JS.TypeError "fetch failed").

(** The model asks for the product list, then answers in plain text; the
    HTTP backend is unreachable. *)
Definition show_products : World :=
  {| ollama_chat := fun n request =>
       match n with
       | O => inr (requests [call "get_products" (JS.Object [])] 1200 300)
       | _ => inr (says "We have five products." 0 0)
       end;
     fetch := unreachable;
     Date_now := fun n => 1700000000000%N |}.

(** The model asks for a tool that does not exist, then answers in plain
    text. *)
Definition asks_unknown_tool : World :=
  {| ollama_chat := fun n request =>
       match n with
       | O => inr (requests [call "cancel_order" (JS.Object [])] 10 5)
       | _ => inr (says "I cannot cancel orders." 10 5)
       end;
     fetch := unreachable;
     Date_now := fun n => 1700000000000%N |}.

(** The model asks for two tools in one reply, the first of which does not
    exist, then answers in plain text. *)
Definition asks_two_tools : World :=
  {| ollama_chat := fun n request =>
       match n with
       | O => inr (requests [call "cancel_order" (JS.Object []);
                             call "get_products" (JS.Str "{}")] 10 5)
       | _ => inr (says "Here is what I found." 10 5)
       end;
     fetch := unreachable;
     Date_now := fun n => 1700000000000%N |}.

(** The product list is unreachable, so the fallback catalog is current;
    the order API accepts every order and answers with its own record of
    it, whose total includes a shipping fee. *)
Definition confirms_orders : World :=
  {| ollama_chat := fun n request => inr (says "Done." 0 0);
     fetch := fun n url init =>
       match init with
       | GET => inl (JS.TypeError "fetch failed")
       | POST _ =>
           inr {| ok := true; status := 201;
                  json := inr (JS.Object [("id", JS.Str "A-1001");
                                          ("total", JS.Number 119.97);
                                          ("status", JS.Str "confirmed")]) |}
       end;
     Date_now := fun n => 1700000000000%N |}.

(** Two Blue Shirts and one pair of Red Pants. *)
Definition cart : list Ecommerce.CartItem :=
  [ {| Ecommerce.productId := 1; Ecommerce.quantity := 2 |};
    {| Ecommerce.productId := 2; Ecommerce.quantity := 1 |} ]%float.

(** The state in which the agent has just recorded the user message
    [text]. *)
Definition asked (text : string) : State :=
  snd (Agent.push {| role := user; content := Lit text; tool_calls := None |}
         (Agent.initial config)).

(** The model never stops asking for the product list, and says so in
    every reply. *)
Definition keeps_looking : World :=
  {| ollama_chat := fun n request =>
       inr {| message :=
                Some {| response_content := Some "Let me look that up.";
                        response_tool_calls :=
                          Some [call "search_products" (JS.Str "{}")] |};
              prompt_eval_count := Some 10%float;
              eval_count := Some 5%float |};
     fetch := unreachable;
     Date_now := fun n => 1700000000000%N |}.

(** The model backend cannot be reached. *)
Definition model_down : World :=
  {| ollama_chat := fun n request => inl (JS.new_Error "connect ECONNREFUSED");
     fetch := unreachable;
     Date_now := fun n => 1700000000000%N |}.

(** The model always requests the same tool call. *)
Definition always_requests (tc : ToolCall) : World :=
  {| ollama_chat := fun n request => inr (requests [tc] 10 5);
     fetch := unreachable;
     Date_now := fun n => 1700000000000%N |}.

End Scenario.

(* ===================================================================== *)
(** * Notions used to state the properties *)
(* ===================================================================== *)

Definition history (s : State) : list Message := conversationHistory (this s).

(** [m] relates every state it starts in to the state it ends in (however
    it completes) by [R]. *)
Definition stable (R : State -> State -> Prop) {A} (m : M A) : Prop :=
  forall s, R s (snd (m s)).

(** The agent object and the requests sent to the model are untouched. *)
Definition same_agent (s s' : State) : Prop :=
  this s' = this s /\ chats s' = chats s.

(** The request [makeRequest] sends for a message list. *)
Definition chat_request (agent : EcommerceAgent) (messages : list Message) : ChatRequest :=
  {| request_model := model agent;
     request_messages := messages;
     request_tools := Ecommerce.ecommerceTools |}.

(** The tool message that answers a tool call, from the way [executeTool]
    completed: its result serialized, or the failure record (a result that
    is [undefined] has no serialization to preview, which is a failure too). *)
Definition reply_to (toolName : string) (c : Completion JS.Value) : Message :=
  match c with
  | Normal JS.Undefined =>
      Agent.failure_message (JS.cannot_read "undefined" "substring") toolName
  | Normal toolResult => Agent.result_message toolResult
  | Throw error => Agent.failure_message error toolName
  end.

(** [Dispatched W s calls msgs s' r]: starting in [s], the tool calls
    [calls] are taken in order; each one whose arguments decode is executed
    in the state its predecessor left, and its reply is appended to the
    history before the next one is looked at; the first one whose
    arguments do not decode stops the sequence with the decoding error.
    [msgs] are the replies in the order they were appended, [s'] is the
    final state and [r] the completion. *)
Inductive Dispatched (W : World)
  : State -> list ToolCall -> list Message -> State -> Completion unit -> Prop :=
| Dispatched_done s :
    Dispatched W s [] [] s (Normal tt)
| Dispatched_undecodable s toolCall rest e :
    Agent.decode_arguments toolCall = inl e ->
    Dispatched W s (toolCall :: rest) [] s (Throw e)
| Dispatched_next s toolCall rest args msgs s' r :
    Agent.decode_arguments toolCall = inr args ->
    let toolName := name (function toolCall) in
    let executed := Agent.executeTool W toolName args s in
    let reply := reply_to toolName (fst executed) in
    Dispatched W (snd (Agent.push reply (snd executed))) rest msgs s' r ->
    Dispatched W s (toolCall :: rest) (reply :: msgs) s' r.

(** The locals after a turn that received [response]; [final] is the
    final response when the turn ends the loop. *)
Definition after_turn (l : Agent.Locals) (response : ChatResponse)
  (final : option string) : Agent.Locals :=
  {| Agent.totalInputTokens :=
       Agent.track (Agent.totalInputTokens l) (prompt_eval_count response);
     Agent.totalOutputTokens :=
       Agent.track (Agent.totalOutputTokens l) (eval_count response);
     Agent.finalResponse :=
       match final with
       | Some text => text
       | None => Agent.finalResponse l
       end;
     Agent.iteration := S (Agent.iteration l) |}.

(** The assistant message that records the tool calls of a reply. *)
Definition tool_request (response : ChatResponse) (toolCalls : list ToolCall) : Message :=
  {| role := assistant;
     content := Lit (Agent.content_or_empty response);
     tool_calls := Some toolCalls |}.

(** The assistant message that carries the final answer. *)
Definition final_answer (text : string) : Message :=
  {| role := assistant; content := Lit text; tool_calls := None |}.

Definition user_message (text : string) : Message :=
  {| role := user; content := Lit text; tool_calls := None |}.

(** The locals [chat] enters its loop with. *)
Definition initial_locals : Agent.Locals :=
  {| Agent.totalInputTokens := 0; Agent.totalOutputTokens := 0;
     Agent.finalResponse := ""; Agent.iteration := 0 |}.

(** What [chat] does to the state after its loop: the cost of the turn is
    added when cost tracking is enabled and tokens were counted. *)
Definition settle (l : Agent.Locals) (s : State) : State :=
  if enableCostTracking (this s)
     && (0 <? Agent.totalInputTokens l + Agent.totalOutputTokens l)%float
  then snd (Agent.add_cost
              (Agent.calculateCost (this s) (Agent.totalInputTokens l)
                 (Agent.totalOutputTokens l)) s)
  else s.

(** A message of the tool-calling phase: a tool reply, or an assistant
    message that records tool calls.  The final answer is not one. *)
Definition tool_phase (m : Message) : Prop :=
  role m = tool \/ (role m = assistant /\ tool_calls m <> None).

(** The requests of [sent] from number [from] on were all answered with
    tool-call requests ([sent] lists the requests sent to the model, in
    order; the request number [n] is answered by the oracle at [n]). *)
Definition answered_with_tools (W : World) (from : nat) (sent : list ChatRequest)
  : Prop :=
  forall n request,
    from <= n ->
    nth_error sent n = Some request ->
    exists response toolCalls,
      ollama_chat W n request = inr response
      /\ Agent.requested_tool_calls response = Some toolCalls.

(** The requests sent to the model only grow. *)
Definition chats_extend (s s' : State) : Prop :=
  exists more, chats s' = chats s ++ more.

(** The model always answers with tool-call requests, never with plain
    text. *)
Definition always_requests_tools (W : World) : Prop :=
  forall n request,
    exists response toolCalls,
      ollama_chat W n request = inr response
      /\ Agent.requested_tool_calls response = Some toolCalls.

(** Every tool call the model requests has arguments that decode: an
    object, or a string that is valid JSON. *)
Definition arguments_decode (W : World) : Prop :=
  forall n request response toolCalls toolCall,
    ollama_chat W n request = inr response ->
    Agent.requested_tool_calls response = Some toolCalls ->
    In toolCall toolCalls ->
    exists args, Agent.decode_arguments toolCall = inr args.

(** The cost estimate in the words of the specification: zero when cost
    tracking is disabled, otherwise
    [inputTokens/1000000*0.15 + outputTokens/1000000*0.60]. *)
Definition cost_spec (enabled : bool) (inputTokens outputTokens : float) : float :=
  if enabled
  then (inputTokens / 1000000 * 0.15 + outputTokens / 1000000 * 0.60)%float
  else 0%float.

(** The rational number a finite float stands for. *)
Definition exact (x : float) : option Q :=
  match Prim2SF x with
  | S754_zero _ => Some 0%Q
  | S754_finite sign m e =>
      let magnitude :=
        match e with
        | Zneg p => Qmake (Zpos m) (2 ^ p)
        | _ => inject_Z (Zpos m * 2 ^ e)
        end in
      Some (if sign then Qopp magnitude else magnitude)
  | _ => None
  end.

(** The states a process can be in: a fresh agent, then any sequence of
    [chat] invocations (however they complete) and resets. *)
Inductive Reachable (W : World) : State -> Prop :=
| Reachable_new config : Reachable W (Agent.initial config)
| Reachable_chat s userMessage :
    Reachable W s -> Reachable W (snd (Agent.chat W userMessage s))
| Reachable_reset s :
    Reachable W s -> Reachable W (set_this (Agent.reset (this s)) s).

Definition is_system (m : Message) : bool :=
  match role m with system => true | _ => false end.

(** The history starts with the seed system message and holds no other
    system message. *)
Definition seeded (s : State) : Prop :=
  exists rest,
    history s = Agent.systemMessage :: rest
    /\ Forall (fun m => role m <> system) rest.

(** The URL [getProducts] fetches. *)
Definition products_url (client : EcommerceClient) : string :=
  baseUrl client ++ "/api/products?se=" ++ seParam client.

(** The URL [createOrder] posts to. *)
Definition orders_url (client : EcommerceClient) : string :=
  baseUrl client ++ "/api/orders?se=" ++ seParam client.

(** A backend call that fails: the transport fails, or the response is
    not OK. *)
Definition call_fails (outcome : JS.Error + Response) : Prop :=
  match outcome with
  | inl _ => True
  | inr response => ok response = false
  end.

(** A state with one more request sent to the HTTP backend. *)
Definition fetched (url : string) (init : RequestInit) (s : State) : State :=
  {| this := this s; chats := chats s; fetches := fetches s ++ [(url, init)];
     clock_reads := clock_reads s; telemetry := telemetry s |}.

(** A tool name of the registry [ecommerceTools]. *)
Definition registered (toolName : string) : Prop :=
  In toolName (map tool_name Ecommerce.ecommerceTools).

(** What [executeTool] reports to the telemetry sink when the tool throws
    [error]. *)
Definition failure_report (toolName : string) (error : JS.Error) : list Event :=
  [SpanStart "gen_ai.execute_tool" ("execute_tool " ++ toolName);
   SetStatus 2 "tool_execution_failed";
   CaptureException error "tool_execution";
   SpanEnd "gen_ai.execute_tool"].

(** What [getProducts] returns for an outcome of its backend call. *)
Definition products_from (outcome : JS.Error + Response) : JS.Value :=
  match outcome with
  | inr response =>
      if ok response then
        match json response with
        | inr data => data
        | inl _ => Ecommerce.catalog_value Ecommerce.mockProducts
        end
      else Ecommerce.catalog_value Ecommerce.mockProducts
  | inl _ => Ecommerce.catalog_value Ecommerce.mockProducts
  end.

(** The [catch] block of [createOrder]: the order is computed locally
    again and returned. *)
Definition order_anyway (W : World) (client : EcommerceClient)
  (items customerEmail : JS.Value) : M JS.Value :=
  bind (Ecommerce.getProducts W client) (fun products =>
  bind (lift (Ecommerce.order_total products items)) (fun total =>
  bind (now W) (fun t =>
  ret (JS.Object (Ecommerce.order_props t items total customerEmail))))).

(** A state with one more clock read. *)
Definition clock_read (s : State) : State :=
  {| this := this s; chats := chats s; fetches := fetches s;
     clock_reads := S (clock_reads s); telemetry := telemetry s |}.

(** [m] answers the tool call [toolCall]: it is the reply to a completion
    of the tool of that name, run on the decoded arguments. *)
Definition answers (toolCall : ToolCall) (m : Message) : Prop :=
  exists args c,
    Agent.decode_arguments toolCall = inr args
    /\ m = reply_to (name (function toolCall)) c.

(** The first product of the catalog with the given id, if any. *)
Definition resolve (catalog : list Ecommerce.Product) (productId : float)
  : option Ecommerce.Product :=
  List.find (fun p => PrimFloat.eqb (Ecommerce.id p) productId) catalog.

(** The total of an order in the words of the specification: the sum, item
    by item from zero, of price times quantity over the items whose
    productId resolves against the catalog; an item that does not resolve
    adds nothing. *)
Definition expected_total (catalog : list Ecommerce.Product)
  (items : list Ecommerce.CartItem) : float :=
  fold_left
    (fun total item =>
       match resolve catalog (Ecommerce.productId item) with
       | Some p => (total + Ecommerce.price p * Ecommerce.quantity item)%float
       | None => total
       end)
    items 0%float.

(** The catalog [getProducts] obtains, whenever it is called: what the
    backend serves, or the fallback when the backend fails. *)
Definition current_catalog (W : World) (client : EcommerceClient)
  (catalog : list Ecommerce.Product) : Prop :=
  forall n,
    products_from (fetch W n (products_url client) GET)
    = Ecommerce.catalog_value catalog.


(** The product a lookup by id finds in a catalog: the first product whose
    id is the given number, [null] when there is none or when the id is
    not a number. *)
Definition lookup_product (catalog : list Ecommerce.Product) (productId : JS.Value)
  : JS.Value :=
  match productId with
  | JS.Number x =>
      match resolve catalog x with
      | Some p => Ecommerce.product_value p
      | None => JS.Null
      end
  | _ => JS.Null
  end.

(** A value that [for ... of] cannot iterate: neither an array nor a
    string. *)
Definition not_iterable_value (v : JS.Value) : Prop :=
  match v with
  | JS.Array _ | JS.Str _ => False
  | _ => True
  end.

(** A value that is not a string. *)
Definition not_a_string (v : JS.Value) : Prop :=
  match v with
  | JS.Str _ => False
  | _ => True
  end.

(** What the telemetry sink receives for one tool execution: the span
    alone when the tool returns, the failure report when it throws. *)
Definition tool_report (toolName : string) (c : Completion JS.Value) : list Event :=
  match c with
  | Normal _ =>
      [SpanStart "gen_ai.execute_tool" ("execute_tool " ++ toolName);
       SpanEnd "gen_ai.execute_tool"]
  | Throw error => failure_report toolName error
  end.

(** What the telemetry sink receives for one request to the model. *)
Definition request_report (agent : EcommerceAgent) (c : JS.Error + ChatResponse)
  : list Event :=
  match c with
  | inr _ =>
      [SpanStart "gen_ai.request" ("request " ++ model agent);
       SpanEnd "gen_ai.request"]
  | inl error =>
      [SpanStart "gen_ai.request" ("request " ++ model agent);
       CaptureException error "ollama_request";
       SpanEnd "gen_ai.request"]
  end.

(** Nothing is reported to the telemetry sink. *)
Definition same_telemetry (s s' : State) : Prop := telemetry s' = telemetry s.

(** The settings of the agent: everything but the conversation and the
    cumulative cost. *)
Definition same_settings (a a' : EcommerceAgent) : Prop :=
  ollama a' = ollama a
  /\ model a' = model a
  /\ ecommerceClient a' = ecommerceClient a
  /\ enableCostTracking a' = enableCostTracking a.

(** The conversation has only grown, by messages that are not system
    messages, and the settings and the cumulative cost are what they were. *)
Definition grows (s s' : State) : Prop :=
  (exists added,
      history s' = history s ++ added
      /\ Forall (fun m => role m <> system) added)
  /\ same_settings (this s) (this s')
  /\ totalConversationCost (this s') = totalConversationCost (this s).

(** A request as [makeRequest] builds it for an agent with the model
    [agent_model]: it names that model, offers the whole tool registry and
    its messages start with the seed system message. *)
Definition well_formed_request (agent_model : string) (request : ChatRequest) : Prop :=
  request_model request = agent_model
  /\ request_tools request = Ecommerce.ecommerceTools
  /\ hd_error (request_messages request) = Some Agent.systemMessage.


(** The messages of a conversation made of user queries, each followed by
    what the agent appended for it. *)
Fixpoint conversation (turns : list (string * list Message)) : list Message :=
  match turns with
  | [] => []
  | (query, appended) :: rest => user_message query :: appended ++ conversation rest
  end.

(** A computation that can only fail with a TypeError. *)
Definition throws_only_TypeError {A} (m : M A) : Prop :=
  forall s e, fst (m s) = Throw e -> JS.error_name e = "TypeError".

Definition fails_only_with_TypeError {A} (r : JS.Error + A) : Prop :=
  forall e, r = inl e -> JS.error_name e = "TypeError".

(* ===================================================================== *)
(** * Reasoning about computations *)
(* ===================================================================== *)

Section Stable.

Variable R : State -> State -> Prop.
Hypothesis R_refl : forall s, R s s.
Hypothesis R_trans : forall a b c, R a b -> R b c -> R a c.

Lemma stable_ret {A} (a : A) : stable R (ret a).
Proof. intro s. apply R_refl. Qed.

Lemma stable_throw {A} (e : JS.Error) : stable R (@throw A e).
Proof. intro s. apply R_refl. Qed.

Lemma stable_lift {A} (r : JS.Error + A) : stable R (lift r).
Proof. destruct r; [apply stable_throw | apply stable_ret]. Qed.

Lemma stable_get_this : stable R get_this.
Proof. intro s. apply R_refl. Qed.

Lemma stable_bind {A B} (m : M A) (k : A -> M B) :
  stable R m -> (forall a, stable R (k a)) -> stable R (bind m k).
Proof.
  intros Hm Hk s. unfold bind.
  specialize (Hm s). destruct (m s) as [[a | e] s1]; simpl in *.
  - eapply R_trans; [exact Hm | apply Hk].
  - exact Hm.
Qed.

Lemma stable_try_catch {A} (body : M A) (handler : JS.Error -> M A) :
  stable R body -> (forall e, stable R (handler e)) ->
  stable R (try_catch body handler).
Proof.
  intros Hb Hh s. unfold try_catch.
  specialize (Hb s). destruct (body s) as [[a | e] s1]; simpl in *.
  - exact Hb.
  - eapply R_trans; [exact Hb | apply Hh].
Qed.

Hypothesis R_emit : forall e, stable R (emit e).

Lemma stable_startSpan {A} (op span_name : string) (callback : M A) :
  stable R callback -> stable R (startSpan op span_name callback).
Proof.
  intros Hc s. unfold startSpan.
  pose proof (stable_bind (emit (SpanStart op span_name)) (fun _ => callback)
                (R_emit _) (fun _ => Hc) s) as H.
  destruct (bind (emit (SpanStart op span_name)) (fun _ => callback) s) as [r s1].
  simpl in *. eapply R_trans; [exact H | apply R_emit].
Qed.

Variable W : World.
Hypothesis R_fetch : forall url init, stable R (do_fetch W url init).
Hypothesis R_now : stable R (now W).

Ltac stable_step :=
  first
    [ apply stable_ret | apply stable_throw | apply stable_lift
    | apply stable_get_this | apply R_emit | apply R_fetch | apply R_now
    | apply stable_bind; [ | intro ]
    | apply stable_try_catch; [ | intro ]
    | apply stable_startSpan
    | match goal with
      | |- stable R (if ?b then _ else _) => destruct b
      | |- stable R (match ?x with _ => _ end) => destruct x
      | |- stable R (let _ := _ in _) => cbv zeta
      end ].

Lemma stable_getProducts client : stable R (Ecommerce.getProducts W client).
Proof. unfold Ecommerce.getProducts. repeat stable_step. Qed.

Lemma stable_searchProducts client query :
  stable R (Ecommerce.searchProducts W client query).
Proof.
  unfold Ecommerce.searchProducts.
  apply stable_bind; [apply stable_getProducts | intro]. repeat stable_step.
Qed.

Lemma stable_getProductById client productId :
  stable R (Ecommerce.getProductById W client productId).
Proof.
  unfold Ecommerce.getProductById.
  apply stable_bind; [apply stable_getProducts | intro]. repeat stable_step.
Qed.

Lemma stable_createOrder client items customerEmail :
  stable R (Ecommerce.createOrder W client items customerEmail).
Proof.
  unfold Ecommerce.createOrder.
  apply stable_try_catch; [ | intro ];
    (apply stable_bind; [apply stable_getProducts | intro]); repeat stable_step.
Qed.

Lemma stable_run_tool client toolName args :
  stable R (Agent.run_tool W client toolName args).
Proof.
  unfold Agent.run_tool.
  repeat
    first
      [ apply stable_getProducts | apply stable_searchProducts
      | apply stable_getProductById | apply stable_createOrder | stable_step ].
Qed.

Lemma stable_executeTool toolName args :
  stable R (Agent.executeTool W toolName args).
Proof.
  unfold Agent.executeTool.
  apply stable_startSpan. apply stable_try_catch; [ | intro; repeat stable_step ].
  apply stable_bind; [apply stable_get_this | intro].
  apply stable_bind; [apply stable_run_tool | intro]. apply stable_ret.
Qed.

(** Only messages of the roles [user], [assistant] and [tool] are pushed. *)
Hypothesis R_push : forall m, role m <> system -> stable R (Agent.push m).

Lemma stable_dispatch toolCall : stable R (Agent.dispatch W toolCall).
Proof.
  unfold Agent.dispatch.
  apply stable_bind; [apply stable_lift | intro].
  apply stable_try_catch.
  - apply stable_bind; [apply stable_executeTool | intro].
    apply stable_bind; [unfold Agent.preview; destruct a0; repeat stable_step | intro].
    apply R_push. discriminate.
  - intro. apply R_push. discriminate.
Qed.

Lemma stable_for_of {A} (xs : list A) (body : A -> M unit) :
  (forall x, stable R (body x)) -> stable R (Agent.for_of xs body).
Proof.
  intro Hb. induction xs as [ | x rest IH]; simpl.
  - apply stable_ret.
  - apply stable_bind; [apply Hb | intro; exact IH].
Qed.

Hypothesis R_chat : forall request, stable R (do_chat W request).
Hypothesis R_add_cost : forall c, stable R (Agent.add_cost c).

Lemma stable_makeRequest messages : stable R (Agent.makeRequest W messages).
Proof.
  unfold Agent.makeRequest.
  apply stable_bind; [apply stable_get_this | intro].
  apply stable_startSpan. apply stable_try_catch; [ | intro ].
  - apply stable_bind; [apply R_chat | intro; apply stable_ret].
  - repeat stable_step.
Qed.

Lemma stable_turn l : stable R (Agent.turn W l).
Proof.
  unfold Agent.turn.
  apply stable_bind; [apply stable_get_this | intro].
  apply stable_bind; [apply stable_makeRequest | intro].
  destruct (Agent.requested_tool_calls a0).
  - apply stable_bind; [apply R_push; discriminate | intro].
    apply stable_bind; [apply stable_for_of; apply stable_dispatch | intro].
    apply stable_ret.
  - apply stable_bind; [apply R_push; discriminate | intro]. apply stable_ret.
Qed.

Lemma stable_agent_loop fuel l : stable R (Agent.agent_loop W fuel l).
Proof.
  revert l. induction fuel as [ | fuel IH]; intro l; simpl.
  - destruct (Nat.ltb (Agent.iteration l) Agent.maxIterations); apply stable_ret.
  - destruct (Nat.ltb (Agent.iteration l) Agent.maxIterations); [ | apply stable_ret ].
    apply stable_bind; [apply stable_turn | intros [l' | l']];
      [apply IH | apply stable_ret].
Qed.

Lemma stable_chat userMessage : stable R (Agent.chat W userMessage).
Proof.
  unfold Agent.chat.
  apply stable_startSpan.
  apply stable_try_catch; [ | intro; apply stable_throw ].
  apply stable_bind; [apply R_push; discriminate | intro].
  apply stable_bind; [apply stable_agent_loop | intro].
  apply stable_bind; [apply stable_get_this | intro].
  apply stable_bind; [ | intro; apply stable_ret ].
  destruct (_ && _); [apply R_add_cost | apply stable_ret].
Qed.

End Stable.

(* ===================================================================== *)
(** * The tool executor leaves the conversation alone *)
(* ===================================================================== *)

Lemma same_agent_refl s : same_agent s s.
Proof. split; reflexivity. Qed.

Lemma same_agent_trans a b c : same_agent a b -> same_agent b c -> same_agent a c.
Proof. intros [H1 H2] [H3 H4]. split; congruence. Qed.

Lemma executeTool_same_agent W toolName args :
  stable same_agent (Agent.executeTool W toolName args).
Proof.
  apply stable_executeTool;
    first [ exact same_agent_refl | exact same_agent_trans
          | unfold stable, do_fetch; intros;
            try destruct (fetch _ _ _ _); split; reflexivity ].
Qed.

Lemma history_push m s : history (snd (Agent.push m s)) = history s ++ [m].
Proof. reflexivity. Qed.

Lemma chats_push m s : chats (snd (Agent.push m s)) = chats s.
Proof. reflexivity. Qed.

(** A tool call whose arguments decode is executed, and exactly one
    message, the reply, is appended; the dispatch itself never throws. *)
Lemma dispatch_decoded W toolCall args s :
  Agent.decode_arguments toolCall = inr args ->
  let toolName := name (function toolCall) in
  let executed := Agent.executeTool W toolName args s in
  Agent.dispatch W toolCall s =
  (Normal tt, snd (Agent.push (reply_to toolName (fst executed)) (snd executed))).
Proof.
  intros Hdec. unfold Agent.dispatch. rewrite Hdec. simpl.
  unfold bind at 1. unfold ret at 1.
  unfold try_catch, bind.
  destruct (Agent.executeTool W (name (function toolCall)) args s) as [[r | e] s1];
    simpl; [destruct r | ]; reflexivity.
Qed.

(** A tool call whose arguments do not decode throws the decoding error
    before anything is executed. *)
Lemma dispatch_undecodable W toolCall e s :
  Agent.decode_arguments toolCall = inl e ->
  Agent.dispatch W toolCall s = (Throw e, s).
Proof. intros Hdec. unfold Agent.dispatch. rewrite Hdec. reflexivity. Qed.

Lemma for_of_Dispatched W toolCalls :
  forall s,
  exists msgs,
    Dispatched W s toolCalls msgs
      (snd (Agent.for_of toolCalls (Agent.dispatch W) s))
      (fst (Agent.for_of toolCalls (Agent.dispatch W) s)).
Proof.
  induction toolCalls as [ | toolCall rest IH]; intro s.
  - exists []. apply Dispatched_done.
  - destruct (Agent.decode_arguments toolCall) as [e | args] eqn:Hdec.
    + exists []. simpl. unfold bind.
      rewrite (dispatch_undecodable W toolCall e s Hdec). simpl.
      apply Dispatched_undecodable. exact Hdec.
    + simpl. unfold bind.
      rewrite (dispatch_decoded W toolCall args s Hdec).
      cbv zeta.
      destruct (IH (snd (Agent.push
                           (reply_to (name (function toolCall))
                              (fst (Agent.executeTool W (name (function toolCall)) args s)))
                           (snd (Agent.executeTool W (name (function toolCall)) args s)))))
        as [msgs Hmsgs].
      eexists. eapply Dispatched_next; [exact Hdec | exact Hmsgs].
Qed.

Lemma role_reply_to toolName c : role (reply_to toolName c) = tool.
Proof. destruct c as [[ | | | | | | ] | ]; reflexivity. Qed.

Lemma Dispatched_history W s toolCalls msgs s' r :
  Dispatched W s toolCalls msgs s' r ->
  history s' = history s ++ msgs /\ chats s' = chats s
  /\ Forall (fun m => role m = tool) msgs
  /\ List.length msgs <= List.length toolCalls
  /\ (r = Normal tt -> List.length msgs = List.length toolCalls).
Proof.
  induction 1 as [s | s toolCall rest e Hdec
                 | s toolCall rest args msgs s' r Hdec toolName executed reply Hrest IH].
  - rewrite app_nil_r. repeat split; auto.
  - rewrite app_nil_r. repeat split; auto; simpl; [lia | discriminate].
  - destruct IH as (Hh & Hc & Hroles & Hlen & Hall).
    destruct (executeTool_same_agent W toolName args s) as [Hthis Hchats].
    fold executed in Hthis, Hchats.
    rewrite history_push in Hh. rewrite chats_push in Hc.
    unfold history in *. rewrite Hthis in Hh.
    repeat split.
    + rewrite Hh, <- app_assoc. reflexivity.
    + congruence.
    + constructor; [apply role_reply_to | exact Hroles].
    + simpl. lia.
    + intro Hr. simpl. rewrite (Hall Hr). reflexivity.
Qed.

(* ===================================================================== *)
(** * One model exchange, one turn of the loop *)
(* ===================================================================== *)

Lemma makeRequest_spec W messages s :
  let request := chat_request (this s) messages in
  let r := Agent.makeRequest W messages s in
  fst r = match ollama_chat W (List.length (chats s)) request with
          | inr response => Normal response
          | inl e => Throw e
          end
  /\ this (snd r) = this s
  /\ chats (snd r) = chats s ++ [request]
  /\ fetches (snd r) = fetches s.
Proof.
  cbv [Agent.makeRequest bind get_this startSpan try_catch emit modify do_chat
       ret throw chat_request].
  simpl. destruct (ollama_chat W _ _); simpl; auto.
Qed.

(** The body of the loop, case by case. *)
Lemma turn_unfold W l s :
  Agent.turn W l s =
  let '(r, s1) := Agent.makeRequest W (history s) s in
  match r with
  | Throw e => (Throw e, s1)
  | Normal response =>
      match Agent.requested_tool_calls response with
      | Some toolCalls =>
          let s2 := snd (Agent.push (tool_request response toolCalls) s1) in
          let '(r', s3) := Agent.for_of toolCalls (Agent.dispatch W) s2 in
          (match r' with
           | Normal _ => Normal (Agent.Continue (after_turn l response None))
           | Throw e => Throw e
           end, s3)
      | None =>
          (Normal (Agent.Break
                     (after_turn l response (Some (Agent.content_or_empty response)))),
           snd (Agent.push (final_answer (Agent.content_or_empty response)) s1))
      end
  end.
Proof.
  unfold Agent.turn. unfold bind at 1. unfold get_this. unfold bind at 1.
  unfold history.
  destruct (Agent.makeRequest W (conversationHistory (this s)) s) as [[response | e] s1];
    [ | reflexivity ].
  destruct (Agent.requested_tool_calls response) as [toolCalls | ].
  - unfold bind at 1. cbn [Agent.push modify fst snd].
    unfold bind at 1.
    destruct (Agent.for_of toolCalls (Agent.dispatch W) _) as [[[] | e] s3];
      reflexivity.
  - reflexivity.
Qed.

(** Every turn sends exactly one request to the model, at its start, and
    the request carries the history as it stands then. *)
Lemma turn_chats W l s :
  chats (snd (Agent.turn W l s)) = chats s ++ [chat_request (this s) (history s)].
Proof.
  rewrite turn_unfold.
  destruct (makeRequest_spec W (history s) s) as (_ & _ & Hchats & _).
  destruct (Agent.makeRequest W (history s) s) as [[response | e] s1];
    simpl in Hchats; [ | exact Hchats ].
  destruct (Agent.requested_tool_calls response) as [toolCalls | ].
  - cbv zeta.
    destruct (for_of_Dispatched W toolCalls
                (snd (Agent.push (tool_request response toolCalls) s1))) as [msgs HD].
    apply Dispatched_history in HD. destruct HD as (_ & Hc & _).
    destruct (Agent.for_of toolCalls (Agent.dispatch W) _) as [r' s3].
    simpl in *. rewrite Hc. exact Hchats.
  - simpl. exact Hchats.
Qed.

(** A turn whose reply carries tool calls: the assistant message is
    appended, then the tool calls are dispatched in order. *)
Lemma turn_requests_tools W l s response toolCalls :
  ollama_chat W (List.length (chats s)) (chat_request (this s) (history s)) = inr response ->
  Agent.requested_tool_calls response = Some toolCalls ->
  exists s2 msgs r,
    history s2 = history s ++ [tool_request response toolCalls]
    /\ chats s2 = chats s ++ [chat_request (this s) (history s)]
    /\ Dispatched W s2 toolCalls msgs (snd (Agent.turn W l s)) r
    /\ fst (Agent.turn W l s) =
       match r with
       | Normal _ => Normal (Agent.Continue (after_turn l response None))
       | Throw e => Throw e
       end.
Proof.
  intros Hreply Hcalls. rewrite turn_unfold.
  destruct (makeRequest_spec W (history s) s) as (Hfst & Hthis & Hchats & _).
  cbv zeta in Hfst. rewrite Hreply in Hfst.
  destruct (Agent.makeRequest W (history s) s) as [r1 s1]. simpl in *. subst r1.
  rewrite Hcalls. cbv zeta.
  destruct (for_of_Dispatched W toolCalls
              (snd (Agent.push (tool_request response toolCalls) s1))) as [msgs HD].
  destruct (Agent.for_of toolCalls (Agent.dispatch W) _) as [r' s3].
  simpl in HD.
  exists (snd (Agent.push (tool_request response toolCalls) s1)), msgs, r'.
  split; [ | split; [ | split ] ].
  - rewrite history_push. unfold history. rewrite Hthis. reflexivity.
  - rewrite chats_push. exact Hchats.
  - exact HD.
  - destruct r' as [[] | e]; reflexivity.
Qed.

(** A turn whose reply is plain text ends the loop with that text. *)
Lemma turn_final_answer W l s response :
  ollama_chat W (List.length (chats s)) (chat_request (this s) (history s)) = inr response ->
  Agent.requested_tool_calls response = None ->
  fst (Agent.turn W l s) =
    Normal (Agent.Break (after_turn l response (Some (Agent.content_or_empty response))))
  /\ history (snd (Agent.turn W l s)) =
     history s ++ [final_answer (Agent.content_or_empty response)].
Proof.
  intros Hreply Hcalls. rewrite turn_unfold.
  destruct (makeRequest_spec W (history s) s) as (Hfst & Hthis & _).
  cbv zeta in Hfst. rewrite Hreply in Hfst.
  destruct (Agent.makeRequest W (history s) s) as [r1 s1]. simpl in *. subst r1.
  rewrite Hcalls. simpl. split; [reflexivity | ].
  unfold history. simpl. rewrite Hthis. reflexivity.
Qed.

(** A turn whose request fails throws, and appends nothing. *)
Lemma turn_request_fails W l s e :
  ollama_chat W (List.length (chats s)) (chat_request (this s) (history s)) = inl e ->
  fst (Agent.turn W l s) = Throw e
  /\ history (snd (Agent.turn W l s)) = history s.
Proof.
  intros Hreply. rewrite turn_unfold.
  destruct (makeRequest_spec W (history s) s) as (Hfst & Hthis & _).
  cbv zeta in Hfst. rewrite Hreply in Hfst.
  destruct (Agent.makeRequest W (history s) s) as [r1 s1]. simpl in *. subst r1.
  split; [reflexivity | ]. unfold history. simpl. rewrite Hthis. reflexivity.
Qed.

(** Whatever a turn received, it counts one more iteration. *)
Lemma turn_iteration W l s step :
  fst (Agent.turn W l s) = Normal step ->
  Agent.iteration
    (match step with Agent.Continue l' => l' | Agent.Break l' => l' end)
  = S (Agent.iteration l).
Proof.
  rewrite turn_unfold.
  destruct (Agent.makeRequest W (history s) s) as [[response | e] s1];
    [ | discriminate ].
  destruct (Agent.requested_tool_calls response) as [toolCalls | ].
  - cbv zeta. destruct (Agent.for_of toolCalls (Agent.dispatch W) _) as [[[] | e] s3];
      simpl; intro H; [ | discriminate ].
    injection H as <-. reflexivity.
  - simpl. intro H. injection H as <-. reflexivity.
Qed.

(* ===================================================================== *)
(** * The loop *)
(* ===================================================================== *)

Lemma agent_loop_S W fuel l :
  Agent.agent_loop W (S fuel) l =
  if (Agent.iteration l <? Agent.maxIterations)%nat then
    bind (Agent.turn W l)
      (fun step =>
         match step with
         | Agent.Continue l' => Agent.agent_loop W fuel l'
         | Agent.Break l' => ret l'
         end)
  else ret l.
Proof. reflexivity. Qed.

Lemma agent_loop_done W fuel l :
  Agent.maxIterations <= Agent.iteration l ->
  Agent.agent_loop W fuel l = ret l.
Proof.
  intro H. destruct fuel; simpl;
    destruct (Nat.ltb_spec (Agent.iteration l) Agent.maxIterations);
    try reflexivity; lia.
Qed.

(** The loop never runs out of fuel: [maxIterations - iteration] turns are
    enough, more fuel changes nothing. *)
Lemma agent_loop_fuel W fuel :
  forall l s,
    Agent.maxIterations <= Agent.iteration l + fuel ->
    Agent.agent_loop W (S fuel) l s = Agent.agent_loop W fuel l s.
Proof.
  induction fuel as [ | fuel IH]; intros l s Hfuel.
  - rewrite !agent_loop_done by lia. reflexivity.
  - rewrite (agent_loop_S W (S fuel)), (agent_loop_S W fuel).
    destruct (Agent.iteration l <? Agent.maxIterations)%nat; [ | reflexivity ].
    unfold bind.
    pose proof (turn_iteration W l s) as Hit.
    destruct (Agent.turn W l s) as [[[l' | l'] | e] s1]; try reflexivity.
    specialize (Hit _ eq_refl). simpl in Hit.
    apply IH. lia.
Qed.

(** The loop sends at most [maxIterations - iteration] requests to the
    model. *)
Lemma agent_loop_chats W fuel :
  forall l s,
    List.length (chats (snd (Agent.agent_loop W fuel l s)))
    <= List.length (chats s) + (Agent.maxIterations - Agent.iteration l).
Proof.
  induction fuel as [ | fuel IH]; intros l s.
  - simpl. destruct (Agent.iteration l <? Agent.maxIterations)%nat; simpl; lia.
  - rewrite agent_loop_S.
    destruct (Nat.ltb_spec (Agent.iteration l) Agent.maxIterations); [ | simpl; lia ].
    unfold bind.
    pose proof (turn_iteration W l s) as Hit.
    pose proof (turn_chats W l s) as Hchats.
    destruct (Agent.turn W l s) as [[[l' | l'] | e] s1]; simpl in Hchats.
    + specialize (Hit _ eq_refl). simpl in Hit.
      specialize (IH l' s1). rewrite Hchats, length_app in IH.
      cbn [List.length] in IH. cbn [fst snd]. lia.
    + cbn [fst snd ret]. rewrite Hchats, length_app. cbn [List.length]. lia.
    + cbn [fst snd]. rewrite Hchats, length_app. cbn [List.length]. lia.
Qed.

(** [chat], written out around its loop. *)
Lemma chat_unfold W userMessage s :
  Agent.chat W userMessage s =
  let s0 := snd (emit (SpanStart "gen_ai.invoke_agent" "invoke_agent Ecommerce Agent") s) in
  let s1 := snd (Agent.push (user_message userMessage) s0) in
  let '(r, s2) := Agent.agent_loop W Agent.maxIterations initial_locals s1 in
  match r with
  | Normal l =>
      (Normal (Agent.finalResponse l),
       snd (emit (SpanEnd "gen_ai.invoke_agent") (settle l s2)))
  | Throw e =>
      (Throw Agent.iteration_is_not_defined,
       snd (emit (SpanEnd "gen_ai.invoke_agent") s2))
  end.
Proof.
  unfold Agent.chat, startSpan, try_catch, bind, get_this, settle, initial_locals,
    user_message.
  cbn [emit modify Agent.push fst snd].
  destruct (Agent.agent_loop W _ _ _) as [[l | e] s2]; [ | reflexivity ].
  cbn [fst snd ret].
  destruct (enableCostTracking (this s2)
            && (0 <? Agent.totalInputTokens l + Agent.totalOutputTokens l)%float);
    reflexivity.
Qed.

(* ===================================================================== *)
(** * The cost estimator *)
(* ===================================================================== *)

(** C3, as stated, fails on the example: in binary64 arithmetic
    [(1200 / 1000000) * 0.15 + (300 / 1000000) * 0.60] is not the number
    [0.00036]. *)
Lemma cost_1200_300_is_not_0_00036 :
  (Agent.calculateCost (Agent.new_EcommerceAgent Scenario.config) 1200 300
   =? 0.00036)%float = false.
Proof. vm_compute. reflexivity. Qed.

(** C3 (amended): the cost estimator returns exactly 0 when cost tracking is
    disabled and [inputTokens/1000000*0.15 + outputTokens/1000000*0.60],
    evaluated in binary64 arithmetic, when it is enabled, for all numbers;
    for 1200 and 300 tokens the result is 0.00035999999999999997, the
    float just below 0.00036, within 1e-19 of the real number 0.00036. *)
Theorem calculateCost_is_gated_formula :
  (forall agent inputTokens outputTokens,
      Agent.calculateCost agent inputTokens outputTokens
      = cost_spec (enableCostTracking agent) inputTokens outputTokens)
  /\ (forall inputTokens outputTokens, cost_spec false inputTokens outputTokens = 0%float)
  /\ cost_spec true 1200 300 = 0.00035999999999999997%float
  /\ next_up (cost_spec true 1200 300) = 0.00036%float
  /\ exists q,
       exact (cost_spec true 1200 300) = Some q
       /\ (Qabs (q - (36 # 100000)) < (1 # 10000000000000000000))%Q.
Proof.
  split; [ | split; [ | split; [ | split ] ] ].
  - intros agent i o. unfold Agent.calculateCost, cost_spec.
    destruct (enableCostTracking agent); reflexivity.
  - reflexivity.
  - vm_compute. reflexivity.
  - vm_compute. reflexivity.
  - eexists. split; [vm_compute; reflexivity | ].
    vm_compute. reflexivity.
Qed.

(* ===================================================================== *)
(** * Reset and the seed system message *)
(* ===================================================================== *)

Lemma seeded_initial config : seeded (Agent.initial config).
Proof. exists []. split; [reflexivity | constructor]. Qed.

Lemma seeded_push m s : role m <> system -> seeded s -> seeded (snd (Agent.push m s)).
Proof.
  intros Hm (rest & Hh & Hrest). exists (rest ++ [m]). split.
  - rewrite history_push, Hh. reflexivity.
  - apply Forall_app. split; [exact Hrest | constructor; [exact Hm | constructor]].
Qed.

Lemma seeded_chat W userMessage s :
  seeded s -> seeded (snd (Agent.chat W userMessage s)).
Proof.
  revert s.
  change (stable (fun s s' => seeded s -> seeded s') (Agent.chat W userMessage)).
  apply stable_chat.
  - auto.
  - auto.
  - intros e s H. exact H.
  - intros url init s H. unfold do_fetch.
    destruct (fetch W _ url init); exact H.
  - intros s H. exact H.
  - intros m Hm s. apply seeded_push. exact Hm.
  - intros request s H. unfold do_chat.
    destruct (ollama_chat W _ request); exact H.
  - intros c s H. exact H.
Qed.

Lemma seeded_reset s : seeded s -> seeded (set_this (Agent.reset (this s)) s).
Proof.
  intros (rest & Hh & _). exists []. split; [ | constructor ].
  unfold history in *. simpl. rewrite Hh. reflexivity.
Qed.

(** The history of a reachable state is never empty: it starts with the
    seed system message. *)
Lemma reachable_seeded W s : Reachable W s -> seeded s.
Proof.
  induction 1 as [config | s userMessage _ IH | s _ IH].
  - apply seeded_initial.
  - apply seeded_chat. exact IH.
  - apply seeded_reset. exact IH.
Qed.

(** C5: after [reset()], whatever the conversation and the accumulated cost
    were, [getHistory()] is the one-element sequence holding the seed
    system message and [getTotalCost()] is 0. *)
Theorem reset_restores_seed W s :
  Reachable W s ->
  let agent := Agent.reset (this s) in
  Agent.getHistory agent = [Agent.systemMessage]
  /\ List.length (Agent.getHistory agent) = 1
  /\ Agent.getTotalCost agent = 0%float.
Proof.
  intros Hreach. destruct (reachable_seeded W s Hreach) as (rest & Hh & _).
  unfold history in Hh. cbv zeta. unfold Agent.getHistory, Agent.getTotalCost.
  simpl. rewrite Hh. simpl. auto.
Qed.

Lemma filter_no_system rest :
  Forall (fun m => role m <> system) rest -> List.filter is_system rest = [].
Proof.
  induction 1 as [ | m rest Hm _ IH]; [reflexivity | ].
  simpl. unfold is_system at 1. destruct (role m); try congruence; exact IH.
Qed.

(** C6: in every reachable state the history holds exactly one system
    message, it is the first message, and it is the message the constructor
    put there. *)
Theorem one_system_message_first W s :
  Reachable W s ->
  hd_error (history s) = Some Agent.systemMessage
  /\ List.filter is_system (history s) = [Agent.systemMessage]
  /\ Forall (fun m => role m <> system) (tl (history s)).
Proof.
  intros Hreach. destruct (reachable_seeded W s Hreach) as (rest & Hh & Hrest).
  rewrite Hh. simpl. rewrite (filter_no_system rest Hrest). auto.
Qed.

(* ===================================================================== *)
(** * The ecommerce client *)
(* ===================================================================== *)

(** C8: when the backend call of [getProducts] fails, by a transport error
    or a response that is not OK, [getProducts] does not throw and returns
    the fallback catalog, which has exactly 5 products. *)
Theorem getProducts_falls_back W client s :
  call_fails (fetch W (List.length (fetches s)) (products_url client) GET) ->
  Ecommerce.getProducts W client s
  = (Normal (Ecommerce.catalog_value Ecommerce.mockProducts),
     fetched (products_url client) GET s)
  /\ List.length Ecommerce.mockProducts = 5.
Proof.
  intros Hfail. split; [ | reflexivity ].
  unfold Ecommerce.getProducts, try_catch, bind, do_fetch. fold (products_url client).
  destruct (fetch W (List.length (fetches s)) (products_url client) GET)
    as [e | response]; [reflexivity | ].
  simpl in Hfail. rewrite Hfail. reflexivity.
Qed.

(** [getProducts] always issues one request and never throws. *)
Lemma getProducts_spec W client s :
  Ecommerce.getProducts W client s
  = (Normal (products_from (fetch W (List.length (fetches s)) (products_url client) GET)),
     fetched (products_url client) GET s).
Proof.
  unfold Ecommerce.getProducts, try_catch, bind, do_fetch, products_from.
  fold (products_url client).
  destruct (fetch W (List.length (fetches s)) (products_url client) GET)
    as [e | response]; [reflexivity | ].
  destruct (ok response); [ | reflexivity ].
  simpl. destruct (json response); reflexivity.
Qed.

(* ===================================================================== *)
(** * Unknown tools *)
(* ===================================================================== *)

Lemma unregistered_eqb toolName :
  ~ registered toolName ->
  String.eqb toolName "get_products" = false
  /\ String.eqb toolName "search_products" = false
  /\ String.eqb toolName "get_product_details" = false
  /\ String.eqb toolName "place_order" = false.
Proof.
  intro H. unfold registered in H. simpl in H.
  repeat split; apply String.eqb_neq; intro E; apply H; rewrite E; auto.
Qed.

(** The [switch] of the executor has one case per registered tool, and the
    registered tools are its cases. *)
Lemma registered_cases toolName :
  registered toolName <->
  (String.eqb toolName "get_products"
   || String.eqb toolName "search_products"
   || String.eqb toolName "get_product_details"
   || String.eqb toolName "place_order") = true.
Proof.
  unfold registered. simpl. rewrite !orb_true_iff, !String.eqb_eq.
  intuition (subst; auto).
Qed.

Lemma executeTool_unknown W toolName args s :
  ~ registered toolName ->
  let error := JS.new_Error ("Unknown tool: " ++ toolName) in
  Agent.executeTool W toolName args s
  = (Throw error,
     {| this := this s; chats := chats s; fetches := fetches s;
        clock_reads := clock_reads s;
        telemetry := telemetry s ++ failure_report toolName error |}).
Proof.
  intros Hun. destruct (unregistered_eqb toolName Hun) as (H1 & H2 & H3 & H4).
  unfold Agent.executeTool, startSpan, try_catch, bind, get_this, Agent.run_tool.
  rewrite H1, H2, H3, H4. cbn [emit modify throw fst snd this chats fetches
                                clock_reads telemetry].
  unfold failure_report. rewrite <- !app_assoc. reflexivity.
Qed.

(** C2, as stated, fails: the model asks for the tool [cancel_order], which
    is not in the registry; [chat] does not throw, it returns the text of
    the next reply, and the error has become a tool message of the
    conversation. *)
Lemma unknown_tool_error_stays_in_conversation :
  let run := Agent.chat Scenario.asks_unknown_tool "Cancel my order"
               (Agent.initial Scenario.config) in
  (registered "cancel_order" -> False)
  /\ fst run = Normal "I cannot cancel orders."
  /\ nth_error (history (snd run)) 3
     = Some (Agent.failure_message (JS.new_Error "Unknown tool: cancel_order")
               "cancel_order").
Proof.
  cbv zeta. split; [ | split ].
  - unfold registered. simpl. intuition discriminate.
  - vm_compute. reflexivity.
  - vm_compute. reflexivity.
Qed.

(** C2 (amended): when the model requests a tool whose name is not in the
    registry, the executor throws the error [Unknown tool: name] after
    reporting it to telemetry and without calling the backend; the agent
    loop catches it, appends the tool message
    [{error, tool, status: 'failed'}] to the conversation, and goes on: the
    error is converted into conversation data and does not leave [chat]. *)
Theorem unknown_tool_becomes_tool_message W toolCall args s :
  ~ registered (name (function toolCall)) ->
  Agent.decode_arguments toolCall = inr args ->
  let toolName := name (function toolCall) in
  let error := JS.new_Error ("Unknown tool: " ++ toolName) in
  let executed := Agent.executeTool W toolName args s in
  let dispatched := Agent.dispatch W toolCall s in
  fst executed = Throw error
  /\ telemetry (snd executed) = telemetry s ++ failure_report toolName error
  /\ fetches (snd executed) = fetches s
  /\ fst dispatched = Normal tt
  /\ history (snd dispatched) = history s ++ [Agent.failure_message error toolName]
  /\ telemetry (snd dispatched) = telemetry s ++ failure_report toolName error.
Proof.
  intros Hun Hdec. cbv zeta.
  rewrite (dispatch_decoded W toolCall args s Hdec). cbv zeta.
  rewrite (executeTool_unknown W (name (function toolCall)) args s Hun).
  cbv zeta. cbn [fst snd reply_to]. rewrite history_push.
  repeat split; reflexivity.
Qed.

(* ===================================================================== *)
(** * Orders *)
(* ===================================================================== *)

Lemma order_anyway_unfold W client items customerEmail s :
  order_anyway W client items customerEmail s =
  let products :=
    products_from (fetch W (List.length (fetches s)) (products_url client) GET) in
  let s0 := fetched (products_url client) GET s in
  match Ecommerce.order_total products items with
  | inl e => (Throw e, s0)
  | inr total =>
      (Normal (JS.Object
                 (Ecommerce.order_props (Date_now W (clock_reads s)) items total
                    customerEmail)),
       clock_read s0)
  end.
Proof.
  unfold order_anyway. unfold bind at 1. rewrite getProducts_spec. cbv zeta.
  unfold bind at 1.
  destruct (Ecommerce.order_total _ items) as [e | total]; reflexivity.
Qed.

(** [createOrder], case by case: the order is computed from the products,
    posted, and either merged with the data of an OK response, returned as
    it is after a response that is not OK, or computed again after a
    failure. *)
Lemma createOrder_unfold W client items customerEmail s :
  Ecommerce.createOrder W client items customerEmail s =
  let products :=
    products_from (fetch W (List.length (fetches s)) (products_url client) GET) in
  let s0 := fetched (products_url client) GET s in
  match Ecommerce.order_total products items with
  | inl e => order_anyway W client items customerEmail s0
  | inr total =>
      let order :=
        Ecommerce.order_props (Date_now W (clock_reads s)) items total customerEmail in
      let post := POST (JSON_stringify (JS.Object order)) in
      let s2 := fetched (orders_url client) post (clock_read s0) in
      match fetch W (S (List.length (fetches s))) (orders_url client) post with
      | inl e => order_anyway W client items customerEmail s2
      | inr response =>
          if ok response then
            match json response with
            | inr data => (Normal (JS.spread order data), s2)
            | inl e => order_anyway W client items customerEmail s2
            end
          else (Normal (JS.Object order), s2)
      end
  end.
Proof.
  unfold Ecommerce.createOrder. fold (orders_url client).
  unfold try_catch. unfold bind at 1. rewrite getProducts_spec. cbv zeta.
  unfold bind at 1.
  destruct (Ecommerce.order_total _ items) as [e | total]; [reflexivity | ].
  cbn [lift ret]. unfold bind at 1. cbn [now fst snd].
  unfold bind at 1. unfold do_fetch.
  cbn [fetched fetches clock_reads this chats telemetry].
  rewrite length_app. cbn [List.length]. rewrite Nat.add_1_r.
  destruct (fetch W (S (List.length (fetches s))) (orders_url client) _)
    as [e | response]; [reflexivity | ].
  destruct (ok response); [ | reflexivity ].
  unfold bind. destruct (json response); reflexivity.
Qed.

Lemma order_total_empty products : Ecommerce.order_total products (JS.Array []) = inr zero.
Proof. reflexivity. Qed.

(** An order without items is always created. *)
Lemma createOrder_empty W client customerEmail s :
  exists order,
    fst (Ecommerce.createOrder W client (JS.Array []) customerEmail s) = Normal order.
Proof.
  rewrite createOrder_unfold. cbv zeta. rewrite order_total_empty.
  destruct (fetch W (S (List.length (fetches s))) (orders_url client) _)
    as [e | response].
  - rewrite order_anyway_unfold. cbv zeta. rewrite order_total_empty.
    eexists. reflexivity.
  - destruct (ok response); [ | eexists; reflexivity ].
    destruct (json response).
    + rewrite order_anyway_unfold. cbv zeta. rewrite order_total_empty.
      eexists. reflexivity.
    + eexists. reflexivity.
Qed.

(* ===================================================================== *)
(** * Decoding tool-call arguments *)
(* ===================================================================== *)

Lemma decode_string toolCall text :
  arguments (function toolCall) = JS.Str text ->
  Agent.decode_arguments toolCall = JS.JSON_parse text.
Proof. intro H. unfold Agent.decode_arguments. rewrite H. reflexivity. Qed.

Lemma for_of_undecodable W toolCall rest e s :
  Agent.decode_arguments toolCall = inl e ->
  Agent.for_of (toolCall :: rest) (Agent.dispatch W) s = (Throw e, s).
Proof.
  intro Hdec. simpl. unfold bind.
  rewrite (dispatch_undecodable W toolCall e s Hdec). reflexivity.
Qed.

Lemma Dispatched_undecodable_inv W s toolCall rest msgs s' r e :
  Agent.decode_arguments toolCall = inl e ->
  Dispatched W s (toolCall :: rest) msgs s' r ->
  msgs = [] /\ s' = s /\ r = Throw e.
Proof.
  intros Hdec HD. inversion HD; subst.
  - split; [reflexivity | split; [reflexivity | congruence]].
  - congruence.
Qed.

(** When the first tool call of the first reply has arguments that do not
    decode, [chat] throws: the user message and the assistant message are
    in the history, no tool was executed and no tool message was added. *)
Lemma chat_undecodable W userMessage s response toolCall rest e :
  ollama_chat W (List.length (chats s))
    (chat_request (this s) (history s ++ [user_message userMessage])) = inr response ->
  Agent.requested_tool_calls response = Some (toolCall :: rest) ->
  Agent.decode_arguments toolCall = inl e ->
  fst (Agent.chat W userMessage s) = Throw Agent.iteration_is_not_defined
  /\ history (snd (Agent.chat W userMessage s))
     = history s ++ [user_message userMessage; tool_request response (toolCall :: rest)]
  /\ List.length (chats (snd (Agent.chat W userMessage s))) = S (List.length (chats s)).
Proof.
  intros Hreply Hcalls Hdec. rewrite chat_unfold. cbv zeta.
  set (s1 := snd (Agent.push (user_message userMessage)
                    (snd (emit (SpanStart "gen_ai.invoke_agent"
                                  "invoke_agent Ecommerce Agent") s)))).
  change Agent.maxIterations with (S 9). rewrite agent_loop_S.
  change (Agent.iteration initial_locals <? Agent.maxIterations)%nat with true.
  cbv iota. unfold bind.
  assert (Hreply1 :
            ollama_chat W (List.length (chats s1)) (chat_request (this s1) (history s1))
            = inr response) by exact Hreply.
  destruct (turn_requests_tools W initial_locals s1 response (toolCall :: rest)
              Hreply1 Hcalls) as (s2 & msgs & r & Hh & Hc & HD & Hfst).
  destruct (Dispatched_undecodable_inv _ _ _ _ _ _ _ _ Hdec HD) as (-> & Hs & ->).
  destruct (Agent.turn W initial_locals s1) as [r1 s3]. simpl in Hfst, Hs.
  subst r1 s3. cbn [fst snd emit modify].
  split; [reflexivity | split ].
  - unfold history in *. cbn [this]. rewrite Hh. unfold s1. simpl.
    rewrite <- app_assoc. reflexivity.
  - cbn [chats]. rewrite Hc, length_app. simpl. lia.
Qed.

(** C7: string-encoded tool-call arguments are decoded before the tool is
    executed; for [place_order], an [items] string that does not decode
    becomes the empty item list and the order is still created; a decode
    failure of the arguments payload itself is fatal to the dispatch: the
    tool is not executed, the remaining tool calls are skipped, no tool
    message is added, and [chat] throws. *)
Theorem argument_decoding :
  (forall W toolCall text args s,
      arguments (function toolCall) = JS.Str text ->
      JS.JSON_parse text = inr args ->
      let executed := Agent.executeTool W (name (function toolCall)) args s in
      Agent.dispatch W toolCall s
      = (Normal tt,
         snd (Agent.push (reply_to (name (function toolCall)) (fst executed))
                (snd executed))))
  /\ (forall W args text e s,
         JS.get args "items" = inr (JS.Str text) ->
         JS.JSON_parse text = inl e ->
         exists customerEmail,
           JS.get args "customerEmail" = inr customerEmail
           /\ (forall client,
                  Agent.run_tool W client "place_order" args s
                  = Ecommerce.createOrder W client (JS.Array []) customerEmail s)
           /\ exists order,
                fst (Agent.executeTool W "place_order" args s) = Normal order)
  /\ (forall W toolCall rest text e s,
         arguments (function toolCall) = JS.Str text ->
         JS.JSON_parse text = inl e ->
         Agent.for_of (toolCall :: rest) (Agent.dispatch W) s = (Throw e, s)
         /\ forall userMessage s0 response,
              ollama_chat W (List.length (chats s0))
                (chat_request (this s0) (history s0 ++ [user_message userMessage]))
              = inr response ->
              Agent.requested_tool_calls response = Some (toolCall :: rest) ->
              fst (Agent.chat W userMessage s0) = Throw Agent.iteration_is_not_defined
              /\ history (snd (Agent.chat W userMessage s0))
                 = history s0 ++ [user_message userMessage;
                                  tool_request response (toolCall :: rest)]).
Proof.
  split; [ | split ].
  - intros W toolCall text args s Hstr Hparse.
    apply dispatch_decoded. rewrite (decode_string toolCall text Hstr). exact Hparse.
  - intros W args text e s Hitems Hparse.
    assert (Hemail : exists customerEmail, JS.get args "customerEmail" = inr customerEmail).
    { destruct args; try discriminate Hitems; eexists; reflexivity. }
    destruct Hemail as [customerEmail Hemail].
    exists customerEmail. split; [exact Hemail | ].
    assert (Hrun : forall client s',
               Agent.run_tool W client "place_order" args s'
               = Ecommerce.createOrder W client (JS.Array []) customerEmail s').
    { intros client s'. unfold Agent.run_tool. cbn [String.eqb Ascii.eqb Bool.eqb].
      rewrite Hitems. cbn [lift]. unfold bind at 1. cbn [ret].
      unfold Agent.order_items. rewrite Hparse. rewrite Hemail.
      cbn [lift]. unfold bind at 1. reflexivity. }
    split; [intro client; apply Hrun | ].
    unfold Agent.executeTool, startSpan, try_catch.
    unfold bind at 1. cbn [emit modify fst snd].
    unfold bind at 1. unfold get_this. unfold bind at 1. rewrite Hrun.
    match goal with
    | |- context [Ecommerce.createOrder W ?c (JS.Array []) customerEmail ?st] =>
        destruct (createOrder_empty W c customerEmail st) as [order Horder];
        destruct (Ecommerce.createOrder W c (JS.Array []) customerEmail st)
          as [r st']
    end.
    simpl in Horder. subst r. exists order. reflexivity.
  - intros W toolCall rest text e s Hstr Hparse.
    assert (Hdec : Agent.decode_arguments toolCall = inl e)
      by (rewrite (decode_string toolCall text Hstr); exact Hparse).
    split; [apply for_of_undecodable; exact Hdec | ].
    intros userMessage s0 response Hreply Hcalls.
    destruct (chat_undecodable W userMessage s0 response toolCall rest e
                Hreply Hcalls Hdec) as (H1 & H2 & _).
    split; assumption.
Qed.

(* ===================================================================== *)
(** * Tool replies follow the order of the requests *)
(* ===================================================================== *)

Lemma Dispatched_pointwise W s toolCalls msgs s' r :
  Dispatched W s toolCalls msgs s' r ->
  Forall2 answers (firstn (List.length msgs) toolCalls) msgs.
Proof.
  induction 1 as [s | s toolCall rest e Hdec
                 | s toolCall rest args msgs s' r Hdec toolName executed reply Hrest IH].
  - constructor.
  - constructor.
  - simpl. constructor; [ | exact IH ].
    exists args, (fst executed). split; [exact Hdec | reflexivity].
Qed.

Lemma Dispatched_throw W s toolCalls msgs s' e :
  Dispatched W s toolCalls msgs s' (Throw e) ->
  exists toolCall, In toolCall toolCalls /\ Agent.decode_arguments toolCall = inl e.
Proof.
  intro HD. remember (Throw e) as r eqn:Hr.
  induction HD as [s | s toolCall rest e' Hdec
                  | s toolCall rest args msgs s' r Hdec toolName executed reply Hrest IH].
  - discriminate.
  - injection Hr as ->. exists toolCall. split; [left; reflexivity | exact Hdec].
  - destruct (IH Hr) as (tc & Hin & Htc). exists tc. split; [right; exact Hin | exact Htc].
Qed.

(** C4: in a turn whose reply carries tool calls, the tool calls are taken
    in the order of the reply; each is executed in the state its
    predecessor left and its tool message is appended before the next one
    starts, so the tool messages stand in the history in request order,
    after the assistant message; the turn sends one request to the model,
    before the tool calls, and the request of the next turn carries all
    these messages. *)
Theorem tool_replies_in_request_order W l s response toolCalls :
  ollama_chat W (List.length (chats s)) (chat_request (this s) (history s)) = inr response ->
  Agent.requested_tool_calls response = Some toolCalls ->
  let s' := snd (Agent.turn W l s) in
  exists s2 msgs r,
    Dispatched W s2 toolCalls msgs s' r
    /\ history s2 = history s ++ [tool_request response toolCalls]
    /\ history s' = history s ++ tool_request response toolCalls :: msgs
    /\ Forall2 answers (firstn (List.length msgs) toolCalls) msgs
    /\ Forall (fun m => role m = tool) msgs
    /\ List.length msgs <= List.length toolCalls
    /\ (r = Normal tt -> List.length msgs = List.length toolCalls)
    /\ chats s' = chats s ++ [chat_request (this s) (history s)]
    /\ forall l',
         chats (snd (Agent.turn W l' s'))
         = chats s'
           ++ [chat_request (this s')
                 (history s ++ tool_request response toolCalls :: msgs)].
Proof.
  intros Hreply Hcalls s'.
  destruct (turn_requests_tools W l s response toolCalls Hreply Hcalls)
    as (s2 & msgs & r & Hh2 & Hc2 & HD & _).
  fold s' in HD.
  destruct (Dispatched_history W _ _ _ _ _ HD) as (Hh & Hc & Hroles & Hlen & Hall).
  assert (Hhist : history s' = history s ++ tool_request response toolCalls :: msgs).
  { rewrite Hh, Hh2, <- app_assoc. reflexivity. }
  exists s2, msgs, r.
  split; [exact HD | ].
  split; [exact Hh2 | ].
  split; [exact Hhist | ].
  split; [exact (Dispatched_pointwise W _ _ _ _ _ HD) | ].
  split; [exact Hroles | ].
  split; [exact Hlen | ].
  split; [exact Hall | ].
  split; [unfold s'; apply turn_chats | ].
  intro l'. rewrite turn_chats, Hhist. reflexivity.
Qed.

(* ===================================================================== *)
(** * The iteration limit *)
(* ===================================================================== *)

Lemma tool_phase_request response toolCalls : tool_phase (tool_request response toolCalls).
Proof. right. split; [reflexivity | discriminate]. Qed.

Lemma chats_extend_refl s : chats_extend s s.
Proof. exists []. rewrite app_nil_r. reflexivity. Qed.

Lemma chats_extend_trans a b c : chats_extend a b -> chats_extend b c -> chats_extend a c.
Proof.
  intros [m1 H1] [m2 H2]. exists (m1 ++ m2). rewrite H2, H1, app_assoc. reflexivity.
Qed.

Lemma agent_loop_chats_extend W fuel l : stable chats_extend (Agent.agent_loop W fuel l).
Proof.
  apply stable_agent_loop;
    first [ exact chats_extend_refl | exact chats_extend_trans | idtac ].
  - intros e s. exists []. simpl. rewrite app_nil_r. reflexivity.
  - intros url init s. unfold do_fetch. destruct (fetch W _ url init);
      exists []; simpl; rewrite app_nil_r; reflexivity.
  - intros m _ s. exists []. simpl. rewrite app_nil_r. reflexivity.
  - intros request s. unfold do_chat.
    destruct (ollama_chat W _ request); exists [request]; reflexivity.
Qed.

(** A loop that takes a turn sends the request of that turn first. *)
Lemma agent_loop_first_request W fuel l s :
  (Agent.iteration l < Agent.maxIterations)%nat ->
  exists more,
    chats (snd (Agent.agent_loop W (S fuel) l s))
    = chats s ++ chat_request (this s) (history s) :: more.
Proof.
  intro Hlt. rewrite agent_loop_S.
  destruct (Nat.ltb_spec (Agent.iteration l) Agent.maxIterations); [ | lia ].
  unfold bind. pose proof (turn_chats W l s) as Hchats.
  destruct (Agent.turn W l s) as [[[l' | l'] | e] s1]; cbn [fst snd] in *.
  - destruct (agent_loop_chats_extend W fuel l' s1) as [more Hmore].
    exists more. rewrite Hmore, Hchats, <- app_assoc. reflexivity.
  - exists []. exact Hchats.
  - exists []. exact Hchats.
Qed.

Lemma nth_error_middle {A} (xs : list A) x ys :
  nth_error (xs ++ x :: ys) (List.length xs) = Some x.
Proof. induction xs as [ | y xs IH]; [reflexivity | exact IH]. Qed.

(** The loop, when every request it sent was answered with tool calls:
    only messages of the tool-calling phase are appended; if the loop
    completes, it has used all its iterations and has assigned no final
    response; if it throws, the arguments of a requested tool call did not
    decode. *)
Lemma agent_loop_requests_tools W fuel :
  forall l s,
    Agent.maxIterations <= Agent.iteration l + fuel ->
    answered_with_tools W (List.length (chats s))
      (chats (snd (Agent.agent_loop W fuel l s))) ->
    (exists added,
        history (snd (Agent.agent_loop W fuel l s)) = history s ++ added
        /\ Forall tool_phase added)
    /\ match fst (Agent.agent_loop W fuel l s) with
       | Normal l' =>
           Agent.finalResponse l' = Agent.finalResponse l
           /\ List.length (chats (snd (Agent.agent_loop W fuel l s)))
              = List.length (chats s) + (Agent.maxIterations - Agent.iteration l)
       | Throw e =>
           exists n request response toolCalls toolCall,
             ollama_chat W n request = inr response
             /\ Agent.requested_tool_calls response = Some toolCalls
             /\ In toolCall toolCalls
             /\ Agent.decode_arguments toolCall = inl e
       end.
Proof.
  induction fuel as [ | fuel IH]; intros l s Hfuel Htools.
  - rewrite agent_loop_done by lia. cbn [ret fst snd].
    split; [exists []; rewrite app_nil_r; split; [reflexivity | constructor] | ].
    split; [reflexivity | lia].
  - destruct (Nat.ltb_spec (Agent.iteration l) Agent.maxIterations) as [Hlt | Hge].
    2:{ rewrite agent_loop_done by lia. cbn [ret fst snd].
        split; [exists []; rewrite app_nil_r; split; [reflexivity | constructor] | ].
        split; [reflexivity | lia]. }
    destruct (agent_loop_first_request W fuel l s Hlt) as [more Hsent].
    destruct (Htools (List.length (chats s)) (chat_request (this s) (history s)))
      as (response & toolCalls & Hreply & Hcalls);
      [lia | rewrite Hsent; apply nth_error_middle | ].
    clear more Hsent.
    rewrite agent_loop_S in Htools |- *.
    destruct (Nat.ltb_spec (Agent.iteration l) Agent.maxIterations); [ | lia ].
    destruct (turn_requests_tools W l s response toolCalls Hreply Hcalls)
      as (s2 & msgs & r & Hh2 & Hc2 & HD & Hfst).
    destruct (Dispatched_history W _ _ _ _ _ HD) as (Hh & Hc & Hroles & _).
    pose proof (turn_chats W l s) as Hchats.
    unfold bind in Htools |- *.
    destruct (Agent.turn W l s) as [r1 s1]. cbn [fst snd] in *. subst r1.
    assert (Hadded : history s1 = history s ++ tool_request response toolCalls :: msgs).
    { rewrite Hh, Hh2, <- app_assoc. reflexivity. }
    assert (Hphase : Forall tool_phase (tool_request response toolCalls :: msgs)).
    { constructor; [apply tool_phase_request | ].
      eapply Forall_impl; [ | exact Hroles]. intros m Hm. left. exact Hm. }
    destruct r as [[] | e].
    + assert (Hlen : List.length (chats s1) = S (List.length (chats s))).
      { rewrite Hchats, length_app. cbn [List.length]. lia. }
      destruct (IH (after_turn l response None) s1) as ((added & Ha & Hp) & Hres).
      * cbn [after_turn Agent.iteration]. lia.
      * intros n request Hn. apply Htools. lia.
      * split.
        -- exists ((tool_request response toolCalls :: msgs) ++ added).
           split; [rewrite Ha, Hadded, <- app_assoc; reflexivity | ].
           apply Forall_app. split; assumption.
        -- destruct (fst (Agent.agent_loop W fuel (after_turn l response None) s1))
             as [l' | e]; [ | exact Hres ].
           destruct Hres as (Hfinal & Hcount).
           split; [exact Hfinal | ].
           rewrite Hcount, Hlen. cbn [after_turn Agent.iteration]. lia.
    + cbn [fst snd]. split.
      * exists (tool_request response toolCalls :: msgs). split; assumption.
      * destruct (Dispatched_throw W _ _ _ _ _ HD) as (toolCall & Hin & Hdec).
        exists (List.length (chats s)), (chat_request (this s) (history s)),
          response, toolCalls, toolCall.
        repeat split; assumption.
Qed.

Lemma tool_phase_not_final text m : tool_phase m -> m <> final_answer text.
Proof.
  intros [Htool | [_ Hcalls]] ->.
  - discriminate.
  - apply Hcalls. reflexivity.
Qed.

(** [chat] when every request of the invocation was answered with tool
    calls. *)
Lemma chat_requests_tools W userMessage s :
  answered_with_tools W (List.length (chats s))
    (chats (snd (Agent.chat W userMessage s))) ->
  (exists added,
      history (snd (Agent.chat W userMessage s))
      = history s ++ user_message userMessage :: added
      /\ Forall tool_phase added)
  /\ match fst (Agent.chat W userMessage s) with
     | Normal text =>
         text = ""
         /\ List.length (chats (snd (Agent.chat W userMessage s)))
            = List.length (chats s) + Agent.maxIterations
     | Throw _ =>
         exists n request response toolCalls toolCall e,
           ollama_chat W n request = inr response
           /\ Agent.requested_tool_calls response = Some toolCalls
           /\ In toolCall toolCalls
           /\ Agent.decode_arguments toolCall = inl e
     end.
Proof.
  rewrite chat_unfold. cbv zeta.
  set (s1 := snd (Agent.push (user_message userMessage)
                    (snd (emit (SpanStart "gen_ai.invoke_agent"
                                  "invoke_agent Ecommerce Agent") s)))).
  intro Htools.
  assert (Hloop : answered_with_tools W (List.length (chats s1))
                    (chats (snd (Agent.agent_loop W Agent.maxIterations
                                   initial_locals s1)))).
  { destruct (Agent.agent_loop W Agent.maxIterations initial_locals s1)
      as [[l | e] s2]; cbn [fst snd] in *; [ | exact Htools ].
    assert (Hsettle : chats (settle l s2) = chats s2)
      by (unfold settle; destruct (_ && _); reflexivity).
    change (answered_with_tools W (List.length (chats s)) (chats (settle l s2)))
      in Htools.
    rewrite Hsettle in Htools. exact Htools. }
  clear Htools.
  destruct (agent_loop_requests_tools W Agent.maxIterations initial_locals s1)
    as ((added & Ha & Hp) & Hres).
  - cbn [initial_locals Agent.iteration]. lia.
  - exact Hloop.
  - clear Hloop.
    destruct (Agent.agent_loop W Agent.maxIterations initial_locals s1) as [[l | e] s2];
      cbn [fst snd] in *.
    + destruct Hres as (Hfinal & Hcount). split.
      * exists added. split; [ | exact Hp ].
        assert (Hsettle : history (settle l s2) = history s2).
        { unfold settle. destruct (_ && _); reflexivity. }
        change (history (settle l s2)
                = history s ++ user_message userMessage :: added).
        rewrite Hsettle, Ha. unfold s1, history. simpl.
        rewrite <- app_assoc. reflexivity.
      * split; [exact Hfinal | ].
        assert (Hsettle : chats (settle l s2) = chats s2).
        { unfold settle. destruct (_ && _); reflexivity. }
        change (List.length (chats (settle l s2))
                = List.length (chats s) + Agent.maxIterations).
        rewrite Hsettle, Hcount. cbn [initial_locals Agent.iteration].
        rewrite Nat.sub_0_r. reflexivity.
    + split.
      * exists added. split; [ | exact Hp ].
        change (history s2 = history s ++ user_message userMessage :: added).
        rewrite Ha. unfold s1, history. simpl. rewrite <- app_assoc. reflexivity.
      * destruct Hres as (n & request & response & toolCalls & toolCall & H).
        exists n, request, response, toolCalls, toolCall, e. exact H.
Qed.

(** C10: when every exchange of a [chat] invocation carried tool calls and
    the loop ended by its limit, so that [chat] returned, what it returns is
    the empty string, whatever text the replies carried; it has sent
    exactly 10 requests to the model, and what it appended after the user
    message are only assistant messages recording tool calls and tool
    messages: no final assistant message. *)
Theorem limit_exit_returns_empty_string W userMessage s text :
  answered_with_tools W (List.length (chats s))
    (chats (snd (Agent.chat W userMessage s))) ->
  fst (Agent.chat W userMessage s) = Normal text ->
  text = ""
  /\ List.length (chats (snd (Agent.chat W userMessage s))) = List.length (chats s) + 10
  /\ exists added,
       history (snd (Agent.chat W userMessage s))
       = history s ++ user_message userMessage :: added
       /\ Forall tool_phase added
       /\ forall answer, ~ In (final_answer answer) added.
Proof.
  intros Htools Hret.
  destruct (chat_requests_tools W userMessage s Htools) as ((added & Ha & Hp) & Hres).
  rewrite Hret in Hres. destruct Hres as (Htext & Hcount).
  split; [exact Htext | ]. split; [exact Hcount | ].
  exists added. split; [exact Ha | ]. split; [exact Hp | ].
  intros answer Hin. rewrite Forall_forall in Hp.
  exact (tool_phase_not_final answer _ (Hp _ Hin) eq_refl).
Qed.

(* ===================================================================== *)
(** * Termination of [chat] *)
(* ===================================================================== *)

Lemma agent_loop_more_fuel W k :
  forall l s,
    Agent.agent_loop W (Agent.maxIterations + k) l s
    = Agent.agent_loop W Agent.maxIterations l s.
Proof.
  induction k as [ | k IH]; intros l s.
  - rewrite Nat.add_0_r. reflexivity.
  - rewrite Nat.add_succ_r, agent_loop_fuel by lia. apply IH.
Qed.

Lemma chat_chats_bound W userMessage s :
  List.length (chats (snd (Agent.chat W userMessage s))) <= List.length (chats s) + 10.
Proof.
  rewrite chat_unfold. cbv zeta.
  set (s1 := snd (Agent.push (user_message userMessage)
                    (snd (emit (SpanStart "gen_ai.invoke_agent"
                                  "invoke_agent Ecommerce Agent") s)))).
  pose proof (agent_loop_chats W Agent.maxIterations initial_locals s1) as Hb.
  destruct (Agent.agent_loop W Agent.maxIterations initial_locals s1) as [[l | e] s2];
    cbn [fst snd] in *.
  - assert (Hsettle : chats (settle l s2) = chats s2)
      by (unfold settle; destruct (_ && _); reflexivity).
    change (List.length (chats (settle l s2)) <= List.length (chats s) + 10).
    rewrite Hsettle. exact Hb.
  - exact Hb.
Qed.

(** C1, as stated, fails: a model that always requests a tool call whose
    arguments are the string [{], which is not valid JSON, makes [chat]
    throw. *)
Lemma always_tools_can_throw :
  let W := Scenario.always_requests (Scenario.call "get_products" (JS.Str "{")) in
  always_requests_tools W
  /\ fst (Agent.chat W "Show me products" (Agent.initial Scenario.config))
     = Throw Agent.iteration_is_not_defined.
Proof.
  cbv zeta. split.
  - intros n request. eexists. eexists. split; reflexivity.
  - vm_compute. reflexivity.
Qed.

(** C1 (amended): [chat] always terminates and sends at most 10 requests to
    the model (the loop needs no more than its 10 turns, whatever fuel it is
    given); when the model always answers with tool-call requests whose
    arguments decode, [chat] returns without throwing, after exactly 10
    exchanges, and what it returns is the empty string; when the model
    always answers with tool-call requests and [chat] throws, the arguments
    of a requested tool call did not decode. *)
Theorem chat_terminates_within_ten_exchanges :
  (forall W userMessage s,
      List.length (chats (snd (Agent.chat W userMessage s)))
      <= List.length (chats s) + 10)
  /\ (forall W k l s,
         Agent.agent_loop W (Agent.maxIterations + k) l s
         = Agent.agent_loop W Agent.maxIterations l s)
  /\ (forall W userMessage s,
         always_requests_tools W ->
         arguments_decode W ->
         fst (Agent.chat W userMessage s) = Normal ""
         /\ List.length (chats (snd (Agent.chat W userMessage s)))
            = List.length (chats s) + 10)
  /\ (forall W userMessage s e,
         always_requests_tools W ->
         fst (Agent.chat W userMessage s) = Throw e ->
         exists n request response toolCalls toolCall e',
           ollama_chat W n request = inr response
           /\ In toolCall toolCalls
           /\ Agent.requested_tool_calls response = Some toolCalls
           /\ Agent.decode_arguments toolCall = inl e').
Proof.
  split; [exact chat_chats_bound | ].
  split; [exact agent_loop_more_fuel | ].
  split.
  - intros W userMessage s Halways Hdecode.
    assert (Htools : answered_with_tools W (List.length (chats s))
                       (chats (snd (Agent.chat W userMessage s))))
      by (intros n request _ _; apply Halways).
    destruct (chat_requests_tools W userMessage s Htools) as (_ & Hres).
    destruct (fst (Agent.chat W userMessage s)) as [text | e].
    + destruct Hres as (-> & Hcount). split; [reflexivity | exact Hcount].
    + destruct Hres as (n & request & response & toolCalls & toolCall & e' & H1 & H2 & H3 & H4).
      destruct (Hdecode n request response toolCalls toolCall H1 H2 H3) as [args Hargs].
      congruence.
  - intros W userMessage s e Halways Hthrow.
    assert (Htools : answered_with_tools W (List.length (chats s))
                       (chats (snd (Agent.chat W userMessage s))))
      by (intros n request _ _; apply Halways).
    destruct (chat_requests_tools W userMessage s Htools) as (_ & Hres).
    rewrite Hthrow in Hres.
    destruct Hres as (n & request & response & toolCalls & toolCall & e' & H1 & H2 & H3 & H4).
    exists n, request, response, toolCalls, toolCall, e'. auto.
Qed.

(* ===================================================================== *)
(** * The total of an order *)
(* ===================================================================== *)

Lemma find_has_id catalog item :
  JS.find (Ecommerce.has_id (JS.get (Ecommerce.cartItem_value item) "productId"))
    (map Ecommerce.product_value catalog)
  = inr (match resolve catalog (Ecommerce.productId item) with
         | Some p => Ecommerce.product_value p
         | None => JS.Undefined
         end).
Proof.
  induction catalog as [ | p rest IH]; [reflexivity | ].
  cbn [map JS.find resolve List.find].
  change (Ecommerce.has_id (JS.get (Ecommerce.cartItem_value item) "productId")
            (Ecommerce.product_value p))
    with (@inr JS.Error bool
            (PrimFloat.eqb (Ecommerce.id p) (Ecommerce.productId item))).
  destruct (PrimFloat.eqb (Ecommerce.id p) (Ecommerce.productId item));
    [reflexivity | exact IH].
Qed.

Lemma add_item_typed catalog total item :
  Ecommerce.add_item (Ecommerce.catalog_value catalog) total
    (Ecommerce.cartItem_value item)
  = inr (match resolve catalog (Ecommerce.productId item) with
         | Some p => (total + Ecommerce.price p * Ecommerce.quantity item)%float
         | None => total
         end).
Proof.
  unfold Ecommerce.add_item, Ecommerce.catalog_value.
  cbn [JS.array_receiver bind_sum]. rewrite find_has_id. cbn [bind_sum].
  destruct (resolve catalog (Ecommerce.productId item)) as [p | ]; reflexivity.
Qed.

Lemma add_items_typed catalog items :
  forall total,
    Ecommerce.add_items (Ecommerce.catalog_value catalog) total
      (map Ecommerce.cartItem_value items)
    = inr (fold_left
             (fun total item =>
                match resolve catalog (Ecommerce.productId item) with
                | Some p => (total + Ecommerce.price p * Ecommerce.quantity item)%float
                | None => total
                end)
             items total).
Proof.
  induction items as [ | item rest IH]; intro total; [reflexivity | ].
  cbn [map Ecommerce.add_items fold_left]. rewrite add_item_typed.
  cbn [bind_sum]. apply IH.
Qed.

(** On a catalog of products and a list of cart items, the loop of
    [createOrder] computes the total of the specification. *)
Lemma order_total_typed catalog items :
  Ecommerce.order_total (Ecommerce.catalog_value catalog) (Ecommerce.cart_value items)
  = inr (expected_total catalog items).
Proof.
  unfold Ecommerce.order_total, Ecommerce.cart_value. cbn [JS.iterate bind_sum].
  apply add_items_typed.
Qed.

Lemma lookup_set_prop_other k k' v props :
  String.eqb k k' = false ->
  JS.lookup k (JS.set_prop k' v props) = JS.lookup k props.
Proof.
  intro Hk. induction props as [ | [k0 v0] rest IH]; simpl.
  - rewrite Hk. reflexivity.
  - destruct (String.eqb k' k0) eqn:E; simpl.
    + apply String.eqb_eq in E. subst k0. rewrite Hk. reflexivity.
    + destruct (String.eqb k k0); [reflexivity | exact IH].
Qed.

(** A spread leaves alone the properties that the spread value does not
    have. *)
Lemma get_spread_other k props data :
  JS.has_own k (JS.own_properties data) = false ->
  JS.get (JS.spread props data) k = JS.get (JS.Object props) k.
Proof.
  unfold JS.spread, JS.get, JS.has_own.
  generalize (JS.own_properties data) as extra. intro extra. revert props.
  induction extra as [ | [k' v'] rest IH]; intros props Hk; [reflexivity | ].
  simpl in Hk |- *. destruct (String.eqb k k') eqn:E; [discriminate | ].
  rewrite (IH (JS.set_prop k' v' props) Hk).
  rewrite (lookup_set_prop_other k k' v' props E). reflexivity.
Qed.

(** C9, as stated, fails: the order API accepts the order and answers with
    its own record, whose total 119.97 replaces the computed total
    109.97 in the order [createOrder] returns. *)
Lemma accepted_order_carries_backend_total :
  let created := Ecommerce.createOrder Scenario.confirms_orders Scenario.client
                   (Ecommerce.cart_value Scenario.cart) (JS.Str "x@y.com")
                   (Agent.initial Scenario.config) in
  expected_total Ecommerce.mockProducts Scenario.cart = 109.97%float
  /\ exists order,
       fst created = Normal order
       /\ JS.get order "total" = inr (JS.Number 119.97)
       /\ JS.strict_equals (JS.Number 119.97) (JS.Number 109.97) = false.
Proof.
  cbv zeta. split; [vm_compute; reflexivity | ].
  eexists. split; [vm_compute; reflexivity | ].
  split; vm_compute; reflexivity.
Qed.

(** C9 (amended): for every list of cart items, against the catalog
    [getProducts] obtains, the order [createOrder] computes has as total the
    sum of price times quantity over the items whose productId resolves
    (the others add nothing) and status "pending".  This order is what
    [createOrder] returns when the order API answers with a response that
    is not OK; when the transport fails or the response body cannot be
    read, it returns the same order computed again; when the order API
    answers OK, it returns the order overridden by the properties of the
    response body, so the total is the computed one unless the body has a
    total of its own.  [createOrder] does not fail.  Two items of price
    29.99 and one of price 49.99 total 109.97. *)
Theorem createOrder_total W client catalog items customerEmail s :
  current_catalog W client catalog ->
  let total := expected_total catalog items in
  let local t :=
    Ecommerce.order_props t (Ecommerce.cart_value items) total customerEmail in
  let order := local (Date_now W (clock_reads s)) in
  let again := local (Date_now W (S (clock_reads s))) in
  let created :=
    fst (Ecommerce.createOrder W client (Ecommerce.cart_value items) customerEmail s) in
  match fetch W (S (List.length (fetches s))) (orders_url client)
          (POST (JSON_stringify (JS.Object order))) with
  | inr response =>
      if ok response then
        match json response with
        | inr data => created = Normal (JS.spread order data)
        | inl _ => created = Normal (JS.Object again)
        end
      else created = Normal (JS.Object order)
  | inl _ => created = Normal (JS.Object again)
  end
  /\ (forall t,
         JS.get (JS.Object (local t)) "total" = inr (JS.Number total)
         /\ JS.get (JS.Object (local t)) "status" = inr (JS.Str "pending"))
  /\ (forall t data,
         JS.has_own "total" (JS.own_properties data) = false ->
         JS.get (JS.spread (local t) data) "total" = inr (JS.Number total))
  /\ expected_total Ecommerce.mockProducts Scenario.cart = 109.97%float.
Proof.
  intros Hcatalog total local order again created.
  split; [ | split; [ | split ] ].
  - unfold created. rewrite createOrder_unfold. cbv zeta.
    rewrite Hcatalog, order_total_typed.
    fold total. fold (local (Date_now W (clock_reads s))). fold order.
    assert (Hagain : forall s',
               clock_reads s' = S (clock_reads s) ->
               fst (order_anyway W client (Ecommerce.cart_value items) customerEmail s')
               = Normal (JS.Object again)).
    { intros s' Hclock. rewrite order_anyway_unfold. cbv zeta.
      rewrite Hcatalog, order_total_typed, Hclock. reflexivity. }
    destruct (fetch W (S (List.length (fetches s))) (orders_url client) _)
      as [e | response].
    + apply Hagain. reflexivity.
    + destruct (ok response); [ | reflexivity ].
      destruct (json response); [ | reflexivity ].
      apply Hagain. reflexivity.
  - intro t. split; reflexivity.
  - intros t data Hno. rewrite (get_spread_other "total" (local t) data Hno).
    reflexivity.
  - vm_compute. reflexivity.
Qed.

(* ===================================================================== *)
(** * The theorems at work on concrete runs *)
(* ===================================================================== *)

(** C1 at work: a model that always asks for the product list, with
    arguments that decode; [chat] returns the empty string after 10
    exchanges. *)
Lemma chat_terminates_within_ten_exchanges_witness :
  let W := Scenario.always_requests (Scenario.call "get_products" (JS.Object [])) in
  always_requests_tools W
  /\ arguments_decode W
  /\ fst (Agent.chat W "Show me products" (Agent.initial Scenario.config)) = Normal ""
  /\ List.length
       (chats (snd (Agent.chat W "Show me products" (Agent.initial Scenario.config))))
     = 10.
Proof.
  cbv zeta.
  assert (Halways : always_requests_tools
                      (Scenario.always_requests
                         (Scenario.call "get_products" (JS.Object [])))).
  { intros n request. eexists. eexists. split; reflexivity. }
  assert (Hdecode : arguments_decode
                      (Scenario.always_requests
                         (Scenario.call "get_products" (JS.Object [])))).
  { intros n request response toolCalls toolCall Hreply Hcalls Hin.
    injection Hreply as <-. injection Hcalls as <-.
    destruct Hin as [<- | []]. eexists. reflexivity. }
  split; [exact Halways | ]. split; [exact Hdecode | ].
  destruct chat_terminates_within_ten_exchanges as (_ & _ & Hreturns & _).
  exact (Hreturns _ "Show me products" (Agent.initial Scenario.config) Halways Hdecode).
Defined.

(** C2 at work: the tool [cancel_order] is not registered; dispatching it
    appends the failure message and completes. *)
Lemma unknown_tool_becomes_tool_message_witness :
  let toolCall := Scenario.call "cancel_order" (JS.Object []) in
  let s := Scenario.asked "Cancel my order" in
  let error := JS.new_Error "Unknown tool: cancel_order" in
  (registered "cancel_order" -> False)
  /\ Agent.decode_arguments toolCall = inr (JS.Object [])
  /\ fst (Agent.executeTool Scenario.asks_unknown_tool "cancel_order" (JS.Object []) s)
     = Throw error
  /\ fst (Agent.dispatch Scenario.asks_unknown_tool toolCall s) = Normal tt
  /\ history (snd (Agent.dispatch Scenario.asks_unknown_tool toolCall s))
     = history s ++ [Agent.failure_message error "cancel_order"].
Proof.
  cbv zeta.
  assert (Hun : ~ registered "cancel_order").
  { unfold registered. simpl. intuition discriminate. }
  split; [exact Hun | ]. split; [reflexivity | ].
  destruct (unknown_tool_becomes_tool_message Scenario.asks_unknown_tool
              (Scenario.call "cancel_order" (JS.Object [])) (JS.Object [])
              (Scenario.asked "Cancel my order") Hun eq_refl)
    as (H1 & _ & _ & H4 & H5 & _).
  split; [exact H1 | ]. split; [exact H4 | exact H5].
Defined.

(** C4 at work: a reply asks for [cancel_order], then [get_products]; the
    two tool messages follow the assistant message in that order. *)
Lemma tool_replies_in_request_order_witness :
  let W := Scenario.asks_two_tools in
  let s := Scenario.asked "Cancel my order and show me products" in
  let toolCalls := [Scenario.call "cancel_order" (JS.Object []);
                    Scenario.call "get_products" (JS.Str "{}")] in
  let response := Scenario.requests toolCalls 10 5 in
  ollama_chat W (List.length (chats s)) (chat_request (this s) (history s)) = inr response
  /\ Agent.requested_tool_calls response = Some toolCalls
  /\ (exists s2 msgs r,
         Dispatched W s2 toolCalls msgs (snd (Agent.turn W initial_locals s)) r
         /\ history (snd (Agent.turn W initial_locals s))
            = history s ++ tool_request response toolCalls :: msgs
         /\ Forall2 answers (firstn (List.length msgs) toolCalls) msgs)
  /\ history (snd (Agent.turn W initial_locals s))
     = history s
       ++ [tool_request response toolCalls;
           Agent.failure_message (JS.new_Error "Unknown tool: cancel_order")
             "cancel_order";
           Agent.result_message (Ecommerce.catalog_value Ecommerce.mockProducts)].
Proof.
  cbv zeta. split; [reflexivity | ]. split; [reflexivity | ].
  split; [ | vm_compute; reflexivity ].
  destruct (tool_replies_in_request_order Scenario.asks_two_tools initial_locals
              (Scenario.asked "Cancel my order and show me products")
              (Scenario.requests [Scenario.call "cancel_order" (JS.Object []);
                                  Scenario.call "get_products" (JS.Str "{}")] 10 5)
              [Scenario.call "cancel_order" (JS.Object []);
               Scenario.call "get_products" (JS.Str "{}")]
              eq_refl eq_refl)
    as (s2 & msgs & r & HD & _ & Hh & Hanswers & _).
  exists s2, msgs, r. split; [exact HD | ]. split; [exact Hh | exact Hanswers].
Defined.

(** C5 at work: after a conversation of five messages, a reset leaves the
    seed system message and a zero cost. *)
Lemma reset_restores_seed_witness :
  let s := snd (Agent.chat Scenario.show_products "Show me products"
                  (Agent.initial Scenario.config)) in
  Reachable Scenario.show_products s
  /\ List.length (history s) = 5
  /\ Agent.getHistory (Agent.reset (this s)) = [Agent.systemMessage]
  /\ List.length (Agent.getHistory (Agent.reset (this s))) = 1
  /\ Agent.getTotalCost (Agent.reset (this s)) = 0%float.
Proof.
  cbv zeta.
  assert (Hreach : Reachable Scenario.show_products
                     (snd (Agent.chat Scenario.show_products "Show me products"
                             (Agent.initial Scenario.config)))).
  { apply Reachable_chat. apply Reachable_new. }
  split; [exact Hreach | ]. split; [vm_compute; reflexivity | ].
  exact (reset_restores_seed Scenario.show_products _ Hreach).
Defined.

(** C6 at work: a chat, a reset and another chat. *)
Lemma one_system_message_first_witness :
  let W := Scenario.asks_unknown_tool in
  let s1 := snd (Agent.chat W "Cancel my order" (Agent.initial Scenario.config)) in
  let s2 := set_this (Agent.reset (this s1)) s1 in
  let s3 := snd (Agent.chat W "Thanks" s2) in
  Reachable W s3
  /\ hd_error (history s3) = Some Agent.systemMessage
  /\ List.filter is_system (history s3) = [Agent.systemMessage]
  /\ Forall (fun m => role m <> system) (tl (history s3)).
Proof.
  cbv zeta.
  match goal with
  | |- Reachable ?W ?s /\ _ =>
      assert (Hreach : Reachable W s)
        by (apply Reachable_chat, Reachable_reset, Reachable_chat, Reachable_new);
      split; [exact Hreach | exact (one_system_message_first W s Hreach)]
  end.
Defined.

(** C7 at work: an [items] string that is not JSON gives an order without
    items; an arguments string that is not JSON stops the dispatch. *)
Lemma argument_decoding_witness :
  let W := Scenario.show_products in
  let s := Scenario.asked "Order something" in
  let args := JS.Object [("items", JS.Str "[oops")] in
  let bad := Scenario.call "place_order" (JS.Str "{") in
  JS.get args "items" = inr (JS.Str "[oops")
  /\ JS.JSON_parse "[oops" = inl (JS.SyntaxError "Unexpected token in JSON: [oops")
  /\ (forall client,
         Agent.run_tool W client "place_order" args s
         = Ecommerce.createOrder W client (JS.Array []) JS.Undefined s)
  /\ (exists order, fst (Agent.executeTool W "place_order" args s) = Normal order)
  /\ JS.JSON_parse "{" = inl (JS.SyntaxError "Unexpected token in JSON: {")
  /\ Agent.for_of [bad] (Agent.dispatch W) s
     = (Throw (JS.SyntaxError "Unexpected token in JSON: {"), s).
Proof.
  cbv zeta. destruct argument_decoding as (_ & Hitems & Hfatal).
  split; [reflexivity | ]. split; [vm_compute; reflexivity | ].
  destruct (Hitems Scenario.show_products (JS.Object [("items", JS.Str "[oops")])
              "[oops" (JS.SyntaxError "Unexpected token in JSON: [oops")
              (Scenario.asked "Order something"))
    as (customerEmail & Hemail & Hrun & Hcreated);
    [reflexivity | vm_compute; reflexivity | ].
  injection Hemail as <-.
  split; [exact Hrun | ]. split; [exact Hcreated | ].
  split; [vm_compute; reflexivity | ].
  destruct (Hfatal Scenario.show_products (Scenario.call "place_order" (JS.Str "{"))
              [] "{" (JS.SyntaxError "Unexpected token in JSON: {")
              (Scenario.asked "Order something"))
    as (Hfor & _); [reflexivity | vm_compute; reflexivity | ].
  exact Hfor.
Defined.

(** C8 at work: the backend is unreachable. *)
Lemma getProducts_falls_back_witness :
  let s := Agent.initial Scenario.config in
  call_fails (fetch Scenario.show_products (List.length (fetches s))
                (products_url Scenario.client) GET)
  /\ Ecommerce.getProducts Scenario.show_products Scenario.client s
     = (Normal (Ecommerce.catalog_value Ecommerce.mockProducts),
        fetched (products_url Scenario.client) GET s)
  /\ List.length Ecommerce.mockProducts = 5.
Proof.
  cbv zeta. split; [exact I | ].
  exact (getProducts_falls_back Scenario.show_products Scenario.client
           (Agent.initial Scenario.config) I).
Defined.

(** C9 at work: the backend is unreachable, the fallback catalog is
    current, and the order of two Blue Shirts and one pair of Red Pants
    comes back pending with total 109.97. *)
Lemma createOrder_total_witness :
  let W := Scenario.show_products in
  let s := Agent.initial Scenario.config in
  current_catalog W Scenario.client Ecommerce.mockProducts
  /\ fst (Ecommerce.createOrder W Scenario.client (Ecommerce.cart_value Scenario.cart)
            (JS.Str "x@y.com") s)
     = Normal (JS.Object
                 (Ecommerce.order_props 1700000000000
                    (Ecommerce.cart_value Scenario.cart) 109.97 (JS.Str "x@y.com"))).
Proof.
  cbv zeta.
  assert (Hcatalog : current_catalog Scenario.show_products Scenario.client
                       Ecommerce.mockProducts)
    by (intro n; reflexivity).
  split; [exact Hcatalog | ].
  exact (proj1 (createOrder_total Scenario.show_products Scenario.client
                  Ecommerce.mockProducts Scenario.cart (JS.Str "x@y.com")
                  (Agent.initial Scenario.config) Hcatalog)).
Defined.

(** C10 at work: every reply carries the text [Let me look that up.] and
    a tool call; after 10 exchanges [chat] returns the empty string, and
    the last assistant message of the history still records a tool call. *)
Lemma limit_exit_returns_empty_string_witness :
  let W := Scenario.keeps_looking in
  let s := Agent.initial Scenario.config in
  answered_with_tools W (List.length (chats s))
    (chats (snd (Agent.chat W "Find me a shirt" s)))
  /\ fst (Agent.chat W "Find me a shirt" s) = Normal ""
  /\ List.length (chats (snd (Agent.chat W "Find me a shirt" s))) = 10
  /\ List.length (history (snd (Agent.chat W "Find me a shirt" s))) = 22
  /\ nth_error (history (snd (Agent.chat W "Find me a shirt" s))) 20
     = Some {| role := assistant; content := Lit "Let me look that up.";
               tool_calls := Some [Scenario.call "search_products" (JS.Str "{}")] |}
  /\ exists added,
       history (snd (Agent.chat W "Find me a shirt" s))
       = history s ++ user_message "Find me a shirt" :: added
       /\ Forall tool_phase added
       /\ forall answer, ~ In (final_answer answer) added.
Proof.
  cbv zeta.
  assert (Htools : answered_with_tools Scenario.keeps_looking
                     (List.length (chats (Agent.initial Scenario.config)))
                     (chats (snd (Agent.chat Scenario.keeps_looking "Find me a shirt"
                                    (Agent.initial Scenario.config)))))
    by (intros n request _ _; eexists; eexists; split; reflexivity).
  assert (Hret : fst (Agent.chat Scenario.keeps_looking "Find me a shirt"
                        (Agent.initial Scenario.config))
                 = Normal "") by (vm_compute; reflexivity).
  destruct (limit_exit_returns_empty_string Scenario.keeps_looking "Find me a shirt"
              (Agent.initial Scenario.config) "" Htools Hret)
    as (_ & Hcount & Hadded).
  split; [exact Htools | ]. split; [exact Hret | ]. split; [exact Hcount | ].
  split; [vm_compute; reflexivity | ].
  split; [vm_compute; reflexivity | exact Hadded].
Defined.

(* ===================================================================== *)
(** * Two runs from end to end *)
(* ===================================================================== *)

(** The user asks for the products, the model requests [get_products], the
    backend is unreachable so the five fallback products are the tool
    result, and the second reply is the answer: [chat] returns it, the
    conversation has grown by four messages, and the cost of 1200 input and
    300 output tokens has been added. *)
Example show_products_run :
  let run := Agent.chat Scenario.show_products "Show me products"
               (Agent.initial Scenario.config) in
  fst run = Normal "We have five products."
  /\ map role (history (snd run)) = [system; user; assistant; tool; assistant]
  /\ List.length (chats (snd run)) = 2
  /\ Agent.getTotalCost (this (snd run)) = 0.00035999999999999997%float.
Proof. cbv zeta. repeat split; vm_compute; reflexivity. Qed.

(** When the request to the model fails, [makeRequest] reports the error
    and re-throws it, and the [catch] block of [chat] ends with the
    ReferenceError of its out-of-scope [iteration]: nothing is reported for
    the component [agent_chat], and the caller does not see the error of
    the backend. *)
Example model_down_run :
  let run := Agent.chat Scenario.model_down "Show me products"
               (Agent.initial Scenario.config) in
  fst run = Throw Agent.iteration_is_not_defined
  /\ telemetry (snd run)
     = [SpanStart "gen_ai.invoke_agent" "invoke_agent Ecommerce Agent";
        SpanStart "gen_ai.request" "request llama3.2";
        CaptureException (JS.new_Error "connect ECONNREFUSED") "ollama_request";
        SpanEnd "gen_ai.request";
        SpanEnd "gen_ai.invoke_agent"]
  /\ map role (history (snd run)) = [system; user].
Proof. cbv zeta. repeat split; vm_compute; reflexivity. Qed.

(* ===================================================================== *)
(** * Searching and looking up products *)
(* ===================================================================== *)

Lemma getProducts_current W client catalog s :
  current_catalog W client catalog ->
  Ecommerce.getProducts W client s
  = (Normal (Ecommerce.catalog_value catalog), fetched (products_url client) GET s).
Proof. intro H. rewrite getProducts_spec, H. reflexivity. Qed.










(** X3: a query that is not a string (a missing [query] argument is
    [undefined]) makes [searchProducts] throw a TypeError, after it has
    fetched the products. *)
Theorem searchProducts_rejects_non_string_query W client query s :
  not_a_string query ->
  exists e,
    JS.error_name e = "TypeError"
    /\ Ecommerce.searchProducts W client query s
       = (Throw e, fetched (products_url client) GET s).
Proof.
  intro Hquery.
  assert (Hlower : exists e,
             JS.error_name e = "TypeError"
             /\ JS.call_toLowerCase "query" query = inl e).
  { destruct query; try contradiction;
      (eexists; split; [ | reflexivity ]; reflexivity). }
  destruct Hlower as (e & Hname & Hlower).
  exists e. split; [exact Hname | ].
  unfold Ecommerce.searchProducts. unfold bind at 1. rewrite getProducts_spec.
  rewrite Hlower. reflexivity.
Qed.

Lemma find_by_id catalog productId :
  JS.find (Ecommerce.has_id (inr productId)) (map Ecommerce.product_value catalog)
  = inr (match productId with
         | JS.Number x =>
             match resolve catalog x with
             | Some p => Ecommerce.product_value p
             | None => JS.Undefined
             end
         | _ => JS.Undefined
         end).
Proof.
  induction catalog as [ | p rest IH].
  - destruct productId; reflexivity.
  - cbn [map JS.find].
    change (Ecommerce.has_id (inr productId) (Ecommerce.product_value p))
      with (@inr JS.Error bool
              (JS.strict_equals (JS.Number (Ecommerce.id p)) productId)).
    destruct productId as [ | | b | x | text | elems | props];
      try exact IH.
    cbn [JS.strict_equals resolve List.find].
    destruct (PrimFloat.eqb (Ecommerce.id p) x); [reflexivity | exact IH].
Qed.

(** X4: against a catalog of products, [getProductById] issues one request
    and returns the first product whose id is the given number, or [null]
    when no product has it; an id that is not a number, such as the string
    of a number, finds nothing. *)
Theorem getProductById_first_match W client catalog s :
  current_catalog W client catalog ->
  (forall productId,
      Ecommerce.getProductById W client productId s
      = (Normal (lookup_product catalog productId),
         fetched (products_url client) GET s))
  /\ (forall text,
         fst (Ecommerce.getProductById W client (JS.Str text) s) = Normal JS.Null)
  /\ fst (Ecommerce.getProductById W client JS.Undefined s) = Normal JS.Null.
Proof.
  intro Hcatalog.
  assert (Hfind : forall productId,
             Ecommerce.getProductById W client productId s
             = (Normal (lookup_product catalog productId),
                fetched (products_url client) GET s)).
  { intro productId. unfold Ecommerce.getProductById. unfold bind at 1.
    rewrite (getProducts_current W client catalog s Hcatalog).
    unfold Ecommerce.catalog_value at 1. cbn [JS.array_receiver lift].
    unfold bind at 1. cbn [ret]. rewrite find_by_id. cbn [lift].
    unfold bind at 1. cbn [ret]. unfold lookup_product.
    destruct productId as [ | | b | x | text | elems | props]; try reflexivity.
    destruct (resolve catalog x); reflexivity. }
  split; [exact Hfind | ].
  split; [intro text | ]; rewrite Hfind; reflexivity.
Qed.

(** X5: when the items are neither an array nor a string (a missing
    [items] argument is [undefined]), [createOrder] fails the caller: its
    loop throws [items is not iterable], the [catch] block fetches the
    products again and throws the same way; no order is posted.  Through
    the executor, a [place_order] call without [items] throws this error. *)
Theorem createOrder_rejects_non_iterable_items W client items customerEmail s :
  not_iterable_value items ->
  Ecommerce.createOrder W client items customerEmail s
  = (Throw (JS.not_iterable "items"),
     fetched (products_url client) GET (fetched (products_url client) GET s))
  /\ forall args,
       JS.get args "items" = inr items ->
       fst (Agent.executeTool W "place_order" args s) = Throw (JS.not_iterable "items").
Proof.
  intro Hitems.
  assert (Htotal : forall products,
             Ecommerce.order_total products items = inl (JS.not_iterable "items")).
  { intro products. destruct items; try contradiction; reflexivity. }
  assert (Hcreate : forall s',
             Ecommerce.createOrder W client items customerEmail s'
             = (Throw (JS.not_iterable "items"),
                fetched (products_url client) GET
                  (fetched (products_url client) GET s'))).
  { intro s'. rewrite createOrder_unfold. cbv zeta. rewrite Htotal.
    rewrite order_anyway_unfold. cbv zeta. rewrite Htotal. reflexivity. }
  split; [apply Hcreate | ].
  intros args Hargs.
  assert (Hemail : exists customerEmail', JS.get args "customerEmail" = inr customerEmail').
  { destruct args; try discriminate Hargs; eexists; reflexivity. }
  destruct Hemail as [customerEmail' Hemail].
  assert (Horder : Agent.order_items items = items).
  { destruct items; try contradiction; reflexivity. }
  assert (Htotal' : forall products,
             Ecommerce.order_total products items = inl (JS.not_iterable "items"))
    by exact Htotal.
  unfold Agent.executeTool, startSpan, try_catch.
  unfold bind at 1. cbn [emit modify fst snd].
  unfold bind at 1. unfold get_this. unfold bind at 1.
  unfold Agent.run_tool. cbn [String.eqb Ascii.eqb Bool.eqb].
  rewrite Hargs. cbn [lift]. unfold bind at 1. cbn [ret].
  rewrite Horder, Hemail. cbn [lift]. unfold bind at 1. cbn [ret].
  rewrite createOrder_unfold. cbv zeta. rewrite Htotal'.
  rewrite order_anyway_unfold. cbv zeta. rewrite Htotal'.
  reflexivity.
Qed.

(* ===================================================================== *)
(** * What the executor and the model gateway report *)
(* ===================================================================== *)

Lemma run_tool_same_telemetry W client toolName args :
  stable same_telemetry (Agent.run_tool W client toolName args).
Proof.
  apply stable_run_tool.
  - intro s. reflexivity.
  - intros a b c H1 H2. unfold same_telemetry in *. congruence.
  - intros url init s. unfold do_fetch. destruct (fetch W _ url init); reflexivity.
  - intro s. reflexivity.
Qed.

Lemma run_tool_same_agent W client toolName args :
  stable same_agent (Agent.run_tool W client toolName args).
Proof.
  apply stable_run_tool.
  - exact same_agent_refl.
  - exact same_agent_trans.
  - intros url init s. unfold do_fetch.
    destruct (fetch W _ url init); split; reflexivity.
  - intro s. split; reflexivity.
Qed.

(** The executor, written out around its [switch]. *)
Lemma executeTool_unfold W toolName args s :
  Agent.executeTool W toolName args s =
  let span := SpanStart "gen_ai.execute_tool" ("execute_tool " ++ toolName) in
  let '(c, s1) :=
    Agent.run_tool W (ecommerceClient (this s)) toolName args (snd (emit span s)) in
  match c with
  | Normal result => (Normal result, snd (emit (SpanEnd "gen_ai.execute_tool") s1))
  | Throw error =>
      (Throw error,
       snd (emit (SpanEnd "gen_ai.execute_tool")
              (snd (emit (CaptureException error "tool_execution")
                      (snd (emit (SetStatus 2 "tool_execution_failed") s1))))))
  end.
Proof.
  unfold Agent.executeTool, startSpan, try_catch, bind, get_this.
  cbn [emit modify fst snd this].
  destruct (Agent.run_tool W (ecommerceClient (this s)) toolName args _)
    as [[result | error] s1]; reflexivity.
Qed.

(** X6: whatever the tool and its arguments, one tool execution leaves the
    agent object and the requests sent to the model untouched, and reports
    to telemetry exactly one span, with, when the tool throws, one failed
    status and one captured exception carrying the error thrown. *)
Theorem executeTool_reports_once W toolName args s :
  let executed := Agent.executeTool W toolName args s in
  this (snd executed) = this s
  /\ chats (snd executed) = chats s
  /\ telemetry (snd executed) = telemetry s ++ tool_report toolName (fst executed).
Proof.
  cbv zeta.
  destruct (executeTool_same_agent W toolName args s) as [Hthis Hchats].
  split; [exact Hthis | ]. split; [exact Hchats | ].
  rewrite executeTool_unfold. cbv zeta.
  match goal with
  | |- context [Agent.run_tool W ?c toolName args ?st] =>
      pose proof (run_tool_same_telemetry W c toolName args st) as Htel;
      destruct (Agent.run_tool W c toolName args st) as [[result | error] s1]
  end; unfold same_telemetry in Htel; cbn [emit modify fst snd telemetry] in Htel;
    cbn [emit modify fst snd telemetry tool_report failure_report];
    rewrite Htel, <- !app_assoc; reflexivity.
Qed.

(** X7: a tool call whose arguments decode never stops the loop: whether
    the tool returns or throws, the dispatch completes and appends exactly
    one tool message, the serialized result or the failure record with the
    message of the error and the name of the tool; the cost and the
    requests sent to the model are untouched. *)
Theorem dispatch_turns_failure_into_message W toolCall args s :
  Agent.decode_arguments toolCall = inr args ->
  let toolName := name (function toolCall) in
  let executed := Agent.executeTool W toolName args s in
  let dispatched := Agent.dispatch W toolCall s in
  fst dispatched = Normal tt
  /\ (exists m,
         history (snd dispatched) = history s ++ [m]
         /\ role m = tool
         /\ tool_calls m = None
         /\ (forall error,
                fst executed = Throw error ->
                m = Agent.failure_message error toolName)
         /\ (forall result,
                fst executed = Normal result ->
                result <> JS.Undefined ->
                m = Agent.result_message result))
  /\ chats (snd dispatched) = chats s
  /\ totalConversationCost (this (snd dispatched)) = totalConversationCost (this s).
Proof.
  intros Hdec. cbv zeta.
  rewrite (dispatch_decoded W toolCall args s Hdec). cbv zeta.
  destruct (executeTool_same_agent W (name (function toolCall)) args s)
    as [Hthis Hchats].
  destruct (Agent.executeTool W (name (function toolCall)) args s) as [c s1].
  cbn [fst snd] in *.
  split; [reflexivity | ]. split; [ | split ].
  - exists (reply_to (name (function toolCall)) c).
    split; [rewrite history_push; unfold history; rewrite Hthis; reflexivity | ].
    split; [apply role_reply_to | ].
    split; [destruct c as [[ | | | | | | ] | ]; reflexivity | ].
    split.
    + intros error ->. reflexivity.
    + intros result -> Hdefined. destruct result; try reflexivity.
      contradiction Hdefined. reflexivity.
  - rewrite chats_push. exact Hchats.
  - cbn [Agent.push modify snd set_this this totalConversationCost].
    rewrite Hthis. reflexivity.
Qed.

(** One request to the model is one attempt: [makeRequest] sends the
    model, the messages and the tool registry once, returns the reply of
    the backend as it is or re-throws the error of the backend as it is,
    reports one span, with the error captured once when the request fails,
    and leaves the agent object untouched. *)
Lemma makeRequest_is_one_attempt W messages s :
  let request := chat_request (this s) messages in
  let outcome := ollama_chat W (List.length (chats s)) request in
  let requested := Agent.makeRequest W messages s in
  fst requested = match outcome with
                  | inr response => Normal response
                  | inl error => Throw error
                  end
  /\ chats (snd requested) = chats s ++ [request]
  /\ request_tools request = Ecommerce.ecommerceTools
  /\ telemetry (snd requested) = telemetry s ++ request_report (this s) outcome
  /\ this (snd requested) = this s
  /\ fetches (snd requested) = fetches s.
Proof.
  cbv zeta.
  cbv [Agent.makeRequest bind get_this startSpan try_catch emit modify do_chat
       ret throw chat_request request_report].
  simpl. destruct (ollama_chat W _ _); simpl; rewrite <- ?app_assoc; auto 10.
Qed.

(** X9: the [get_products] tool never fails: whatever its arguments and
    whatever the backend does, the executor returns the products the
    backend sent or the fallback catalog, after exactly one request to the
    backend. *)
Theorem get_products_tool_never_fails W args s :
  let executed := Agent.executeTool W "get_products" args s in
  fst executed
  = Normal (products_from
              (fetch W (List.length (fetches s))
                 (products_url (ecommerceClient (this s))) GET))
  /\ fetches (snd executed)
     = fetches s ++ [(products_url (ecommerceClient (this s)), GET)].
Proof.
  cbv zeta. rewrite executeTool_unfold. cbv zeta.
  unfold Agent.run_tool. cbn [String.eqb Ascii.eqb Bool.eqb].
  rewrite getProducts_spec. split; reflexivity.
Qed.

(* ===================================================================== *)
(** * What [chat] does to the agent *)
(* ===================================================================== *)

Lemma same_settings_refl a : same_settings a a.
Proof. repeat split. Qed.

Lemma grows_refl s : grows s s.
Proof.
  split; [exists []; rewrite app_nil_r; split; [reflexivity | constructor] | ].
  split; [apply same_settings_refl | reflexivity].
Qed.

Lemma grows_trans a b c : grows a b -> grows b c -> grows a c.
Proof.
  intros ((m1 & H1 & F1) & (S1 & S2 & S3 & S4) & C1)
         ((m2 & H2 & F2) & (T1 & T2 & T3 & T4) & C2).
  split; [ | split ].
  - exists (m1 ++ m2). split; [rewrite H2, H1, app_assoc; reflexivity | ].
    apply Forall_app. split; assumption.
  - repeat split; congruence.
  - congruence.
Qed.

Lemma grows_same_this s s' : this s' = this s -> grows s s'.
Proof.
  intro H. unfold grows, history. rewrite H.
  split; [exists []; rewrite app_nil_r; split; [reflexivity | constructor] | ].
  split; [apply same_settings_refl | reflexivity].
Qed.

Lemma grows_push m s : role m <> system -> grows s (snd (Agent.push m s)).
Proof.
  intro Hm. split; [ | split; [repeat split | reflexivity] ].
  exists [m]. split; [apply history_push | constructor; [exact Hm | constructor]].
Qed.

Lemma agent_loop_grows W fuel l : stable grows (Agent.agent_loop W fuel l).
Proof.
  apply stable_agent_loop.
  - exact grows_refl.
  - exact grows_trans.
  - intros e s. apply grows_same_this. reflexivity.
  - intros url init s. apply grows_same_this. unfold do_fetch.
    destruct (fetch W _ url init); reflexivity.
  - intro s. apply grows_same_this. reflexivity.
  - intros m Hm s. apply grows_push. exact Hm.
  - intros request s. apply grows_same_this. unfold do_chat.
    destruct (ollama_chat W _ request); reflexivity.
Qed.

Lemma grows_seeded s s' : grows s s' -> seeded s -> seeded s'.
Proof.
  intros ((added & Hh & Hadded) & _) (rest & Hs & Hrest).
  exists (rest ++ added). split; [rewrite Hh, Hs; reflexivity | ].
  apply Forall_app. split; assumption.
Qed.

(** The state in which [chat] enters its loop. *)
Lemma chat_entry_grows userMessage s :
  let s1 := snd (Agent.push (user_message userMessage)
                   (snd (emit (SpanStart "gen_ai.invoke_agent"
                                 "invoke_agent Ecommerce Agent") s))) in
  history s1 = history s ++ [user_message userMessage]
  /\ chats s1 = chats s
  /\ same_settings (this s) (this s1)
  /\ totalConversationCost (this s1) = totalConversationCost (this s).
Proof. cbv zeta. repeat split. Qed.

Lemma settle_keeps l s :
  history (settle l s) = history s
  /\ chats (settle l s) = chats s
  /\ same_settings (this s) (this (settle l s)).
Proof. unfold settle. destruct (_ && _); repeat split. Qed.

(** What [chat] does to the agent, however it completes. *)
Lemma chat_grows W userMessage s :
  let s' := snd (Agent.chat W userMessage s) in
  (exists added,
      history s' = history s ++ user_message userMessage :: added
      /\ Forall (fun m => role m <> system) added)
  /\ same_settings (this s) (this s')
  /\ (forall e,
         fst (Agent.chat W userMessage s) = Throw e ->
         e = Agent.iteration_is_not_defined
         /\ totalConversationCost (this s') = totalConversationCost (this s))
  /\ (enableCostTracking (this s) = false ->
      totalConversationCost (this s') = totalConversationCost (this s)).
Proof.
  cbv zeta. rewrite chat_unfold. cbv zeta.
  set (s1 := snd (Agent.push (user_message userMessage)
                    (snd (emit (SpanStart "gen_ai.invoke_agent"
                                  "invoke_agent Ecommerce Agent") s)))).
  destruct (chat_entry_grows userMessage s) as (Hh1 & _ & Hs1 & Hc1). fold s1 in Hh1, Hs1, Hc1.
  destruct (agent_loop_grows W Agent.maxIterations initial_locals s1)
    as ((added & Hh & Hadded) & Hs2 & Hc2).
  destruct (Agent.agent_loop W Agent.maxIterations initial_locals s1) as [[l | e] s2];
    cbn [fst snd] in *.
  - destruct (settle_keeps l s2) as (Hh3 & _ & Hs3).
    assert (Hset : same_settings (this s) (this (settle l s2))).
    { destruct Hs1 as (A1 & A2 & A3 & A4), Hs2 as (B1 & B2 & B3 & B4),
        Hs3 as (C1 & C2 & C3 & C4). repeat split; congruence. }
    split; [ | split; [exact Hset | split ] ].
    + exists added. split; [ | exact Hadded ].
      change (history (settle l s2) = history s ++ user_message userMessage :: added).
      rewrite Hh3, Hh, Hh1, <- app_assoc. reflexivity.
    + intros e He. discriminate He.
    + intro Hoff.
      change (totalConversationCost (this (settle l s2)) = totalConversationCost (this s)).
      unfold settle.
      assert (Hflag : enableCostTracking (this s2) = false).
      { destruct Hs1 as (_ & _ & _ & A4), Hs2 as (_ & _ & _ & B4). congruence. }
      rewrite Hflag. cbn [andb]. congruence.
  - assert (Hset : same_settings (this s) (this s2)).
    { destruct Hs1 as (A1 & A2 & A3 & A4), Hs2 as (B1 & B2 & B3 & B4).
      repeat split; congruence. }
    split; [ | split; [exact Hset | split ] ].
    + exists added. split; [ | exact Hadded ].
      change (history s2 = history s ++ user_message userMessage :: added).
      rewrite Hh, Hh1, <- app_assoc. reflexivity.
    + intros e' He. injection He as <-. split; [reflexivity | ].
      change (totalConversationCost (this s2) = totalConversationCost (this s)).
      congruence.
    + intros _.
      change (totalConversationCost (this s2) = totalConversationCost (this s)).
      congruence.
Qed.

(** X10: however [chat] completes, it only appends to the conversation:
    the earlier messages stay as they are, the user message comes next,
    then messages that are not system messages; and it never changes the
    model, the Ollama host, the ecommerce client or the cost-tracking
    setting of the agent. *)
Theorem chat_only_appends W userMessage s :
  let s' := snd (Agent.chat W userMessage s) in
  (exists added,
      history s' = history s ++ user_message userMessage :: added
      /\ Forall (fun m => role m <> system) added)
  /\ model (this s') = model (this s)
  /\ ollama (this s') = ollama (this s)
  /\ ecommerceClient (this s') = ecommerceClient (this s)
  /\ enableCostTracking (this s') = enableCostTracking (this s).
Proof.
  destruct (chat_grows W userMessage s) as (Hh & (H1 & H2 & H3 & H4) & _).
  cbv zeta. auto.
Qed.

(** X11: when [chat] throws, the error the caller receives is the
    ReferenceError of its [catch] block, whatever went wrong; the
    conversation keeps all that was appended before the failure, the user
    message first (nothing is rolled back), and the cumulative cost is
    unchanged. *)
Theorem chat_failure_keeps_partial_conversation W userMessage s e :
  fst (Agent.chat W userMessage s) = Throw e ->
  let s' := snd (Agent.chat W userMessage s) in
  e = Agent.iteration_is_not_defined
  /\ Agent.getTotalCost (this s') = Agent.getTotalCost (this s)
  /\ exists added, history s' = history s ++ user_message userMessage :: added.
Proof.
  intro He. cbv zeta.
  destruct (chat_grows W userMessage s) as ((added & Hh & _) & _ & Hthrow & _).
  destruct (Hthrow e He) as (-> & Hcost).
  split; [reflexivity | ]. split; [exact Hcost | ]. exists added. exact Hh.
Qed.

Lemma reachable_cost_off W s :
  Reachable W s ->
  enableCostTracking (this s) = false ->
  totalConversationCost (this s) = 0%float.
Proof.
  induction 1 as [config | s userMessage _ IH | s _ IH]; intro Hoff.
  - reflexivity.
  - destruct (chat_grows W userMessage s) as (_ & (_ & _ & _ & Hflag) & _ & Hkeep).
    cbv zeta in Hflag, Hkeep. rewrite Hflag in Hoff.
    rewrite (Hkeep Hoff). apply IH. exact Hoff.
  - reflexivity.
Qed.

(** X12: with cost tracking disabled, the cumulative cost stays at 0: in
    every state reachable by chats and resets [getTotalCost()] is 0, and it
    is still 0 after one more [chat], whatever token counts the backend
    reports. *)
Theorem disabled_cost_tracking_costs_nothing W s :
  Reachable W s ->
  enableCostTracking (this s) = false ->
  Agent.getTotalCost (this s) = 0%float
  /\ forall userMessage,
       Agent.getTotalCost (this (snd (Agent.chat W userMessage s))) = 0%float.
Proof.
  intros Hreach Hoff. split; [exact (reachable_cost_off W s Hreach Hoff) | ].
  intro userMessage.
  apply (reachable_cost_off W _ (Reachable_chat W s userMessage Hreach)).
  destruct (chat_grows W userMessage s) as (_ & (_ & _ & _ & Hflag) & _).
  cbv zeta in Hflag. congruence.
Qed.

(* ===================================================================== *)
(** * A reply without tool calls, and the requests [chat] sends *)
(* ===================================================================== *)

(** X13: when the model's first reply requests no tool, [chat] returns the
    text of that reply (or the empty string when it has none) after exactly
    one request and no HTTP call; the conversation grows by the user message
    and that answer, and the cost of the reported tokens is added when cost
    tracking is enabled and some tokens were reported. *)
Theorem chat_returns_plain_reply W userMessage s response :
  ollama_chat W (List.length (chats s))
    (chat_request (this s) (history s ++ [user_message userMessage])) = inr response ->
  Agent.requested_tool_calls response = None ->
  let text := Agent.content_or_empty response in
  let input := Agent.track 0 (prompt_eval_count response) in
  let output := Agent.track 0 (eval_count response) in
  let run := Agent.chat W userMessage s in
  fst run = Normal text
  /\ history (snd run) = history s ++ [user_message userMessage; final_answer text]
  /\ chats (snd run)
     = chats s ++ [chat_request (this s) (history s ++ [user_message userMessage])]
  /\ fetches (snd run) = fetches s
  /\ Agent.getTotalCost (this (snd run))
     = if enableCostTracking (this s) && (0 <? input + output)%float
       then (Agent.getTotalCost (this s)
             + Agent.calculateCost (this s) input output)%float
       else Agent.getTotalCost (this s).
Proof.
  intros Hreply Hcalls. cbv zeta. rewrite chat_unfold. cbv zeta.
  set (s1 := snd (Agent.push (user_message userMessage)
                    (snd (emit (SpanStart "gen_ai.invoke_agent"
                                  "invoke_agent Ecommerce Agent") s)))).
  change Agent.maxIterations with 10%nat. rewrite agent_loop_S.
  change (Agent.iteration initial_locals <? Agent.maxIterations)%nat with true.
  cbv iota. unfold bind. rewrite turn_unfold.
  destruct (makeRequest_spec W (history s1) s1) as (Hfst & Hthis & Hchats & Hfetches).
  cbv zeta in Hfst, Hthis, Hchats, Hfetches.
  change (ollama_chat W (List.length (chats s1)) (chat_request (this s1) (history s1)))
    with (ollama_chat W (List.length (chats s))
            (chat_request (this s) (history s ++ [user_message userMessage]))) in Hfst.
  rewrite Hreply in Hfst.
  destruct (Agent.makeRequest W (history s1) s1) as [r sr].
  cbn [fst snd] in Hfst, Hthis, Hchats, Hfetches. subst r. rewrite Hcalls.
  cbn [ret fst snd].
  split; [reflexivity | ].
  unfold settle, Agent.getTotalCost, Agent.calculateCost, history.
  cbn [Agent.push Agent.add_cost modify set_this emit fst snd this chats fetches
       enableCostTracking conversationHistory totalConversationCost
       after_turn initial_locals Agent.totalInputTokens Agent.totalOutputTokens].
  rewrite Hthis.
  change (enableCostTracking (this s1)) with (enableCostTracking (this s)).
  change (totalConversationCost (this s1)) with (totalConversationCost (this s)).
  change (conversationHistory (this s1))
    with (conversationHistory (this s) ++ [user_message userMessage]).
  destruct (enableCostTracking (this s));
    [ destruct (0 <? _)%float | ];
    cbn [andb negb this chats fetches set_this conversationHistory
         totalConversationCost];
    rewrite <- app_assoc; repeat split; assumption.
Qed.

Ltac grows_steps :=
  first
    [ exact grows_refl
    | exact grows_trans
    | intros ? ?; apply grows_same_this; reflexivity
    | intros ? ? ?; apply grows_same_this; unfold do_fetch;
      destruct (fetch _ _ _ _); reflexivity
    | intros ? ? ?; apply grows_push; assumption
    | intros ? ?; apply grows_same_this; unfold do_chat;
      destruct (ollama_chat _ _ _); reflexivity ].

Lemma turn_grows W l : stable grows (Agent.turn W l).
Proof. apply stable_turn; grows_steps. Qed.

Lemma agent_loop_requests W fuel :
  forall l s,
    seeded s ->
    Forall (well_formed_request (model (this s))) (chats s) ->
    Forall (well_formed_request (model (this s)))
      (chats (snd (Agent.agent_loop W fuel l s))).
Proof.
  induction fuel as [ | fuel IH]; intros l s Hseed Hall.
  - cbn [Agent.agent_loop]. destruct (_ <? _)%nat; exact Hall.
  - rewrite agent_loop_S. destruct (_ <? _)%nat; [ | exact Hall ].
    unfold bind.
    pose proof (turn_chats W l s) as Hchats.
    pose proof (turn_grows W l s) as Hgrows.
    destruct (Agent.turn W l s) as [[[l' | l'] | e] s1]; cbn [fst snd] in *.
    all: assert (Hmodel : model (this s1) = model (this s))
      by (destruct Hgrows as (_ & (_ & Hm & _) & _); exact Hm).
    all: assert (Hall1 : Forall (well_formed_request (model (this s1))) (chats s1)).
    all: try (rewrite Hmodel, Hchats; apply Forall_app; split; [exact Hall | ];
              constructor; [ | constructor ];
              destruct Hseed as (rest & Hh & _);
              split; [reflexivity | split; [reflexivity | ] ];
              cbn [chat_request request_messages]; rewrite Hh; reflexivity).
    + rewrite <- Hmodel. apply IH; [exact (grows_seeded _ _ Hgrows Hseed) | exact Hall1].
    + rewrite <- Hmodel. exact Hall1.
    + rewrite <- Hmodel. exact Hall1.
Qed.

Lemma chat_requests W userMessage s :
  seeded s ->
  Forall (well_formed_request (model (this s))) (chats s) ->
  Forall (well_formed_request (model (this s)))
    (chats (snd (Agent.chat W userMessage s))).
Proof.
  intros Hseed Hall. rewrite chat_unfold. cbv zeta.
  set (s1 := snd (Agent.push (user_message userMessage)
                    (snd (emit (SpanStart "gen_ai.invoke_agent"
                                  "invoke_agent Ecommerce Agent") s)))).
  assert (Hseed1 : seeded s1).
  { destruct Hseed as (rest & Hh & Hrest).
    exists (rest ++ [user_message userMessage]). split.
    - change (history s1) with (history s ++ [user_message userMessage]).
      rewrite Hh. reflexivity.
    - apply Forall_app. split; [exact Hrest | ].
      constructor; [discriminate | constructor]. }
  pose proof (agent_loop_requests W Agent.maxIterations initial_locals s1 Hseed1 Hall)
    as Hloop.
  change (model (this s1)) with (model (this s)) in Hloop.
  destruct (Agent.agent_loop W Agent.maxIterations initial_locals s1) as [[l | e] s2];
    cbn [fst snd] in *.
  - destruct (settle_keeps l s2) as (_ & Hc & _).
    change (Forall (well_formed_request (model (this s))) (chats (settle l s2))).
    rewrite Hc. exact Hloop.
  - exact Hloop.
Qed.

(** X14: every request the agent has ever sent to the model names the
    agent's configured model, offers the whole tool registry, and carries a
    conversation that starts with the seed system message, in every state
    reachable by chats and resets. *)
Theorem every_request_is_well_formed W s :
  Reachable W s ->
  Forall (well_formed_request (model (this s))) (chats s).
Proof.
  induction 1 as [config | s userMessage Hreach IH | s _ IH].
  - constructor.
  - destruct (chat_grows W userMessage s) as (_ & (_ & Hm & _) & _).
    cbv zeta in Hm. rewrite Hm.
    apply chat_requests; [exact (reachable_seeded W s Hreach) | exact IH].
  - exact IH.
Qed.

(** X15: after [reset()] the model no longer sees the earlier
    conversation: the first request of the next [chat] carries exactly the
    seed system message and the new user message. *)
Theorem reset_forgets_conversation W s userMessage :
  Reachable W s ->
  let s0 := set_this (Agent.reset (this s)) s in
  exists more,
    chats (snd (Agent.chat W userMessage s0))
    = chats s
      ++ chat_request (this s) [Agent.systemMessage; user_message userMessage] :: more.
Proof.
  intros Hreach. cbv zeta.
  destruct (reachable_seeded W s Hreach) as (rest & Hh & _).
  rewrite chat_unfold. cbv zeta.
  set (s1 := snd (Agent.push (user_message userMessage) _)).
  assert (Hchats1 : chats s1 = chats s) by reflexivity.
  assert (Hreq : chat_request (this s1) (history s1)
                 = chat_request (this s)
                     [Agent.systemMessage; user_message userMessage]).
  { unfold chat_request, history. subst s1.
    cbn [Agent.push modify set_this emit fst snd this Agent.reset model
         conversationHistory].
    unfold history in Hh. rewrite Hh. reflexivity. }
  destruct (agent_loop_first_request W 9 initial_locals s1) as [more Hmore].
  { cbn. unfold Agent.maxIterations. lia. }
  change (S 9) with Agent.maxIterations in Hmore.
  rewrite Hchats1, Hreq in Hmore.
  exists more.
  destruct (Agent.agent_loop W Agent.maxIterations initial_locals s1) as [[l | e] s2];
    cbn [fst snd] in *.
  - destruct (settle_keeps l s2) as (_ & Hc & _).
    change (chats (settle l s2) = chats s ++ chat_request (this s)
              [Agent.systemMessage; user_message userMessage] :: more).
    rewrite Hc. exact Hmore.
  - exact Hmore.
Qed.

(* ===================================================================== *)
(** * The command-line program *)
(* ===================================================================== *)

Lemma ask_unfold W message after s :
  Cli.ask W message after s =
  (Normal (match fst (Agent.chat W message s) with
           | Normal response => Cli.AgentSays response :: after
           | Throw error => [Cli.ErrorShown error]
           end),
   snd (Agent.chat W message s)).
Proof.
  unfold Cli.ask, try_catch, bind.
  destruct (Agent.chat W message s) as [[response | error] s']; reflexivity.
Qed.

Lemma on_input_unfold W input s :
  Cli.on_input W input s =
  let message := Cli.trim input in
  if String.eqb message "" then (Normal ([], None), s)
  else if String.eqb (JS.toLowerCase message) "exit" then
    (Normal ([Cli.Goodbye], Some (Cli.Exited 0)), s)
  else if String.eqb (JS.toLowerCase message) "reset" then
    (Normal ([Cli.ResetDone], None), set_this (Agent.reset (this s)) s)
  else if String.eqb (JS.toLowerCase message) "history" then
    (Normal ([Cli.HistoryShown (Agent.getHistory (this s))], None), s)
  else
    (Normal (Cli.Thinking :: match fst (Agent.chat W message s) with
                             | Normal response => [Cli.AgentSays response]
                             | Throw error => [Cli.ErrorShown error]
                             end, None),
     snd (Agent.chat W message s)).
Proof.
  unfold Cli.on_input. cbv zeta.
  destruct (String.eqb (Cli.trim input) ""); [reflexivity | ].
  destruct (String.eqb (JS.toLowerCase (Cli.trim input)) "exit"); [reflexivity | ].
  destruct (String.eqb (JS.toLowerCase (Cli.trim input)) "reset"); [reflexivity | ].
  destruct (String.eqb (JS.toLowerCase (Cli.trim input)) "history"); [reflexivity | ].
  unfold bind. rewrite ask_unfold. reflexivity.
Qed.

Lemma interactiveMode_cons W input rest s :
  Cli.interactiveMode W (input :: rest) s =
  match Cli.on_input W input s with
  | (Normal (printed, Some ending), s1) => (Normal (printed, ending), s1)
  | (Normal (printed, None), s1) =>
      match Cli.interactiveMode W rest s1 with
      | (Normal (printed', ending), s2) => (Normal (printed ++ printed', ending), s2)
      | (Throw e, s2) => (Throw e, s2)
      end
  | (Throw e, s1) => (Throw e, s1)
  end.
Proof.
  cbn [Cli.interactiveMode]. unfold bind.
  destruct (Cli.on_input W input s) as [[[printed [ending | ]] | e] s1];
    cbn [fst snd]; try reflexivity.
  destruct (Cli.interactiveMode W rest s1) as [[[printed' ending] | e] s2]; reflexivity.
Qed.

Lemma demo_loop_cons W query rest s :
  Cli.demo_loop W (query :: rest) s =
  let s1 := snd (Agent.chat W query s) in
  match Cli.demo_loop W rest s1 with
  | (Normal more, s2) =>
      (Normal (Cli.Asked query
                 :: match fst (Agent.chat W query s) with
                    | Normal response => [Cli.AgentSays response; Cli.Waited 2000]
                    | Throw error => [Cli.ErrorShown error]
                    end ++ more), s2)
  | (Throw e, s2) => (Throw e, s2)
  end.
Proof.
  cbn [Cli.demo_loop]. unfold bind at 1. rewrite ask_unfold. cbv zeta.
  unfold bind.
  destruct (Cli.demo_loop W rest (snd (Agent.chat W query s))) as [[more | e] s2];
    reflexivity.
Qed.

(** A line of input is handled without an exception, and can only end the
    session with the exit status 0. *)
Lemma on_input_normal W input s :
  exists printed next,
    fst (Cli.on_input W input s) = Normal (printed, next)
    /\ (next = None \/ next = Some (Cli.Exited 0)).
Proof.
  rewrite on_input_unfold. cbv zeta.
  repeat (destruct (String.eqb _ _); [eexists; eexists; split; [reflexivity | auto] | ]).
  eexists; eexists; split; [reflexivity | auto].
Qed.

Lemma interactiveMode_normal W inputs :
  forall s,
  exists printed ending,
    fst (Cli.interactiveMode W inputs s) = Normal (printed, ending)
    /\ (ending = Cli.Exited 0 \/ ending = Cli.InputClosed).
Proof.
  induction inputs as [ | input rest IH]; intro s.
  - exists [], Cli.InputClosed. split; [reflexivity | auto].
  - rewrite interactiveMode_cons.
    destruct (on_input_normal W input s) as (printed & next & Hfst & Hnext).
    destruct (Cli.on_input W input s) as [r s1]. cbn [fst] in Hfst. subst r.
    destruct Hnext as [-> | ->].
    + destruct (IH s1) as (printed' & ending & Hfst' & Hending).
      destruct (Cli.interactiveMode W rest s1) as [r s2]. cbn [fst] in Hfst'. subst r.
      exists (printed ++ printed'), ending. split; [reflexivity | exact Hending].
    + exists printed, (Cli.Exited 0). split; [reflexivity | auto].
Qed.

Lemma demo_loop_normal W queries :
  forall s, exists printed, fst (Cli.demo_loop W queries s) = Normal printed.
Proof.
  induction queries as [ | query rest IH]; intro s.
  - exists []. reflexivity.
  - rewrite demo_loop_cons. cbv zeta.
    destruct (IH (snd (Agent.chat W query s))) as (more & Hmore).
    destruct (Cli.demo_loop W rest _) as [r s2]. cbn [fst] in Hmore. subst r.
    eexists. reflexivity.
Qed.

Lemma main_normal W mode inputs s :
  exists printed ending,
    fst (Cli.main W mode inputs s) = Normal (printed, ending)
    /\ (ending = Cli.Exited 0 \/ ending = Cli.InputClosed)
    /\ (mode = Some "demo" -> ending = Cli.Exited 0).
Proof.
  unfold Cli.main.
  destruct mode as [m | ].
  - destruct (String.eqb_spec m "demo") as [-> | Hm].
    + unfold Cli.demoMode, bind.
      destruct (demo_loop_normal W Cli.demoQueries s) as (printed & Hp).
      destruct (Cli.demo_loop W Cli.demoQueries s) as [r s1]. cbn [fst] in Hp. subst r.
      eexists; eexists. split; [reflexivity | auto].
    + destruct (interactiveMode_normal W inputs s) as (printed & ending & Hp & He).
      exists printed, ending. split; [exact Hp | ]. split; [exact He | ].
      intro H. injection H as ->. contradiction Hm. reflexivity.
  - destruct (interactiveMode_normal W inputs s) as (printed & ending & Hp & He).
    exists printed, ending. split; [exact Hp | ]. split; [exact He | ].
    intro H. discriminate H.
Qed.

Lemma program_is_main W mode inputs s :
  Cli.program W mode inputs s = Cli.main W mode inputs s.
Proof.
  unfold Cli.program, try_catch.
  destruct (main_normal W mode inputs s) as (printed & ending & Hp & _).
  destruct (Cli.main W mode inputs s) as [r s1]. cbn [fst] in Hp. subst r. reflexivity.
Qed.


(** What holds of every step of the agent holds of a run of the program:
    the program changes the agent only by [chat] and [reset()]. *)
Section CliSteps.

Variable W : World.
Variable R : State -> State -> Prop.
Hypothesis R_refl : forall s, R s s.
Hypothesis R_trans : forall a b c, R a b -> R b c -> R a c.
Hypothesis R_chat : forall message s, R s (snd (Agent.chat W message s)).
Hypothesis R_reset : forall s, R s (set_this (Agent.reset (this s)) s).

Lemma on_input_steps input s : R s (snd (Cli.on_input W input s)).
Proof.
  rewrite on_input_unfold. cbv zeta.
  repeat (destruct (String.eqb _ _); [first [apply R_refl | apply R_reset] | ]).
  apply R_chat.
Qed.

Lemma interactiveMode_steps inputs :
  forall s, R s (snd (Cli.interactiveMode W inputs s)).
Proof.
  induction inputs as [ | input rest IH]; intro s.
  - apply R_refl.
  - rewrite interactiveMode_cons.
    pose proof (on_input_steps input s) as Hstep.
    destruct (Cli.on_input W input s) as [[[printed [ending | ]] | e] s1];
      cbn [snd] in *; try exact Hstep.
    pose proof (IH s1) as Hrest.
    destruct (Cli.interactiveMode W rest s1) as [[[printed' ending] | e] s2];
      cbn [snd] in *; exact (R_trans _ _ _ Hstep Hrest).
Qed.

Lemma demo_loop_steps queries :
  forall s, R s (snd (Cli.demo_loop W queries s)).
Proof.
  induction queries as [ | query rest IH]; intro s.
  - apply R_refl.
  - rewrite demo_loop_cons. cbv zeta.
    pose proof (IH (snd (Agent.chat W query s))) as Hrest.
    destruct (Cli.demo_loop W rest _) as [[more | e] s2]; cbn [snd] in *;
      exact (R_trans _ _ _ (R_chat query s) Hrest).
Qed.

Lemma program_steps mode inputs s : R s (snd (Cli.program W mode inputs s)).
Proof.
  rewrite program_is_main. unfold Cli.main.
  destruct (match mode with Some m => String.eqb m "demo" | None => false end).
  - unfold Cli.demoMode, bind.
    pose proof (demo_loop_steps Cli.demoQueries s) as H.
    destruct (Cli.demo_loop W Cli.demoQueries s) as [[printed | e] s1];
      cbn [snd] in *; exact H.
  - apply interactiveMode_steps.
Qed.

End CliSteps.

Lemma program_reachable W mode inputs s :
  Reachable W s -> Reachable W (snd (Cli.program W mode inputs s)).
Proof.
  revert s.
  apply (program_steps W (fun s s' => Reachable W s -> Reachable W s')).
  - auto.
  - auto.
  - intros message s H. apply Reachable_chat. exact H.
  - intros s H. apply Reachable_reset. exact H.
Qed.

Lemma chat_same_settings W message s :
  same_settings (this s) (this (snd (Agent.chat W message s))).
Proof. destruct (chat_grows W message s) as (_ & H & _). exact H. Qed.

Lemma program_same_settings W mode inputs s :
  same_settings (this s) (this (snd (Cli.program W mode inputs s))).
Proof.
  apply (program_steps W (fun s s' => same_settings (this s) (this s'))).
  - intros s0. apply same_settings_refl.
  - intros a b c (A1 & A2 & A3 & A4) (B1 & B2 & B3 & B4). repeat split; congruence.
  - apply chat_same_settings.
  - intros s0. repeat split.
Qed.

(** X17: whatever the user types, the command-line program changes the
    agent only through [chat] and [reset()]: the state after a run, in
    either mode, is one reachable by chats and resets, with the settings the
    program configured; in particular its conversation still starts with the
    seed system message and holds no other system message. *)
Theorem program_keeps_agent_well_formed W env mode inputs :
  let s' := snd (Cli.program W mode inputs (Cli.agent env)) in
  Reachable W s'
  /\ seeded s'
  /\ model (this s') = Cli.OLLAMA_MODEL env
  /\ ollama (this s') = Cli.OLLAMA_HOST env
  /\ ecommerceClient (this s') = Cli.ecommerceClient env
  /\ enableCostTracking (this s') = Cli.ENABLE_COST_TRACKING env.
Proof.
  cbv zeta.
  assert (Hreach : Reachable W (snd (Cli.program W mode inputs (Cli.agent env))))
    by (apply program_reachable; apply Reachable_new).
  destruct (program_same_settings W mode inputs (Cli.agent env)) as (H1 & H2 & H3 & H4).
  split; [exact Hreach | ]. split; [exact (reachable_seeded W _ Hreach) | ].
  rewrite H1, H2, H3, H4. unfold Cli.agent, Cli.config, Cli.OLLAMA_HOST, Cli.or_default.
  cbn. repeat split.
  destruct (env "OLLAMA_HOST") as [host | ]; [ | reflexivity ].
  destruct (String.eqb host "") eqn:Hhost; [reflexivity | ]. rewrite Hhost. reflexivity.
Qed.

Lemma chat_sends_a_request W message s :
  List.length (chats s) + 1 <= List.length (chats (snd (Agent.chat W message s))).
Proof.
  rewrite chat_unfold. cbv zeta.
  set (s1 := snd (Agent.push (user_message message) _)).
  destruct (agent_loop_first_request W 9 initial_locals s1) as [more Hmore].
  { cbn. unfold Agent.maxIterations. lia. }
  change (S 9) with Agent.maxIterations in Hmore.
  assert (Hlen : List.length (chats s) + 1
                 <= List.length (chats (snd (Agent.agent_loop W Agent.maxIterations
                                               initial_locals s1)))).
  { rewrite Hmore, length_app. cbn [List.length].
    change (chats s1) with (chats s). lia. }
  destruct (Agent.agent_loop W Agent.maxIterations initial_locals s1) as [[l | e] s2];
    cbn [fst snd] in *.
  - destruct (settle_keeps l s2) as (_ & Hc & _).
    change (List.length (chats s) + 1 <= List.length (chats (settle l s2))).
    rewrite Hc. exact Hlen.
  - exact Hlen.
Qed.

Lemma demo_loop_conversation W queries :
  forall s,
  let s' := snd (Cli.demo_loop W queries s) in
  (exists appended,
      List.length appended = List.length queries
      /\ history s' = history s ++ conversation (combine queries appended))
  /\ List.length (chats s) + List.length queries <= List.length (chats s')
  /\ List.length (chats s') <= List.length (chats s) + 10 * List.length queries.
Proof.
  induction queries as [ | query rest IH]; intro s; cbv zeta.
  - split; [exists []; split; [reflexivity | symmetry; apply app_nil_r] | ].
    cbn. lia.
  - rewrite demo_loop_cons. cbv zeta.
    destruct (IH (snd (Agent.chat W query s))) as ((appended & Hlen & Hh) & Hlo & Hhi).
    cbv zeta in Hh, Hlo, Hhi.
    destruct (chat_grows W query s) as ((added & Hadded & _) & _).
    pose proof (chat_sends_a_request W query s) as Hone.
    pose proof (chat_chats_bound W query s) as Hten.
    destruct (Cli.demo_loop W rest (snd (Agent.chat W query s))) as [[more | e] s2];
      cbn [snd] in *.
    all: (split;
          [ exists (added :: appended); split;
            [ cbn [List.length]; rewrite Hlen; reflexivity
            | rewrite Hh, Hadded; cbn [combine conversation];
              rewrite <- !app_assoc; reflexivity ]
          | cbn [List.length]; lia ]).
Qed.

(** X18: the demo is one growing conversation: [demoMode] never throws,
    asks its three queries in order in the same conversation (each query is
    followed by what the agent appended for it, also when an earlier query
    failed), and sends between 3 and 30 requests to the model. *)
Theorem demoMode_is_one_conversation W s :
  let run := Cli.demoMode W s in
  (exists printed, fst run = Normal printed)
  /\ (exists appended,
         List.length appended = 3
         /\ history (snd run)
            = history s ++ conversation (combine Cli.demoQueries appended))
  /\ List.length (chats s) + 3 <= List.length (chats (snd run))
  /\ List.length (chats (snd run)) <= List.length (chats s) + 30.
Proof.
  cbv zeta. unfold Cli.demoMode, bind.
  destruct (demo_loop_normal W Cli.demoQueries s) as (printed & Hp).
  destruct (demo_loop_conversation W Cli.demoQueries s) as (Hh & Hlo & Hhi).
  cbv zeta in Hh, Hlo, Hhi.
  destruct (Cli.demo_loop W Cli.demoQueries s) as [r s1]. cbn [fst snd] in *. subst r.
  cbn [fst snd ret].
  split; [eexists; reflexivity | ].
  split; [exact Hh | ]. split; [exact Hlo | exact Hhi].
Qed.




(** X21: the program tracks cost only when the environment variable
    [ENABLE_COST_TRACKING] is exactly [true]: with any other value, or
    without it, the cumulative cost is 0 after every run, whatever token
    counts the model reports. *)
Theorem cost_tracking_needs_exact_true W env mode inputs :
  env "ENABLE_COST_TRACKING" <> Some "true" ->
  Agent.getTotalCost (this (snd (Cli.program W mode inputs (Cli.agent env)))) = 0%float.
Proof.
  intro Hnot.
  apply (reachable_cost_off W).
  - apply program_reachable. apply Reachable_new.
  - destruct (program_same_settings W mode inputs (Cli.agent env)) as (_ & _ & _ & H).
    rewrite H. cbn. unfold Cli.ENABLE_COST_TRACKING.
    destruct (env "ENABLE_COST_TRACKING") as [v | ]; [ | reflexivity ].
    destruct (String.eqb_spec v "true") as [-> | _]; [ | reflexivity ].
    contradiction Hnot. reflexivity.
Qed.

(* ===================================================================== *)
(** * The errors a tool can fail with *)
(* ===================================================================== *)

Lemma bind_sum_TypeError {A B} (r : JS.Error + A) (k : A -> JS.Error + B) :
  fails_only_with_TypeError r ->
  (forall a, fails_only_with_TypeError (k a)) ->
  fails_only_with_TypeError (bind_sum r k).
Proof.
  intros Hr Hk e. destruct r as [e' | a]; cbn [bind_sum].
  - intro H. injection H as <-. apply Hr. reflexivity.
  - apply Hk.
Qed.

Lemma inr_TypeError {A} (a : A) : fails_only_with_TypeError (inr a : JS.Error + A).
Proof. intros e H. discriminate H. Qed.

Lemma get_TypeError v k : fails_only_with_TypeError (JS.get v k).
Proof. intros e. destruct v; cbn; intro H; try discriminate H; injection H as <-; reflexivity. Qed.

Lemma call_toLowerCase_TypeError expr v :
  fails_only_with_TypeError (JS.call_toLowerCase expr v).
Proof. intros e. destruct v; cbn; intro H; try discriminate H; injection H as <-; reflexivity. Qed.

Lemma array_receiver_TypeError expr meth v :
  fails_only_with_TypeError (JS.array_receiver expr meth v).
Proof. intros e. destruct v; cbn; intro H; try discriminate H; injection H as <-; reflexivity. Qed.

Lemma iterate_TypeError expr v : fails_only_with_TypeError (JS.iterate expr v).
Proof. intros e. destruct v; cbn; intro H; try discriminate H; injection H as <-; reflexivity. Qed.

Lemma ToNumber_TypeError v : fails_only_with_TypeError (JS.ToNumber v).
Proof.
  intros e. destruct v; cbn [JS.ToNumber]; try (intro H; discriminate H).
  all: destruct (JS.toString_throws _); intro H; try discriminate H;
    injection H as <-; reflexivity.
Qed.

Lemma multiply_TypeError a b : fails_only_with_TypeError (JS.multiply a b).
Proof.
  intros e. unfold JS.multiply.
  pose proof (ToNumber_TypeError a) as Ha. pose proof (ToNumber_TypeError b) as Hb.
  destruct (JS.ToNumber a) as [ea | x].
  - intro H. injection H as <-. apply Ha. reflexivity.
  - destruct (JS.ToNumber b) as [eb | y]; intro H; [ | discriminate H ].
    injection H as <-. apply Hb. reflexivity.
Qed.

Lemma find_TypeError pred elems :
  (forall p, fails_only_with_TypeError (pred p)) ->
  fails_only_with_TypeError (JS.find pred elems).
Proof.
  intros Hpred e. induction elems as [ | p rest IH]; cbn [JS.find].
  - intro H. discriminate H.
  - pose proof (Hpred p) as Hp.
    destruct (pred p) as [e' | [ | ]].
    + intro H. injection H as <-. apply Hp. reflexivity.
    + intro H. discriminate H.
    + exact IH.
Qed.

Lemma filter_TypeError pred elems :
  (forall p, fails_only_with_TypeError (pred p)) ->
  fails_only_with_TypeError (JS.filter pred elems).
Proof.
  intros Hpred. induction elems as [ | p rest IH]; intro e; cbn [JS.filter].
  - intro H. discriminate H.
  - pose proof (Hpred p) as Hp.
    destruct (pred p) as [e' | b].
    + intro H. injection H as <-. apply Hp. reflexivity.
    + destruct (JS.filter pred rest) as [e' | kept]; intro H; [ | discriminate H ].
      injection H as <-. apply IH. reflexivity.
Qed.

Lemma matches_TypeError lowerQuery p :
  fails_only_with_TypeError (Ecommerce.matches lowerQuery p).
Proof.
  unfold Ecommerce.matches.
  apply bind_sum_TypeError; [apply get_TypeError | intro p_name].
  apply bind_sum_TypeError; [apply call_toLowerCase_TypeError | intro lower_name].
  destruct (JS.includes lower_name lowerQuery); [apply inr_TypeError | ].
  apply bind_sum_TypeError; [apply get_TypeError | intro p_category].
  destruct (JS.truthy p_category); [ | apply inr_TypeError ].
  apply bind_sum_TypeError; [apply call_toLowerCase_TypeError | intro].
  apply inr_TypeError.
Qed.

Lemma has_id_TypeError wanted p :
  fails_only_with_TypeError wanted ->
  fails_only_with_TypeError (Ecommerce.has_id wanted p).
Proof.
  intro Hw. unfold Ecommerce.has_id.
  apply bind_sum_TypeError; [apply get_TypeError | intro p_id].
  apply bind_sum_TypeError; [exact Hw | intro]. apply inr_TypeError.
Qed.

Lemma add_item_TypeError products total item :
  fails_only_with_TypeError (Ecommerce.add_item products total item).
Proof.
  unfold Ecommerce.add_item.
  apply bind_sum_TypeError; [apply array_receiver_TypeError | intro elems].
  apply bind_sum_TypeError;
    [apply find_TypeError; intro; apply has_id_TypeError; apply get_TypeError
    | intro product].
  destruct (JS.truthy product); [ | apply inr_TypeError ].
  apply bind_sum_TypeError; [apply get_TypeError | intro].
  apply bind_sum_TypeError; [apply get_TypeError | intro].
  apply bind_sum_TypeError; [apply multiply_TypeError | intro].
  apply inr_TypeError.
Qed.

Lemma order_total_TypeError products items :
  fails_only_with_TypeError (Ecommerce.order_total products items).
Proof.
  unfold Ecommerce.order_total.
  apply bind_sum_TypeError; [apply iterate_TypeError | intro elems].
  generalize zero. induction elems as [ | item rest IH]; intro total;
    cbn [Ecommerce.add_items]; [apply inr_TypeError | ].
  apply bind_sum_TypeError; [apply add_item_TypeError | intro total']. apply IH.
Qed.

Lemma ret_TypeError {A} (a : A) : throws_only_TypeError (ret a).
Proof. intros s e H. discriminate H. Qed.

Lemma lift_TypeError {A} (r : JS.Error + A) :
  fails_only_with_TypeError r -> throws_only_TypeError (lift r).
Proof.
  intros Hr s e. destruct r as [e' | a]; cbn; intro H; [ | discriminate H ].
  injection H as <-. apply Hr. reflexivity.
Qed.

Lemma bind_TypeError {A B} (m : M A) (k : A -> M B) :
  throws_only_TypeError m ->
  (forall a, throws_only_TypeError (k a)) ->
  throws_only_TypeError (bind m k).
Proof.
  intros Hm Hk s e. unfold bind. pose proof (Hm s) as Hms.
  destruct (m s) as [[a | e'] s1]; cbn [fst] in *.
  - apply Hk.
  - intro H. injection H as <-. apply Hms. reflexivity.
Qed.

Lemma try_catch_TypeError {A} (body : M A) (handler : JS.Error -> M A) :
  (forall error, throws_only_TypeError (handler error)) ->
  throws_only_TypeError (try_catch body handler).
Proof.
  intros Hh s e. unfold try_catch.
  destruct (body s) as [[a | e'] s1]; [intro H; discriminate H | apply Hh].
Qed.

Lemma getProducts_TypeError W client :
  throws_only_TypeError (Ecommerce.getProducts W client).
Proof. apply try_catch_TypeError. intro. apply ret_TypeError. Qed.

Lemma now_TypeError W : throws_only_TypeError (now W).
Proof. intros s e H. discriminate H. Qed.

Lemma run_tool_TypeError W client toolName args :
  registered toolName ->
  throws_only_TypeError (Agent.run_tool W client toolName args).
Proof.
  intro Hreg. apply registered_cases in Hreg. unfold Agent.run_tool.
  destruct (String.eqb toolName "get_products"); [apply getProducts_TypeError | ].
  destruct (String.eqb toolName "search_products").
  { apply bind_TypeError; [apply lift_TypeError, get_TypeError | intro query].
    unfold Ecommerce.searchProducts.
    apply bind_TypeError; [apply getProducts_TypeError | intro].
    apply bind_TypeError; [apply lift_TypeError, call_toLowerCase_TypeError | intro].
    apply bind_TypeError; [apply lift_TypeError, array_receiver_TypeError | intro].
    apply bind_TypeError;
      [apply lift_TypeError, filter_TypeError; intro; apply matches_TypeError | intro].
    apply ret_TypeError. }
  destruct (String.eqb toolName "get_product_details").
  { apply bind_TypeError; [apply lift_TypeError, get_TypeError | intro productId].
    unfold Ecommerce.getProductById.
    apply bind_TypeError; [apply getProducts_TypeError | intro].
    apply bind_TypeError; [apply lift_TypeError, array_receiver_TypeError | intro].
    apply bind_TypeError;
      [apply lift_TypeError, find_TypeError; intro; apply has_id_TypeError,
         inr_TypeError | intro].
    apply ret_TypeError. }
  destruct (String.eqb toolName "place_order"); [ | discriminate Hreg ].
  apply bind_TypeError; [apply lift_TypeError, get_TypeError | intro items].
  apply bind_TypeError; [apply lift_TypeError, get_TypeError | intro customerEmail].
  unfold Ecommerce.createOrder. apply try_catch_TypeError. intro error.
  apply bind_TypeError; [apply getProducts_TypeError | intro].
  apply bind_TypeError; [apply lift_TypeError, order_total_TypeError | intro].
  apply bind_TypeError; [apply now_TypeError | intro].
  apply ret_TypeError.
Qed.

(** X8: a tool of the registry can fail only with a TypeError, that is
    on malformed arguments or malformed catalog data: a failure of the
    backend (network error, HTTP error status, unreadable body) never
    surfaces from the executor, for any of the four tools. *)
Theorem registered_tools_fail_only_with_TypeError W toolName args s e :
  registered toolName ->
  fst (Agent.executeTool W toolName args s) = Throw e ->
  JS.error_name e = "TypeError".
Proof.
  intros Hreg. rewrite executeTool_unfold. cbv zeta.
  pose proof (run_tool_TypeError W (ecommerceClient (this s)) toolName args Hreg
                (snd (emit (SpanStart "gen_ai.execute_tool"
                              ("execute_tool " ++ toolName)) s))) as Hrun.
  destruct (Agent.run_tool W _ toolName args _) as [[result | error] s1];
    cbn [fst] in *; intro H; [discriminate H | ].
  injection H as <-. apply Hrun. reflexivity.
Qed.

(* ===================================================================== *)
(** * The properties at work on concrete runs *)
(* ===================================================================== *)


(** X3 at work: a search without a query. *)
Lemma searchProducts_rejects_non_string_query_witness :
  let W := Scenario.show_products in
  let s := Agent.initial Scenario.config in
  not_a_string JS.Undefined
  /\ exists e,
       JS.error_name e = "TypeError"
       /\ Ecommerce.searchProducts W Scenario.client JS.Undefined s
          = (Throw e, fetched (products_url Scenario.client) GET s).
Proof.
  cbv zeta. split; [exact I | ].
  exact (searchProducts_rejects_non_string_query Scenario.show_products Scenario.client
           JS.Undefined (Agent.initial Scenario.config) I).
Defined.

(** X4 at work: looking up the product 2 of the fallback catalog, and the
    same id written as a string. *)
Lemma getProductById_first_match_witness :
  let W := Scenario.show_products in
  let s := Agent.initial Scenario.config in
  current_catalog W Scenario.client Ecommerce.mockProducts
  /\ Ecommerce.getProductById W Scenario.client (JS.Number 2) s
     = (Normal (lookup_product Ecommerce.mockProducts (JS.Number 2)),
        fetched (products_url Scenario.client) GET s)
  /\ fst (Ecommerce.getProductById W Scenario.client (JS.Str "2") s) = Normal JS.Null.
Proof.
  cbv zeta.
  assert (H : current_catalog Scenario.show_products Scenario.client
                Ecommerce.mockProducts) by (intro n; reflexivity).
  split; [exact H | ].
  destruct (getProductById_first_match Scenario.show_products Scenario.client
              Ecommerce.mockProducts (Agent.initial Scenario.config) H)
    as (Hnumber & Htext & _).
  split; [exact (Hnumber (JS.Number 2)) | exact (Htext "2")].
Defined.

(** X5 at work: an order whose items are [null]. *)
Lemma createOrder_rejects_non_iterable_items_witness :
  let W := Scenario.show_products in
  let s := Agent.initial Scenario.config in
  not_iterable_value JS.Null
  /\ fst (Ecommerce.createOrder W Scenario.client JS.Null (JS.Str "a@b.c") s)
     = Throw (JS.not_iterable "items").
Proof.
  cbv zeta. split; [exact I | ].
  destruct (createOrder_rejects_non_iterable_items Scenario.show_products
              Scenario.client JS.Null (JS.Str "a@b.c")
              (Agent.initial Scenario.config) I) as (H & _).
  rewrite H. reflexivity.
Defined.

(** X7 at work: the call of a tool that does not exist is answered by a
    tool message. *)
Lemma dispatch_turns_failure_into_message_witness :
  let W := Scenario.asks_unknown_tool in
  let toolCall := Scenario.call "cancel_order" (JS.Object []) in
  let s := Scenario.asked "Cancel my order" in
  Agent.decode_arguments toolCall = inr (JS.Object [])
  /\ fst (Agent.dispatch W toolCall s) = Normal tt
  /\ chats (snd (Agent.dispatch W toolCall s)) = chats s.
Proof.
  cbv zeta.
  assert (H : Agent.decode_arguments (Scenario.call "cancel_order" (JS.Object []))
              = inr (JS.Object [])) by reflexivity.
  split; [exact H | ].
  destruct (dispatch_turns_failure_into_message Scenario.asks_unknown_tool
              (Scenario.call "cancel_order" (JS.Object [])) (JS.Object [])
              (Scenario.asked "Cancel my order") H) as (H1 & _ & H2 & _).
  split; [exact H1 | exact H2].
Defined.

(** X11 at work: the model backend is down. *)
Lemma chat_failure_keeps_partial_conversation_witness :
  let W := Scenario.model_down in
  let s := Agent.initial Scenario.config in
  fst (Agent.chat W "Hi" s) = Throw Agent.iteration_is_not_defined
  /\ Agent.getTotalCost (this (snd (Agent.chat W "Hi" s))) = Agent.getTotalCost (this s)
  /\ exists added,
       history (snd (Agent.chat W "Hi" s)) = history s ++ user_message "Hi" :: added.
Proof.
  cbv zeta.
  assert (H : fst (Agent.chat Scenario.model_down "Hi" (Agent.initial Scenario.config))
              = Throw Agent.iteration_is_not_defined) by reflexivity.
  split; [exact H | ].
  exact (proj2 (chat_failure_keeps_partial_conversation Scenario.model_down "Hi"
                  (Agent.initial Scenario.config) Agent.iteration_is_not_defined H)).
Defined.

(** X12 at work: the program's agent when [ENABLE_COST_TRACKING] is not
    set, after a first chat in which the model reports 1500 tokens. *)
Lemma disabled_cost_tracking_costs_nothing_witness :
  let W := Scenario.show_products in
  let s := snd (Agent.chat W "Show me products" (Cli.agent (fun _ => None))) in
  Reachable W s
  /\ enableCostTracking (this s) = false
  /\ Agent.getTotalCost (this s) = 0%float.
Proof.
  cbv zeta.
  assert (Hreach : Reachable Scenario.show_products
                     (snd (Agent.chat Scenario.show_products "Show me products"
                             (Cli.agent (fun _ => None)))))
    by (apply Reachable_chat, Reachable_new).
  assert (Hoff : enableCostTracking
                   (this (snd (Agent.chat Scenario.show_products "Show me products"
                                 (Cli.agent (fun _ => None))))) = false)
    by reflexivity.
  split; [exact Hreach | ]. split; [exact Hoff | ].
  exact (proj1 (disabled_cost_tracking_costs_nothing Scenario.show_products _
                  Hreach Hoff)).
Defined.

(** X13 at work: the model answers in plain text at once. *)
Lemma chat_returns_plain_reply_witness :
  let W := Scenario.confirms_orders in
  let s := Agent.initial Scenario.config in
  ollama_chat W (List.length (chats s))
    (chat_request (this s) (history s ++ [user_message "Hello"]))
  = inr (Scenario.says "Done." 0 0)
  /\ Agent.requested_tool_calls (Scenario.says "Done." 0 0) = None
  /\ fst (Agent.chat W "Hello" s) = Normal "Done."
  /\ history (snd (Agent.chat W "Hello" s))
     = history s ++ [user_message "Hello"; final_answer "Done."].
Proof.
  cbv zeta.
  split; [reflexivity | ]. split; [reflexivity | ].
  destruct (chat_returns_plain_reply Scenario.confirms_orders "Hello"
              (Agent.initial Scenario.config) (Scenario.says "Done." 0 0)
              eq_refl eq_refl) as (H1 & H2 & _).
  split; [exact H1 | exact H2].
Defined.

(** X14 at work: the two requests of a chat with one tool call. *)
Lemma every_request_is_well_formed_witness :
  let W := Scenario.show_products in
  let s := snd (Agent.chat W "Show me products" (Agent.initial Scenario.config)) in
  Reachable W s
  /\ List.length (chats s) = 2
  /\ Forall (well_formed_request (model (this s))) (chats s).
Proof.
  cbv zeta.
  assert (Hreach : Reachable Scenario.show_products
                     (snd (Agent.chat Scenario.show_products "Show me products"
                             (Agent.initial Scenario.config))))
    by (apply Reachable_chat, Reachable_new).
  split; [exact Hreach | ]. split; [reflexivity | ].
  exact (every_request_is_well_formed Scenario.show_products _ Hreach).
Defined.

(** X15 at work: a chat, a reset, and a second chat. *)
Lemma reset_forgets_conversation_witness :
  let W := Scenario.show_products in
  let s := snd (Agent.chat W "Show me products" (Agent.initial Scenario.config)) in
  Reachable W s
  /\ exists more,
       chats (snd (Agent.chat W "And now?" (set_this (Agent.reset (this s)) s)))
       = chats s
         ++ chat_request (this s) [Agent.systemMessage; user_message "And now?"] :: more.
Proof.
  cbv zeta.
  assert (Hreach : Reachable Scenario.show_products
                     (snd (Agent.chat Scenario.show_products "Show me products"
                             (Agent.initial Scenario.config))))
    by (apply Reachable_chat, Reachable_new).
  split; [exact Hreach | ].
  exact (reset_forgets_conversation Scenario.show_products _ "And now?" Hreach).
Defined.


(** X21 at work: [ENABLE_COST_TRACKING=TRUE], in capitals, does not enable
    cost tracking. *)
Lemma cost_tracking_needs_exact_true_witness :
  let env := fun k => if String.eqb k "ENABLE_COST_TRACKING" then Some "TRUE" else None in
  let W := Scenario.asks_unknown_tool in
  (env "ENABLE_COST_TRACKING" <> Some "true")
  /\ Agent.getTotalCost
       (this (snd (Cli.program W None ["Cancel my order"] (Cli.agent env)))) = 0%float.
Proof.
  cbv zeta.
  assert (H : (if String.eqb "ENABLE_COST_TRACKING" "ENABLE_COST_TRACKING"
               then Some "TRUE" else None) <> Some "true")
    by (cbn; discriminate).
  split; [exact H | ].
  exact (cost_tracking_needs_exact_true Scenario.asks_unknown_tool
           (fun k => if String.eqb k "ENABLE_COST_TRACKING" then Some "TRUE" else None)
           None ["Cancel my order"] H).
Defined.

(** X8 at work: a search without a query fails with a TypeError. *)
Lemma registered_tools_fail_only_with_TypeError_witness :
  let W := Scenario.show_products in
  let s := Scenario.asked "Find something" in
  let e := JS.cannot_read "undefined" "toLowerCase" in
  registered "search_products"
  /\ fst (Agent.executeTool W "search_products" (JS.Object []) s) = Throw e
  /\ JS.error_name e = "TypeError".
Proof.
  cbv zeta.
  assert (Hreg : registered "search_products") by (right; left; reflexivity).
  assert (Hthrow : fst (Agent.executeTool Scenario.show_products "search_products"
                          (JS.Object []) (Scenario.asked "Find something"))
                   = Throw (JS.cannot_read "undefined" "toLowerCase"))
    by reflexivity.
  split; [exact Hreg | ]. split; [exact Hthrow | ].
  exact (registered_tools_fail_only_with_TypeError Scenario.show_products
           "search_products" (JS.Object []) (Scenario.asked "Find something")
           (JS.cannot_read "undefined" "toLowerCase") Hreg Hthrow).
Defined.
